(** * garmin-connect: the [GarminConnect] client facade

    A shallow embedding of [src/garmin/GarminConnect.ts] and of the file
    helpers of [src/utils.ts] (checkIsDirectory, createDirectory,
    writeToFile), together with the platform functions they call
    ([node:fs], [node:path], [JSON], lodash's [includes]).

    Layout:
    - JavaScript data: JSON values over the numbers of the platform, and
      truthiness; [JSON.stringify] and [JSON.parse] are operations of the
      platform, known by the law that parsing reads back what was written;
    - errors and the state-and-exception monad the methods run in;
    - the file system and the helpers of [utils.ts];
    - the [HttpClient] collaborator (its module is not part of the sources
      at hand: it is an oracle carried by the world);
    - the methods of class [GarminConnect], one definition per method;
    - a small platform (integer numbers, a JSON writer and reader) on which
      the examples run;
    - the properties, which hold on every platform, and the examples. *)

From Stdlib Require Import ZArith List Ascii String Bool Lia.
From Stdlib Require Import DecimalString DecimalZ DecimalFacts DecimalPos.
From stdpp Require Import base option gmap strings.
Import ListNotations.

Set Warnings "-register-all".

Local Open Scope string_scope.
Local Open Scope Z_scope.
Local Arguments String.append : simpl nomatch.

(* ===================================================================== *)
(** ** JavaScript data *)
(* ===================================================================== *)

(** The numbers of JavaScript (IEEE 754 doubles) are left open: the class
    never computes with a number, it hands numbers on, tests them for
    truthiness and writes them into strings. *)
Class Numbers : Type := {
  number : Type;
  (** [!n]: the zeros and NaN *)
  Number_falsy : number -> bool;
  (** the numbers JSON text carries as they are: the finite ones other
      than the negative zero *)
  Number_json_safe : number -> bool;
  (** [String(n)] *)
  Number_toString : number -> string
}.

Section Data.

Context `{NUM : Numbers}.

(** JSON data as [JSON.parse] produces it, with these choices:
    - strings are byte strings, the UTF-8 text of the JavaScript string;
    - an object lists its properties in the order JavaScript enumerates
      them; the values a JavaScript object can be are those of [json_safe]
      below. *)
Inductive json : Type :=
| JNull
| JBool (b : bool)
| JNum (n : number)
| JStr (s : string)
| JArr (items : list json)
| JObj (props : list (string * json)).

(** [!!v] of JavaScript: [null], [false], a falsy number and the empty
    string are falsy. *)
Definition truthy (v : json) : bool :=
  match v with
  | JNull => false
  | JBool b => b
  | JNum n => negb (Number_falsy n)
  | JStr s => negb (String.eqb s "")
  | JArr _ | JObj _ => true
  end.

(** A variable that may hold [undefined]. *)
Definition truthy_opt (o : option json) : bool :=
  match o with
  | None => false
  | Some v => truthy v
  end.

(** What an HTTP call resolves to: nothing, decoded data, or raw bytes (a
    Node [Buffer], delivered for [responseType: 'arraybuffer']). *)
Inductive payload : Type :=
| PUndefined
| PData (v : json)
| PBuffer (bytes : string).

Definition truthy_payload (p : payload) : bool :=
  match p with
  | PUndefined => false
  | PData v => truthy v
  | PBuffer _ => true
  end.

(** Induction on JSON data, with the hypothesis for every item of an array
    and every property of an object. *)
Section json_induction.
Variable P : json -> Prop.
Hypothesis Hnull : P JNull.
Hypothesis Hbool : forall b, P (JBool b).
Hypothesis Hnum : forall n, P (JNum n).
Hypothesis Hstr : forall s, P (JStr s).
Hypothesis Harr : forall l, Forall P l -> P (JArr l).
Hypothesis Hobj : forall l, Forall (fun kv => P (snd kv)) l -> P (JObj l).

Fixpoint json_nested_ind (v : json) : P v :=
  match v with
  | JNull => Hnull
  | JBool b => Hbool b
  | JNum n => Hnum n
  | JStr s => Hstr s
  | JArr l =>
      Harr l ((fix go (l : list json) : Forall P l :=
                 match l with
                 | [] => @List.Forall_nil _ P
                 | x :: r => @List.Forall_cons _ P x r (json_nested_ind x) (go r)
                 end) l)
  | JObj l =>
      Hobj l ((fix go (l : list (string * json)) : Forall (fun kv => P (snd kv)) l :=
                 match l with
                 | [] => @List.Forall_nil _ _
                 | kv :: r =>
                     @List.Forall_cons _ (fun kv => P (snd kv)) kv r
                       (json_nested_ind (snd kv)) (go r)
                 end) l)
  end.
End json_induction.

End Data.

(** [JSON.stringify] and [JSON.parse] of the platform, on data and on the
    bytes of a text.  [None] stands for the SyntaxError [JSON.parse] throws,
    whose message is the platform's too. *)
Class Json `{NUM : Numbers} : Type := {
  JSON_stringify : json -> string;
  JSON_parse : string -> option json;
  JSON_parse_message : string -> string
}.

(* --------------------------------------------------------------------- *)
(** *** Characters *)

Definition char_code (c : ascii) : N := N_of_ascii c.

Definition is_digit (c : ascii) : bool :=
  ((48 <=? char_code c) && (char_code c <=? 57))%N.

(** [String.prototype.toLowerCase], on the ASCII letters. *)
Definition lower_char (c : ascii) : ascii :=
  let n := char_code c in
  if ((65 <=? n) && (n <=? 90))%N then ascii_of_N (n + 32) else c.

Fixpoint toLowerCase (s : string) : string :=
  match s with
  | EmptyString => EmptyString
  | String c r => String (lower_char c) (toLowerCase r)
  end.

(* ===================================================================== *)
(** ** Errors and the monad of the methods *)
(* ===================================================================== *)

Inductive errno : Type := ENOENT | EEXIST | ENOTDIR | EISDIR.

(** Thrown values: [new Error(message)] of this module, the system errors of
    [node:fs], and the built-in TypeError and SyntaxError. *)
Inductive error : Type :=
| Error (message : string)
| SystemError (code : errno) (syscall : string) (path : string)
| TypeError (message : string)
| SyntaxError (message : string).

Definition errno_text (c : errno) : string :=
  match c with
  | ENOENT => "ENOENT: no such file or directory"
  | EEXIST => "EEXIST: file already exists"
  | ENOTDIR => "ENOTDIR: not a directory"
  | EISDIR => "EISDIR: illegal operation on a directory"
  end.

(** [error.message] *)
Definition message (e : error) : string :=
  match e with
  | Error m | TypeError m | SyntaxError m => m
  | SystemError c syscall path => errno_text c +:+ ", " +:+ syscall +:+ " '" +:+ path +:+ "'"
  end.

Definition result (A : Type) : Type := (error + A)%type.

(** Computations over a state [S] that return or throw; the state reached
    when an exception is thrown is kept, as in JavaScript. *)
Definition ST (S A : Type) : Type := S -> result A * S.

Definition ret {S A} (a : A) : ST S A := fun s => (inr a, s).
Definition throw {S A} (e : error) : ST S A := fun s => (inl e, s).
Definition bind {S A B} (c : ST S A) (k : A -> ST S B) : ST S B :=
  fun s =>
    match c s with
    | (inr a, s') => k a s'
    | (inl e, s') => (inl e, s')
    end.
Definition gets {S A} (f : S -> A) : ST S A := fun s => (inr (f s), s).
Definition modify {S} (f : S -> S) : ST S unit := fun s => (inr tt, f s).

(** [try { body } catch (error) { handler }] *)
Definition try_catch {S A} (body : ST S A) (handler : error -> ST S A) : ST S A :=
  fun s =>
    match body s with
    | (inr a, s') => (inr a, s')
    | (inl e, s') => handler e s'
    end.

Notation "'do' x <- c ; k" := (bind c (fun x => k))
  (at level 10, x name, c at level 100, k at level 200, only parsing).

Section Model.

Context `{NUM : Numbers} `{JSON : !Json}.

(* ===================================================================== *)
(** ** The world: file system, HTTP service, module state *)
(* ===================================================================== *)

(** What a path names: a file with its bytes, or a directory (symbolic
    links are not modelled).  The file system is keyed by the paths as the
    program passes them; it stands for the system's when paths are
    absolute and in normal form ([normal_path], [well_formed] below). *)
Inductive node : Type :=
| File (content : string)
| Dir.

(** [HttpClient] as this class uses it: the holder of the two tokens
    ([undefined] until a session exists). *)
Record HttpClient : Type := mkHttpClient {
  oauth1Token : option json;
  oauth2Token : option json
}.

Inductive verb : Type := GET | POST | PUT | DELETE.

(** The body handed to a request: nothing, data, or a multipart form whose
    [userfile] part streams the named local file. *)
Inductive body : Type :=
| NoBody
| DataBody (v : json)
| FormBody (userfile : string).

(** The options object of a request.  A parameter left [undefined] is [None]. *)
Record options : Type := mkOptions {
  params : list (string * option json);
  responseType : option string;
  headers : list (string * string)
}.

Definition no_options : options := mkOptions [] None [].

Record request : Type := mkRequest {
  req_verb : verb;
  req_url : string;
  req_body : body;
  req_options : option options
}.

(** What the client is asked to do: one of the four verbs, or a login. *)
Inductive call : Type :=
| Dispatch (r : request)
| Login (username password : string).

(** The fields of a credentials object. *)
Record GCCredentials : Type := mkCredentials {
  username : string;
  password : string
}.

(** A credentials object is held by reference: the constructor keeps the
    object it is given, not a copy, and [login] assigns to its fields. *)
Definition ref : Type := positive.

(** The state outside the instance.  [service] is the behaviour of the
    [HttpClient] collaborator: given the calls made so far and the client
    state, what a call settles to and the client state it leaves.  [sent]
    logs every call passed to the collaborator with its outcome, oldest
    first.  [objects] gives the fields of every credentials object; [config]
    is the module-level variable of that name, a reference to such an
    object or [undefined]; [clock] is the current time in milliseconds. *)
Record world : Type := mkWorld {
  fs : gmap string node;
  sent : list (call * result payload);
  service : list call -> call -> HttpClient -> result payload * HttpClient;
  objects : ref -> GCCredentials;
  config : option ref;
  clock : Z
}.

Definition set_fs (f : gmap string node) (w : world) : world :=
  mkWorld f (sent w) (service w) (objects w) (config w) (clock w).

Definition log_call (c : call) (r : result payload) (w : world) : world :=
  mkWorld (fs w) (sent w ++ [(c, r)])%list (service w) (objects w) (config w) (clock w).

(** [object.username = u; object.password = p] on the object at [r]. *)
Definition set_object (r : ref) (c : GCCredentials) (w : world) : world :=
  mkWorld (fs w) (sent w) (service w)
          (fun x => if Pos.eqb x r then c else objects w x) (config w) (clock w).

(* --------------------------------------------------------------------- *)
(** *** node:path *)

(** [path.join(dir, name)] for a file name: the two joined by a slash, an
    empty [dir] counting for nothing.  (Node moreover normalises the result,
    which names the same file.) *)
Definition path_join (dir name : string) : string :=
  match dir with
  | EmptyString => name
  | _ => dir +:+ "/" +:+ name
  end.

Definition is_slash (c : ascii) : bool := (char_code c =? 47)%N.

Fixpoint before_last_slash (s : string) : option string :=
  match s with
  | EmptyString => None
  | String c r =>
      match before_last_slash r with
      | Some d => Some (String c d)
      | None => if is_slash c then Some EmptyString else None
      end
  end.

Fixpoint strip_trailing_slashes (s : string) : string :=
  match s with
  | EmptyString => EmptyString
  | String c r =>
      match strip_trailing_slashes r with
      | EmptyString => if is_slash c then EmptyString else String c EmptyString
      | r' => String c r'
      end
  end.

(** The directory a path lies in, as the system resolves it and as
    [path.dirname] gives it: what comes before the last slash that has a
    name after it, so that trailing slashes do not count; the root for a
    path right under it, and [.] for a name alone. *)
Definition dirname (p : string) : string :=
  match before_last_slash (strip_trailing_slashes p) with
  | None =>
      match p with
      | String c _ => if is_slash c then "/" else "."
      | EmptyString => "."
      end
  | Some EmptyString => "/"
  | Some d => d
  end.




Fixpoint after_last_dot (s : string) : option string :=
  match s with
  | EmptyString => None
  | String c r =>
      match after_last_dot r with
      | Some e => Some e
      | None => if (char_code c =? 46)%N then Some r else None
      end
  end.

Fixpoint basename (s : string) : string :=
  match s with
  | EmptyString => EmptyString
  | String c r =>
      match before_last_slash (String c r) with
      | Some _ => basename r
      | None => String c r
      end
  end.

(** [path.extname] of a path with no trailing slash: from the last dot of
    the last segment to its end; empty when there is no dot, when the only
    dot opens the segment, and for the segment [..]. *)
Definition extname (p : string) : string :=
  match basename p with
  | EmptyString => EmptyString
  | String c r =>
      if String.eqb (String c r) ".." then EmptyString
      else
        match after_last_dot r with
        | Some e => "." +:+ e
        | None => EmptyString
        end
  end.

(* --------------------------------------------------------------------- *)
(** *** node:fs *)

(** What a path names; the empty path names nothing. *)
Definition stat (w : world) (p : string) : option node :=
  if String.eqb p "" then None else fs w !! p.

Definition existsSync (p : string) : ST world bool :=
  gets (fun w => match stat w p with Some _ => true | None => false end).

(** [lstatSync(p).isDirectory()] *)
Definition lstatSync_isDirectory (p : string) : ST world bool :=
  fun w =>
    match stat w p with
    | Some Dir => (inr true, w)
    | Some (File _) => (inr false, w)
    | None => (inl (SystemError ENOENT "lstat" p), w)
    end.

(** [mkdirSync(p)], not recursive: the path must be free and its parent a
    directory. *)
Definition mkdirSync (p : string) : ST world unit :=
  fun w =>
    match stat w p with
    | Some _ => (inl (SystemError EEXIST "mkdir" p), w)
    | None =>
        match stat w (dirname p) with
        | Some Dir =>
            if String.eqb p "" then (inl (SystemError ENOENT "mkdir" p), w)
            else (inr tt, set_fs (<[p := Dir]> (fs w)) w)
        | Some (File _) => (inl (SystemError ENOTDIR "mkdir" p), w)
        | None => (inl (SystemError ENOENT "mkdir" p), w)
        end
    end.

(** The bytes [writeFileSync] writes for a value: a string or a Buffer; it
    throws a TypeError for anything else. *)
Definition file_bytes (data : payload) : option string :=
  match data with
  | PData (JStr s) => Some s
  | PBuffer b => Some b
  | _ => None
  end.

(** [writeFileSync(p, data)]: creates or replaces the file. *)
Definition writeFileSync (p : string) (data : payload) : ST world unit :=
  fun w =>
    match file_bytes data with
    | None =>
        (inl (TypeError "The data argument must be of type string or an instance of Buffer, TypedArray, or DataView."),
         w)
    | Some bytes =>
        match stat w p with
        | Some Dir => (inl (SystemError EISDIR "open" p), w)
        | Some (File _) => (inr tt, set_fs (<[p := File bytes]> (fs w)) w)
        | None =>
            match stat w (dirname p) with
            | Some Dir =>
                if String.eqb p "" then (inl (SystemError ENOENT "open" p), w)
                else (inr tt, set_fs (<[p := File bytes]> (fs w)) w)
            | Some (File _) => (inl (SystemError ENOTDIR "open" p), w)
            | None => (inl (SystemError ENOENT "open" p), w)
            end
        end
    end.

(** [readFileSync(p)] *)
Definition readFileSync (p : string) : ST world string :=
  fun w =>
    match stat w p with
    | Some (File bytes) => (inr bytes, w)
    | Some Dir => (inl (SystemError EISDIR "read" p), w)
    | None => (inl (SystemError ENOENT "open" p), w)
    end.

(* --------------------------------------------------------------------- *)
(** *** utils.ts *)

Definition checkIsDirectory (filePath : string) : ST world bool :=
  do e <- existsSync filePath;
  if e then lstatSync_isDirectory filePath else ret false.

Definition createDirectory (directoryPath : string) : ST world unit :=
  mkdirSync directoryPath.

Definition writeToFile (filePath : string) (data : payload) : ST world unit :=
  writeFileSync filePath data.

(* ===================================================================== *)
(** ** The collaborators of the class *)
(* ===================================================================== *)

(** [UrlClass] ([./UrlClass], built from the domain): the endpoint strings
    and endpoint builders the class reads. *)
Record UrlClass : Type := mkUrlClass {
  USER_SETTINGS : string;
  USER_PROFILE : string;
  ACTIVITIES : string;
  ACTIVITY : string;
  STAT_ACTIVITIES : string;
  ACTIVITY_GEAR : string;
  ACTIVITY_GEAR_LINK : json -> json -> string;
  ACTIVITY_GEAR_UNLINK : json -> json -> string;
  DOWNLOAD_TCX : string;
  DOWNLOAD_GPX : string;
  DOWNLOAD_KML : string;
  DOWNLOAD_ZIP : string;
  UPLOAD : string -> string;
  UPLOAD_ACTIVITY_STATUS : option Z -> json -> string;
  WORKOUTS : string;
  WORKOUT : option json -> string;
  DAILY_STEPS : string;
  DAILY_SLEEP : string;
  DAILY_WEIGHT : string;
  DAILY_HYDRATION : string;
  UPDATE_WEIGHT : string;
  HYDRATION_LOG : string;
  GOLF_SCORECARD_SUMMARY : string;
  GOLF_SCORECARD_DETAIL : string;
  DAILY_HEART_RATE : string
}.

(** A listener: what it does to the world with the data of an event. *)
Definition EventCallback : Type := json -> world -> world.

(** The fields of a [GarminConnect] instance; [credentials] refers to the
    object the constructor was given or defaulted to. *)
Record GarminConnect : Type := mkGarminConnect {
  client : HttpClient;
  _userHash : option string;
  credentials : ref;
  listeners : gmap string (list EventCallback);
  url : UrlClass
}.

Definition set_client (c : HttpClient) (g : GarminConnect) : GarminConnect :=
  mkGarminConnect c (_userHash g) (credentials g) (listeners g) (url g).

Definition set_listeners (l : gmap string (list EventCallback)) (g : GarminConnect)
  : GarminConnect :=
  mkGarminConnect (client g) (_userHash g) (credentials g) l (url g).

(** A method runs on an instance ([this]) in a world ([env]). *)
Record state : Type := mkState {
  this : GarminConnect;
  env : world
}.

(** [this.credentials.username] and [this.credentials.password] as they
    are now. *)
Definition the_credentials (s : state) : GCCredentials :=
  objects (env s) (credentials (this s)).

Definition lift_env {A} (c : ST world A) : ST state A :=
  fun s => let '(r, w) := c (env s) in (r, mkState (this s) w).

Definition set_oauth1Token (t : option json) : ST state unit :=
  modify (fun s =>
    mkState (set_client (mkHttpClient t (oauth2Token (client (this s)))) (this s)) (env s)).

Definition set_oauth2Token (t : option json) : ST state unit :=
  modify (fun s =>
    mkState (set_client (mkHttpClient (oauth1Token (client (this s))) t) (this s)) (env s)).

(** A call on [this.client]: the collaborator settles it, possibly changing
    the client, and the call is logged with its outcome. *)
Definition client_call (c : call) : ST state payload :=
  fun s =>
    let w := env s in
    let '(r, cl) := service w (map fst (sent w)) c (client (this s)) in
    (r, mkState (set_client cl (this s)) (log_call c r w)).

Definition client_get (u : string) (o : option options) : ST state payload :=
  client_call (Dispatch (mkRequest GET u NoBody o)).
Definition client_post (u : string) (b : body) (o : option options) : ST state payload :=
  client_call (Dispatch (mkRequest POST u b o)).
Definition client_put (u : string) (b : body) (o : option options) : ST state payload :=
  client_call (Dispatch (mkRequest PUT u b o)).
Definition client_delete (u : string) : ST state payload :=
  client_call (Dispatch (mkRequest DELETE u NoBody None)).
Definition client_login (u p : string) : ST state payload :=
  client_call (Login u p).

(* ===================================================================== *)
(** ** Values in strings and objects *)
(* ===================================================================== *)

(** [String(v)], the conversion a template literal and [+] on a string apply. *)
Fixpoint js_string (v : json) : string :=
  match v with
  | JNull => "null"
  | JBool true => "true"
  | JBool false => "false"
  | JNum n => Number_toString n
  | JStr s => s
  | JArr items =>
      let fix join (l : list json) : string :=
        match l with
        | [] => ""
        | [x] => match x with JNull => "" | _ => js_string x end
        | x :: r => match x with JNull => "" | _ => js_string x end +:+ "," +:+ join r
        end in
      join items
  | JObj _ => "[object Object]"
  end.

Fixpoint assoc (k : string) (l : list (string * json)) : option json :=
  match l with
  | [] => None
  | (k', v) :: r => if String.eqb k k' then Some v else assoc k r
  end.

(** [obj[k] = v]: an existing property keeps its place, a new one goes last. *)
Fixpoint set_prop (k : string) (v : json) (l : list (string * json)) : list (string * json) :=
  match l with
  | [] => [(k, v)]
  | (k', v') :: r => if String.eqb k k' then (k, v) :: r else (k', v') :: set_prop k v r
  end.

(** [v.k] on data: the property of an object, [undefined] elsewhere. *)
Definition prop (k : string) (v : json) : option json :=
  match v with
  | JObj l => assoc k l
  | _ => None
  end.

Definition pprop (k : string) (p : payload) : option json :=
  match p with
  | PData v => prop k v
  | _ => None
  end.

(** The own properties an object spread or lodash copies. *)
Definition props_of (v : json) : list (string * json) :=
  match v with
  | JObj l => l
  | _ => []
  end.

(** [_.omit(object, keys)] *)
Definition omit (v : json) (keys : list string) : list (string * json) :=
  filter (fun kv => negb (existsb (String.eqb (fst kv)) keys)) (props_of v).

(** [_.includes(collection, value)] on the values of an enum object. *)
Definition includes (values : list string) (x : string) : bool :=
  existsb (String.eqb x) values.

Definition of_option (o : option json) : payload :=
  match o with
  | Some v => PData v
  | None => PUndefined
  end.

(** The workout builder [Running] ([./workouts/Running]) as this class
    fills it in. *)
Record Running : Type := mkRunning {
  running_name : option string;
  running_distance : option number;
  running_description : option string
}.

(** The argument of [addWorkout]: plain workout data or a [Running]. *)
Inductive workout : Type :=
| WorkoutData (v : json)
| WorkoutRunning (r : Running).

(** The functions and constants of modules that are imported by the class
    but are not part of the sources at hand. *)
Record Collaborators : Type := mkCollaborators {
  (** [new UrlClass(domain)] *)
  UrlClass_new : string -> UrlClass;
  (** the values of the enum [UploadFileType] *)
  UploadFileType : list string;
  (** [./common/DateUtils] *)
  toDateString : Z -> string;
  calculateTimeDifference : json -> json -> json * json;
  getLocalTimestamp : Z -> string -> string;
  (** [./common/WeightUtils], [./common/HydrationUtils] *)
  gramsToPounds : number -> json;
  convertMLToOunces : json -> json;
  convertOuncesToML : json -> json;
  (** [Running.prototype.isValid], [toJson], and its enumerable properties *)
  Running_isValid : Running -> bool;
  Running_toJson : Running -> json;
  Running_props : Running -> json;
  (** [DateTime.now().toFormat('yyyy-MM-dd')] at a given time *)
  format_yyyy_MM_dd : Z -> string;
  (** [date.toISOString()] and [new Date(text).getTime()] ([None]: NaN) *)
  toISOString : Z -> string;
  Date_getTime : string -> option Z;
  (** the [content-type] header a new [FormData] announces *)
  form_content_type : string
}.

(* ===================================================================== *)
(** ** class GarminConnect: construction and the token store *)
(* ===================================================================== *)

Section Methods.

Variable lib : Collaborators.

(** The module initialiser: [config] is the object that requiring
    [/garmin.config.json] yields, and stays [undefined] when that throws. *)
Definition load_config (required : result ref) : option ref :=
  match required with
  | inr c => Some c
  | inl _ => None
  end.

(** [new GarminConnect(credentials, domain)]; an argument left out is [None]
    and takes its default: the module's [config], and ['garmin.com'].  The
    instance keeps the credentials object itself. *)
Definition constructor
    (credentials : option ref) (domain : option string) (w : world)
  : result GarminConnect :=
  let credentials := match credentials with Some c => Some c | None => config w end in
  let domain := match domain with Some d => d | None => "garmin.com" end in
  match credentials with
  | None => inl (Error "Missing credentials")
  | Some c =>
      inr (mkGarminConnect (mkHttpClient None None) None c ∅ (UrlClass_new lib domain))
  end.

Definition exportTokenToFile (dirPath : string) : ST state unit :=
  do isDir <- lift_env (checkIsDirectory dirPath);
  do _ <- (if negb isDir then lift_env (createDirectory dirPath) else ret tt);
  do oauth1 <- gets (fun s => oauth1Token (client (this s)));
  do _ <- match oauth1 with
          | Some t =>
              if truthy t
              then lift_env (writeToFile (path_join dirPath "oauth1_token.json")
                                         (PData (JStr (JSON_stringify t))))
              else ret tt
          | None => ret tt
          end;
  do oauth2 <- gets (fun s => oauth2Token (client (this s)));
  match oauth2 with
  | Some t =>
      if truthy t
      then lift_env (writeToFile (path_join dirPath "oauth2_token.json")
                                 (PData (JStr (JSON_stringify t))))
      else ret tt
  | None => ret tt
  end.

(** [JSON.parse] as a computation: it throws a SyntaxError. *)
Definition JSON_parse_or_throw {S} (text : string) : ST S json :=
  match JSON_parse text with
  | Some v => ret v
  | None => throw (SyntaxError (JSON_parse_message text))
  end.

Definition loadTokenByFile (dirPath : string) : ST state unit :=
  do isDir <- lift_env (checkIsDirectory dirPath);
  if negb isDir then throw (Error ("loadTokenByFile: Directory not found: " +:+ dirPath))
  else
    do oauth1Data <- lift_env (readFileSync (path_join dirPath "oauth1_token.json"));
    do v1 <- JSON_parse_or_throw oauth1Data;
    do _ <- set_oauth1Token (Some v1);
    do oauth2Data <- lift_env (readFileSync (path_join dirPath "oauth2_token.json"));
    do v2 <- JSON_parse_or_throw oauth2Data;
    set_oauth2Token (Some v2).

Record IGarminTokens : Type := mkTokens {
  oauth1 : json;
  oauth2 : json
}.

Definition exportToken : ST state IGarminTokens :=
  do o1 <- gets (fun s => oauth1Token (client (this s)));
  do o2 <- gets (fun s => oauth2Token (client (this s)));
  match o1, o2 with
  | Some t1, Some t2 =>
      if negb (truthy t1) || negb (truthy t2)
      then throw (Error "exportToken: Token not found")
      else ret (mkTokens t1 t2)
  | _, _ => throw (Error "exportToken: Token not found")
  end.

Definition loadToken (oauth1 oauth2 : json) : ST state unit :=
  do _ <- set_oauth1Token (Some oauth1);
  set_oauth2Token (Some oauth2).

(* ===================================================================== *)
(** ** class GarminConnect: the API methods *)
(* ===================================================================== *)

Definition url_of : ST state UrlClass := gets (fun s => url (this s)).

(** [if (!v) throw new Error(msg)], then [v]. *)
Definition truthy_or_throw (msg : string) (v : option json) : ST state json :=
  match v with
  | Some x => if truthy x then ret x else throw (Error msg)
  | None => throw (Error msg)
  end.

(** A [date] parameter with default [new Date()]. *)
Definition date_or_now (date : option Z) : ST state Z :=
  match date with
  | Some d => ret d
  | None => gets (fun s => clock (env s))
  end.

(** [catch (error) { throw new Error(`Error in <name>: ${error.message}`) }] *)
Definition rethrow {A} (name : string) (body : ST state A) : ST state A :=
  try_catch body (fun e => throw (Error ("Error in " +:+ name +:+ ": " +:+ message e))).

Definition login (username password : option string) : ST state payload :=
  do _ <- match username, password with
          | Some u, Some p =>
              if negb (String.eqb u "") && negb (String.eqb p "")
              then modify (fun s =>
                     mkState (this s)
                             (set_object (credentials (this s)) (mkCredentials u p) (env s)))
              else ret tt
          | _, _ => ret tt
          end;
  do c <- gets the_credentials;
  do _ <- (let '(mkCredentials u p) := c in client_login u p);
  ret PUndefined.

Definition getUserSettings : ST state payload :=
  do u <- url_of; client_get (USER_SETTINGS u) None.

Definition getUserProfile : ST state payload :=
  do u <- url_of; client_get (USER_PROFILE u) None.

Definition getActivities (start limit : option number) (activityType subActivityType : option string)
  : ST state payload :=
  do u <- url_of;
  client_get (ACTIVITIES u)
    (Some (mkOptions [("start", JNum <$> start); ("limit", JNum <$> limit);
                      ("activityType", JStr <$> activityType);
                      ("subActivityType", JStr <$> subActivityType)] None [])).

Definition getActivity (activityId : option json) : ST state payload :=
  do id <- truthy_or_throw "Missing activityId" activityId;
  do u <- url_of;
  client_get (ACTIVITY u +:+ js_string id) None.

Definition countActivities : ST state payload :=
  do u <- url_of;
  do now <- gets (fun s => clock (env s));
  client_get (STAT_ACTIVITIES u)
    (Some (mkOptions [("aggregation", Some (JStr "lifetime"));
                      ("startDate", Some (JStr "1970-01-01"));
                      ("endDate", Some (JStr (format_yyyy_MM_dd lib now)));
                      ("metric", Some (JStr "duration"))] None [])).

Definition getGears (userProfilePk : json) : ST state payload :=
  do u <- url_of;
  client_get (ACTIVITY_GEAR u) (Some (mkOptions [("userProfilePk", Some userProfilePk)] None [])).

Definition getActivityGear (activityId : string) : ST state payload :=
  do u <- url_of;
  client_get (ACTIVITY_GEAR u) (Some (mkOptions [("activityId", Some (JStr activityId))] None [])).

Definition linkActivityGear (gearUuid activityId : json) : ST state payload :=
  do u <- url_of;
  client_put (ACTIVITY_GEAR_LINK u gearUuid activityId) (DataBody (JObj [])) None.

Definition unlinkActivityGear (gearUuid activityId : json) : ST state payload :=
  do u <- url_of;
  client_put (ACTIVITY_GEAR_UNLINK u gearUuid activityId) (DataBody (JObj [])) None.

Definition downloadOriginalActivityData
    (activityId : option json) (dir : string) (type : option string) : ST state unit :=
  let type := match type with Some t => t | None => "zip" end in
  do id <- truthy_or_throw "Missing activityId" activityId;
  do isDir <- lift_env (checkIsDirectory dir);
  do _ <- (if negb isDir then lift_env (createDirectory dir) else ret tt);
  do u <- url_of;
  do fileBuffer <-
    (if String.eqb type "tcx" then client_get (DOWNLOAD_TCX u +:+ js_string id) None
     else if String.eqb type "gpx" then client_get (DOWNLOAD_GPX u +:+ js_string id) None
     else if String.eqb type "kml" then client_get (DOWNLOAD_KML u +:+ js_string id) None
     else if String.eqb type "zip" then
       client_get (DOWNLOAD_ZIP u +:+ js_string id)
                  (Some (mkOptions [] (Some "arraybuffer") []))
     else throw (Error ("downloadOriginalActivityData - Invalid type: " +:+ type)));
  lift_env (writeToFile (path_join dir (js_string id +:+ "." +:+ type)) fileBuffer).

Definition uploadActivity (file : string) (format : option string) : ST state payload :=
  let format := match format with Some f => f | None => "fit" end in
  let detectedFormat :=
    toLowerCase (if negb (String.eqb format "") then format else extname file) in
  if negb (includes (UploadFileType lib) detectedFormat)
  then throw (Error ("uploadActivity - Invalid format: " +:+ format))
  else
    do u <- url_of;
    client_post (UPLOAD u format) (FormBody file)
      (Some (mkOptions [] None [("Content-Type", form_content_type lib)])).

Definition getUploadActivityDetails (uploadCreationDate : string) (activityId : string)
  : ST state payload :=
  do u <- url_of;
  client_get
    (UPLOAD_ACTIVITY_STATUS u (Date_getTime lib uploadCreationDate) (JStr activityId)) None.

Definition deleteActivity (activityId : option json) : ST state payload :=
  do id <- truthy_or_throw "Missing activityId" activityId;
  do u <- url_of;
  client_delete (ACTIVITY u +:+ js_string id).

Definition getWorkouts (start limit : number) : ST state payload :=
  do u <- url_of;
  client_get (WORKOUTS u)
    (Some (mkOptions [("start", Some (JNum start)); ("limit", Some (JNum limit))] None [])).

Definition getWorkoutDetail (workoutId : option json) : ST state payload :=
  do id <- truthy_or_throw "Missing workoutId" workoutId;
  do u <- url_of;
  client_get (WORKOUT u (Some id)) None.

(** [if (!data.description) data.description = ...] *)
Definition with_description (data : list (string * json)) : list (string * json) :=
  if truthy_opt (assoc "description" data) then data
  else set_prop "description" (JStr "Added by garmin-connect for Node.js") data.

Definition addWorkout (w : option workout) : ST state payload :=
  do u <- url_of;
  let generic (v : json) :=
    let newWorkout :=
      omit v ["workoutId"; "ownerId"; "updatedDate"; "createdDate"; "author"] in
    client_post (WORKOUT u None) (DataBody (JObj (with_description newWorkout))) None in
  match w with
  | None => throw (Error "Missing workout")
  | Some (WorkoutData v) =>
      if negb (truthy v) then throw (Error "Missing workout") else generic v
  | Some (WorkoutRunning r) =>
      if Running_isValid lib r then
        let data := props_of (Running_toJson lib r) in
        client_post (WORKOUT u None) (DataBody (JObj (with_description data))) None
      else generic (Running_props lib r)
  end.

Definition addRunningWorkout (name : string) (meters : number) (description : string)
  : ST state payload :=
  addWorkout (Some (WorkoutRunning (mkRunning (Some name) (Some meters) (Some description)))).

Definition deleteWorkout (workoutId : option json) : ST state payload :=
  do id <- truthy_or_throw "Missing workout" workoutId;
  do u <- url_of;
  client_delete (WORKOUT u (Some id)).

Definition addActivity (activity : json) : ST state payload :=
  do u <- url_of;
  client_post (ACTIVITY u) (DataBody activity) None.

(** [days.find(({ calendarDate }) => calendarDate === dateString)] on data:
    the first entry of that date.  Reading [calendarDate] off a [null] entry
    throws a TypeError. *)
Fixpoint find_day (dateString : string) (days : list json) : result (option json) :=
  match days with
  | [] => inr None
  | JNull :: _ => inl (TypeError "Cannot destructure property calendarDate of null")
  | d :: r =>
      match prop "calendarDate" d with
      | Some (JStr c) => if String.eqb c dateString then inr (Some d) else find_day dateString r
      | _ => find_day dateString r
      end
  end.

Definition find_in_days (dateString : string) (days : payload) : ST state (option json) :=
  match days with
  | PData (JArr l) =>
      match find_day dateString l with
      | inr o => ret o
      | inl e => throw e
      end
  | PBuffer _ => ret None
  | PUndefined | PData JNull =>
      throw (TypeError "Cannot read properties of undefined (reading find)")
  | PData _ => throw (TypeError "days.find is not a function")
  end.

Definition getSteps (date : option Z) : ST state payload :=
  do d <- date_or_now date;
  let dateString := toDateString lib d in
  do u <- url_of;
  do days <- client_get (DAILY_STEPS u +:+ dateString +:+ "/" +:+ dateString) None;
  do dayStats <- find_in_days dateString days;
  match dayStats with
  | None => throw (Error "Can't find daily steps for this date.")
  | Some st => ret (of_option (prop "totalSteps" st))
  end.

(** The nine methods whose body is [try { ... } catch (error) { throw new
    Error(...) }] are given in two parts: the block of the [try], named
    after the method, and the method, which rethrows what the block throws. *)
Definition getSleepData_try (d : Z) : ST state payload :=
  let dateString := toDateString lib d in
  do u <- url_of;
  do sleepData <- client_get (DAILY_SLEEP u)
                    (Some (mkOptions [("date", Some (JStr dateString))] None []));
  if negb (truthy_payload sleepData)
  then throw (Error "Invalid or empty sleep data response.")
  else ret sleepData.

Definition getSleepData (date : option Z) : ST state payload :=
  do d <- date_or_now date;
  rethrow "getSleepData" (getSleepData_try d).

Definition getSleepDuration_try (d : Z) : ST state payload :=
  do sleepData <- getSleepData (Some d);
  match pprop "dailySleepDTO" sleepData with
  | Some dto =>
      if negb (truthy_payload sleepData) || negb (truthy dto) then
        throw (Error "Invalid or missing sleep data for the specified date.")
      else
        match prop "sleepStartTimestampGMT" dto, prop "sleepEndTimestampGMT" dto with
        | Some sleepStartTimestampGMT, Some sleepEndTimestampGMT =>
            let '(hours, minutes) :=
              calculateTimeDifference lib sleepStartTimestampGMT sleepEndTimestampGMT in
            ret (PData (JObj [("hours", hours); ("minutes", minutes)]))
        | _, _ => throw (Error "Invalid or missing sleep data for the specified date.")
        end
  | None => throw (Error "Invalid or missing sleep data for the specified date.")
  end.

Definition getSleepDuration (date : option Z) : ST state payload :=
  do d <- date_or_now date;
  rethrow "getSleepDuration" (getSleepDuration_try d).

Definition getDailyWeightData_try (d : Z) : ST state payload :=
  let dateString := toDateString lib d in
  do u <- url_of;
  do weightData <- client_get (DAILY_WEIGHT u +:+ "/" +:+ dateString) None;
  if negb (truthy_payload weightData)
  then throw (Error "Invalid or empty weight data response.")
  else ret weightData.

Definition getDailyWeightData (date : option Z) : ST state payload :=
  do d <- date_or_now date;
  rethrow "getDailyWeightData" (getDailyWeightData_try d).

Definition getDailyWeightInPounds (date : option Z) : ST state payload :=
  do d <- date_or_now date;
  do weightData <- getDailyWeightData (Some d);
  match pprop "totalAverage" weightData with
  | Some totalAverage =>
      match truthy totalAverage, prop "weight" totalAverage with
      | true, Some (JNum weight) => ret (PData (gramsToPounds lib weight))
      | _, _ => throw (Error "Can't find valid daily weight for this date.")
      end
  | None => throw (Error "Can't find valid daily weight for this date.")
  end.

Definition getDailyHydration_try (d : Z) : ST state payload :=
  let dateString := toDateString lib d in
  do u <- url_of;
  do hydrationData <- client_get (DAILY_HYDRATION u +:+ "/" +:+ dateString) None;
  match pprop "valueInML" hydrationData with
  | Some valueInML =>
      if negb (truthy_payload hydrationData) || negb (truthy valueInML)
      then throw (Error "Invalid or empty hydration data response.")
      else ret (PData (convertMLToOunces lib valueInML))
  | None => throw (Error "Invalid or empty hydration data response.")
  end.

Definition getDailyHydration (date : option Z) : ST state payload :=
  do d <- date_or_now date;
  rethrow "getDailyHydration" (getDailyHydration_try d).

(** [date.toISOString().substring(0, 23)] *)
Definition iso_timestamp (date : Z) : string :=
  String.substring 0 23 (toISOString lib date).

Definition updateWeight_try (date : Z) (lbs : json) (timezone : string) : ST state payload :=
  do u <- url_of;
  client_post (UPDATE_WEIGHT u)
    (DataBody (JObj [("dateTimestamp", JStr (getLocalTimestamp lib date timezone));
                     ("gmtTimestamp", JStr (iso_timestamp date));
                     ("unitKey", JStr "lbs");
                     ("value", lbs)])) None.

Definition updateWeight (date : Z) (lbs : json) (timezone : string) : ST state payload :=
  rethrow "updateWeight" (updateWeight_try date lbs timezone).

(** [(await this.getUserProfile()).profileId]: reading a property off
    [undefined] or [null] throws a TypeError. *)
Definition profileId_of (profile : payload) : ST state (option json) :=
  match profile with
  | PUndefined | PData JNull =>
      throw (TypeError "Cannot read properties of undefined (reading profileId)")
  | _ => ret (pprop "profileId" profile)
  end.

Definition updateHydrationLogOunces_try (date : Z) (valueInOz : json) : ST state payload :=
  let dateString := toDateString lib date in
  do u <- url_of;
  do profile <- getUserProfile;
  do profileId <- profileId_of profile;
  client_put (HYDRATION_LOG u)
    (DataBody (JObj ([("calendarDate", JStr dateString);
                      ("valueInML", convertOuncesToML lib valueInOz)]
                     ++ match profileId with
                        | Some i => [("userProfileId", i)]
                        | None => []
                        end
                     ++ [("timestampLocal", JStr (iso_timestamp date))])%list)) None.

Definition updateHydrationLogOunces (date : Z) (valueInOz : json) : ST state payload :=
  rethrow "updateHydrationLogOunces" (updateHydrationLogOunces_try date valueInOz).

Definition getGolfSummary_try : ST state payload :=
  do u <- url_of;
  do golfSummary <- client_get (GOLF_SCORECARD_SUMMARY u) None;
  if negb (truthy_payload golfSummary)
  then throw (Error "Invalid or empty golf summary data response.")
  else ret golfSummary.

Definition getGolfSummary : ST state payload :=
  rethrow "getGolfSummary" getGolfSummary_try.

Definition getGolfScorecard_try (scorecardId : json) : ST state payload :=
  do u <- url_of;
  do golfScorecard <- client_get (GOLF_SCORECARD_DETAIL u)
                        (Some (mkOptions [("scorecard-ids", Some scorecardId)] None []));
  if negb (truthy_payload golfScorecard)
  then throw (Error "Invalid or empty golf scorecard data response.")
  else ret golfScorecard.

Definition getGolfScorecard (scorecardId : json) : ST state payload :=
  rethrow "getGolfScorecard" (getGolfScorecard_try scorecardId).

Definition getHeartRate_try (d : Z) : ST state payload :=
  let dateString := toDateString lib d in
  do u <- url_of;
  client_get (DAILY_HEART_RATE u)
    (Some (mkOptions [("date", Some (JStr dateString))] None [])).

Definition getHeartRate (date : option Z) : ST state payload :=
  do d <- date_or_now date;
  rethrow "getHeartRate" (getHeartRate_try d).

Definition get (u : string) (data : option options) : ST state payload :=
  client_get u data.

Definition post (u : string) (data : json) : ST state payload :=
  client_post u (DataBody data) (Some no_options).

Definition put (u : string) (data : json) : ST state payload :=
  client_put u (DataBody data) (Some no_options).

End Methods.

(* ===================================================================== *)
(** ** The public operations *)
(* ===================================================================== *)

(** A call of a public method of an instance, with its arguments. *)
Inductive operation : Type :=
| Op_login (username password : option string)
| Op_exportTokenToFile (dirPath : string)
| Op_loadTokenByFile (dirPath : string)
| Op_exportToken
| Op_loadToken (oauth1 oauth2 : json)
| Op_getUserSettings
| Op_getUserProfile
| Op_getActivities (start limit : option number) (activityType subActivityType : option string)
| Op_getActivity (activityId : option json)
| Op_countActivities
| Op_getGears (userProfilePk : json)
| Op_getActivityGear (activityId : string)
| Op_linkActivityGear (gearUuid activityId : json)
| Op_unlinkActivityGear (gearUuid activityId : json)
| Op_downloadOriginalActivityData (activityId : option json) (dir : string) (type : option string)
| Op_uploadActivity (file : string) (format : option string)
| Op_getUploadActivityDetails (uploadCreationDate activityId : string)
| Op_deleteActivity (activityId : option json)
| Op_getWorkouts (start limit : number)
| Op_getWorkoutDetail (workoutId : option json)
| Op_addWorkout (w : option workout)
| Op_addRunningWorkout (name : string) (meters : number) (description : string)
| Op_deleteWorkout (workoutId : option json)
| Op_addActivity (activity : json)
| Op_getSteps (date : option Z)
| Op_getSleepData (date : option Z)
| Op_getSleepDuration (date : option Z)
| Op_getDailyWeightData (date : option Z)
| Op_getDailyWeightInPounds (date : option Z)
| Op_getDailyHydration (date : option Z)
| Op_updateWeight (date : Z) (lbs : json) (timezone : string)
| Op_updateHydrationLogOunces (date : Z) (valueInOz : json)
| Op_getGolfSummary
| Op_getGolfScorecard (scorecardId : json)
| Op_getHeartRate (date : option Z)
| Op_get (u : string) (data : option options)
| Op_post (u : string) (data : json)
| Op_put (u : string) (data : json).

Definition op_name (op : operation) : string :=
  match op with
  | Op_login _ _ => "login"
  | Op_exportTokenToFile _ => "exportTokenToFile"
  | Op_loadTokenByFile _ => "loadTokenByFile"
  | Op_exportToken => "exportToken"
  | Op_loadToken _ _ => "loadToken"
  | Op_getUserSettings => "getUserSettings"
  | Op_getUserProfile => "getUserProfile"
  | Op_getActivities _ _ _ _ => "getActivities"
  | Op_getActivity _ => "getActivity"
  | Op_countActivities => "countActivities"
  | Op_getGears _ => "getGears"
  | Op_getActivityGear _ => "getActivityGear"
  | Op_linkActivityGear _ _ => "linkActivityGear"
  | Op_unlinkActivityGear _ _ => "unlinkActivityGear"
  | Op_downloadOriginalActivityData _ _ _ => "downloadOriginalActivityData"
  | Op_uploadActivity _ _ => "uploadActivity"
  | Op_getUploadActivityDetails _ _ => "getUploadActivityDetails"
  | Op_deleteActivity _ => "deleteActivity"
  | Op_getWorkouts _ _ => "getWorkouts"
  | Op_getWorkoutDetail _ => "getWorkoutDetail"
  | Op_addWorkout _ => "addWorkout"
  | Op_addRunningWorkout _ _ _ => "addRunningWorkout"
  | Op_deleteWorkout _ => "deleteWorkout"
  | Op_addActivity _ => "addActivity"
  | Op_getSteps _ => "getSteps"
  | Op_getSleepData _ => "getSleepData"
  | Op_getSleepDuration _ => "getSleepDuration"
  | Op_getDailyWeightData _ => "getDailyWeightData"
  | Op_getDailyWeightInPounds _ => "getDailyWeightInPounds"
  | Op_getDailyHydration _ => "getDailyHydration"
  | Op_updateWeight _ _ _ => "updateWeight"
  | Op_updateHydrationLogOunces _ _ => "updateHydrationLogOunces"
  | Op_getGolfSummary => "getGolfSummary"
  | Op_getGolfScorecard _ => "getGolfScorecard"
  | Op_getHeartRate _ => "getHeartRate"
  | Op_get _ _ => "get"
  | Op_post _ _ => "post"
  | Op_put _ _ => "put"
  end.

(** A method that returns nothing of interest here ([void], or [this]). *)
Definition returning_nothing {A} (c : ST state A) : ST state payload :=
  do _ <- c; ret PUndefined.

Definition tokens_payload (t : IGarminTokens) : payload :=
  PData (JObj [("oauth1", oauth1 t); ("oauth2", oauth2 t)]).

(** Running an operation on an instance in a world. *)
Definition run (lib : Collaborators) (op : operation) : ST state payload :=
  match op with
  | Op_login u p => login u p
  | Op_exportTokenToFile d => returning_nothing (exportTokenToFile d)
  | Op_loadTokenByFile d => returning_nothing (loadTokenByFile d)
  | Op_exportToken => do t <- exportToken; ret (tokens_payload t)
  | Op_loadToken a b => returning_nothing (loadToken a b)
  | Op_getUserSettings => getUserSettings
  | Op_getUserProfile => getUserProfile
  | Op_getActivities a b c d => getActivities a b c d
  | Op_getActivity i => getActivity i
  | Op_countActivities => countActivities lib
  | Op_getGears k => getGears k
  | Op_getActivityGear i => getActivityGear i
  | Op_linkActivityGear g i => linkActivityGear g i
  | Op_unlinkActivityGear g i => unlinkActivityGear g i
  | Op_downloadOriginalActivityData i d t =>
      returning_nothing (downloadOriginalActivityData i d t)
  | Op_uploadActivity f t => uploadActivity lib f t
  | Op_getUploadActivityDetails d i => getUploadActivityDetails lib d i
  | Op_deleteActivity i => deleteActivity i
  | Op_getWorkouts a b => getWorkouts a b
  | Op_getWorkoutDetail i => getWorkoutDetail i
  | Op_addWorkout w => addWorkout lib w
  | Op_addRunningWorkout n m d => addRunningWorkout lib n m d
  | Op_deleteWorkout i => deleteWorkout i
  | Op_addActivity a => addActivity a
  | Op_getSteps d => getSteps lib d
  | Op_getSleepData d => getSleepData lib d
  | Op_getSleepDuration d => getSleepDuration lib d
  | Op_getDailyWeightData d => getDailyWeightData lib d
  | Op_getDailyWeightInPounds d => getDailyWeightInPounds lib d
  | Op_getDailyHydration d => getDailyHydration lib d
  | Op_updateWeight d l z => updateWeight lib d l z
  | Op_updateHydrationLogOunces d v => updateHydrationLogOunces lib d v
  | Op_getGolfSummary => getGolfSummary
  | Op_getGolfScorecard i => getGolfScorecard i
  | Op_getHeartRate d => getHeartRate lib d
  | Op_get u d => get u d
  | Op_post u d => post u d
  | Op_put u d => put u d
  end.

(** The operations whose body is a [try] with a rethrowing [catch]. *)
Definition rethrows (op : operation) : bool :=
  match op with
  | Op_getSleepData _ | Op_getSleepDuration _ | Op_getDailyWeightData _
  | Op_getDailyHydration _ | Op_updateWeight _ _ _ | Op_updateHydrationLogOunces _ _
  | Op_getGolfSummary | Op_getGolfScorecard _ | Op_getHeartRate _ => true
  | _ => false
  end.

(* ===================================================================== *)
(** ** Auxiliary notions for the properties *)
(* ===================================================================== *)

Fixpoint nodupb (l : list string) : bool :=
  match l with
  | [] => true
  | x :: r => negb (existsb (String.eqb x) r) && nodupb r
  end.

(** A JavaScript object has each property once, at every depth. *)
Fixpoint wf_json (v : json) : bool :=
  match v with
  | JArr l => forallb wf_json l
  | JObj l => nodupb (map fst l) && forallb (fun kv => wf_json (snd kv)) l
  | _ => true
  end.

Fixpoint no_slash (s : string) : bool :=
  match s with
  | EmptyString => true
  | String c r => negb (is_slash c) && no_slash r
  end.

Fixpoint starts_with (p s : string) : bool :=
  match p, s with
  | EmptyString, _ => true
  | String a p', String b s' => Ascii.eqb a b && starts_with p' s'
  | String _ _, EmptyString => false
  end.

(** [hay.includes(needle)] *)
Fixpoint contains (needle hay : string) : bool :=
  starts_with needle hay ||
  match hay with
  | EmptyString => false
  | String _ r => contains needle r
  end.

Definition with_listeners (l : gmap string (list EventCallback)) (s : state) : state :=
  mkState (set_listeners l (this s)) (env s).

Definition is_error {A} (r : result A) : bool :=
  match r with
  | inl _ => true
  | inr _ => false
  end.

Definition failed_call (x : call * result payload) : bool := is_error (snd x).

Fixpoint all_digits (s : string) : bool :=
  match s with
  | EmptyString => true
  | String c r => is_digit c && all_digits r
  end.

Fixpoint digits_value (acc : N) (s : string) : N :=
  match s with
  | EmptyString => acc
  | String c r => digits_value (10 * acc + (char_code c - 48))%N r
  end.

(** The array index a property key stands for, if any: the decimal form,
    without leading zero, of an integer below [2^32 - 1]. *)
Definition array_index (k : string) : option N :=
  match k with
  | EmptyString => None
  | String c r =>
      if all_digits k && (negb (char_code c =? 48)%N || String.eqb r "")
         && (String.length k <=? 10)%nat && (digits_value 0 k <? 4294967295)%N
      then Some (digits_value 0 k)
      else None
  end.

(** The order in which JavaScript enumerates the keys of an object: the
    array indices first, ascending, then the other keys as inserted. *)
Fixpoint keys_in_order (l : list string) : bool :=
  match l with
  | k :: r =>
      match r with
      | k' :: _ =>
          match array_index k, array_index k' with
          | Some i, Some j => (i <? j)%N
          | None, Some _ => false
          | _, None => true
          end
      | [] => true
      end && keys_in_order r
  | [] => true
  end.

(** The data a JavaScript value can be and JSON text can carry: each
    object has its properties once and in the order of enumeration, and
    every number is one that JSON writes as it is. *)
Fixpoint json_safe (v : json) : bool :=
  match v with
  | JNum n => Number_json_safe n
  | JArr l => forallb json_safe l
  | JObj l =>
      nodupb (map fst l) && keys_in_order (map fst l)
      && forallb (fun kv => json_safe (snd kv)) l
  | _ => true
  end.

(* --------------------------------------------------------------------- *)
(** *** Notions for the token files *)

Definition is_dir (w : world) (p : string) : bool :=
  match stat w p with
  | Some Dir => true
  | _ => false
  end.


(** What [readFileSync] then [JSON.parse] give for a path. *)
Definition file_json (w : world) (p : string) : result json :=
  match stat w p with
  | Some (File text) =>
      match JSON_parse text with
      | Some v => inr v
      | None => inl (SyntaxError (JSON_parse_message text))
      end
  | Some Dir => inl (SystemError EISDIR "read" p)
  | None => inl (SystemError ENOENT "open" p)
  end.

Definition with_tokens (o1 o2 : option json) (s : state) : state :=
  mkState (set_client (mkHttpClient o1 o2) (this s)) (env s).

Definition ensure_directory (dir : string) : ST world unit :=
  do isDir <- checkIsDirectory dir;
  if negb isDir then createDirectory dir else ret tt.

(** The write of one token, as [exportTokenToFile] does it. *)
Definition write_token (p : string) (o : option json) : ST world unit :=
  match o with
  | Some t =>
      if truthy t then writeToFile p (PData (JStr (JSON_stringify t))) else ret tt
  | None => ret tt
  end.

(** What [exportTokenToFile] does to the world, given the two tokens. *)
Definition save_tokens (dirPath : string) (o1 o2 : option json) : ST world unit :=
  do _ <- ensure_directory dirPath;
  do _ <- write_token (path_join dirPath "oauth1_token.json") o1;
  write_token (path_join dirPath "oauth2_token.json") o2.

(* --------------------------------------------------------------------- *)
(** *** Notions for the transfers *)

(** The format tag [uploadActivity] validates: the declared format (default
    ['fit']), or the extension of the file when that is empty, lower-cased. *)
Definition effective_format (file : string) (format : option string) : string :=
  let format := match format with Some f => f | None => "fit" end in
  toLowerCase (if String.eqb format "" then extname file else format).

Definition ExportFileType_values : list string := ["tcx"; "gpx"; "kml"; "zip"].

(** The request a download of the given type is expected to issue: the
    endpoint of the type followed by the activity id, as binary data for
    ['zip'] and with no options for the other types. *)
Definition download_request (u : UrlClass) (id : json) (type : string) : call :=
  Dispatch
    (mkRequest GET
       ((if String.eqb type "tcx" then DOWNLOAD_TCX u
         else if String.eqb type "gpx" then DOWNLOAD_GPX u
         else if String.eqb type "kml" then DOWNLOAD_KML u
         else DOWNLOAD_ZIP u) +:+ js_string id)
       NoBody
       (if String.eqb type "zip" then Some (mkOptions [] (Some "arraybuffer") []) else None)).

Definition upload_request (lib : Collaborators) (u : UrlClass) (file format : string) : call :=
  Dispatch
    (mkRequest POST (UPLOAD u format) (FormBody file)
       (Some (mkOptions [] None [("Content-Type", form_content_type lib)]))).

(** The response type a call asks for, if any. *)
Definition asked_responseType (c : call) : option string :=
  match c with
  | Dispatch r =>
      match req_options r with
      | Some o => responseType o
      | None => None
      end
  | Login _ _ => None
  end.

(* --------------------------------------------------------------------- *)
(** *** Notions for the listeners and for failures *)

(** A computation that neither reads nor changes the listeners: run with
    other listeners, it does the same and leaves those in place. *)
Definition ignores_listeners {A} (c : ST state A) : Prop :=
  forall s l, c (with_listeners l s) = (fst (c s), with_listeners l (snd (c s))).

(** No failed call is swallowed: what a computation adds to the log of
    calls, and that it fails when one of these calls failed. *)
Definition surfaces_failures {A} (c : ST state A) : Prop :=
  forall s, exists new,
    sent (env (snd (c s))) = (sent (env s) ++ new)%list /\
    (existsb failed_call new = true -> is_error (fst (c s)) = true).

(** The failure of a call is passed on as it is: the computation fails with
    the very error of the call. *)
Definition forwards_failures {A} (c : ST state A) : Prop :=
  forall s, exists new,
    sent (env (snd (c s))) = (sent (env s) ++ new)%list /\
    (forall k e, In (k, inl e) new -> fst (c s) = inl e).

(** A step on the world that issues no call. *)
Definition quiet {A} (c : ST world A) : Prop :=
  forall w, sent (snd (c w)) = sent w.

(** The operations that hand a failure on untouched: those without a
    rethrowing [catch], save [getDailyWeightInPounds], which hands on what
    [getDailyWeightData] rethrew. *)
Definition plain (op : operation) : bool :=
  negb (rethrows op) &&
  match op with
  | Op_getDailyWeightInPounds _ => false
  | _ => true
  end.

(** The block of the [try] of an operation that rethrows, run after the
    default of its [date] parameter is taken (which cannot fail). *)
Definition try_block (lib : Collaborators) (op : operation) : ST state payload :=
  match op with
  | Op_getSleepData date => do d <- date_or_now date; getSleepData_try lib d
  | Op_getSleepDuration date => do d <- date_or_now date; getSleepDuration_try lib d
  | Op_getDailyWeightData date => do d <- date_or_now date; getDailyWeightData_try lib d
  | Op_getDailyHydration date => do d <- date_or_now date; getDailyHydration_try lib d
  | Op_updateWeight d l z => updateWeight_try lib d l z
  | Op_updateHydrationLogOunces d v => updateHydrationLogOunces_try lib d v
  | Op_getGolfSummary => getGolfSummary_try
  | Op_getGolfScorecard i => getGolfScorecard_try i
  | Op_getHeartRate date => do d <- date_or_now date; getHeartRate_try lib d
  | _ => run lib op
  end.

(** The error a rethrowing [catch] makes of what it caught. *)
Definition wrapped (name : string) (cause : error) : error :=
  Error ("Error in " +:+ name +:+ ": " +:+ message cause).

(** What the [try] block of an operation throws when a call of the
    collaborator failed with [e]: that error; in [getSleepDuration], whose
    block calls [getSleepData], what [getSleepData] made of it. *)
Definition cause_of (op : operation) (e : error) : error :=
  match op with
  | Op_getSleepDuration _ => wrapped "getSleepData" e
  | _ => e
  end.

(* --------------------------------------------------------------------- *)
(** *** Notions for the calls, the requests and the frames *)

(** What the collaborator answers to a call made in a state. *)
Definition answer (s : state) (c : call) : result payload :=
  fst (service (env s) (map fst (sent (env s))) c (client (this s))).

(** The calls a computation adds to the log, with their outcomes. *)
Definition sent_by {A} (c : ST state A) (s : state) : list (call * result payload) :=
  skipn (length (sent (env s))) (sent (env (snd (c s)))).

(** The state a call leaves: the client as the collaborator left it, and
    the call logged with its outcome. *)
Definition after_call (s : state) (c : call) : state :=
  mkState (set_client (snd (service (env s) (map fst (sent (env s))) c (client (this s))))
                      (this s))
          (log_call c (answer s c) (env s)).

(** The state [login] makes its call in: the credentials object holds the
    two arguments when both are given and non-empty. *)
Definition login_entry (usr pwd : option string) (s : state) : state :=
  match usr, pwd with
  | Some u, Some p =>
      if negb (String.eqb u "") && negb (String.eqb p "")
      then mkState (this s) (set_object (credentials (this s)) (mkCredentials u p) (env s))
      else s
  | _, _ => s
  end.

(** The properties the service manages, which [addWorkout] leaves out. *)
Definition server_fields : list string :=
  ["workoutId"; "ownerId"; "updatedDate"; "createdDate"; "author"].

(** The request [addWorkout] posts for a body. *)
Definition workout_request (u : UrlClass) (body : list (string * json)) : call :=
  Dispatch (mkRequest POST (WORKOUT u None) (DataBody (JObj body)) None).

(** An entry of the daily steps that is not of the given date. *)
Definition other_day (day : string) (x : json) : Prop :=
  x <> JNull /\ prop "calendarDate" x <> Some (JStr day).

(** The day an optional date stands for: today when it is left out. *)
Definition day_of (lib : Collaborators) (date : option Z) (s : state) : string :=
  toDateString lib (match date with Some d => d | None => clock (env s) end).

(** A GET with the day as its [date] parameter, and a plain GET. *)
Definition get_by_date (u day : string) : call :=
  Dispatch (mkRequest GET u NoBody (Some (mkOptions [("date", Some (JStr day))] None []))).

Definition get_plain (u : string) : call := Dispatch (mkRequest GET u NoBody None).

(** A computation keeps a relation between the state it starts in and the
    state it leaves, whether it returns or throws. *)
Definition keeps (R : state -> state -> Prop) {A} (c : ST state A) : Prop :=
  forall s, R s (snd (c s)).

Definition same_files (s s' : state) : Prop := fs (env s') = fs (env s).

(** No path is removed or changes its kind: a directory stays one, a file
    stays a file (its content may change). *)
Definition nothing_removed (s s' : state) : Prop :=
  forall p,
    match stat (env s) p with
    | Some Dir => stat (env s') p = Some Dir
    | Some (File _) => exists b, stat (env s') p = Some (File b)
    | None => True
    end.

Definition same_endpoints (s s' : state) : Prop :=
  url (this s') = url (this s) /\ _userHash (this s') = _userHash (this s).

(** The instance refers to the same credentials object; and no
    credentials object has changed. *)
Definition same_credentials (s s' : state) : Prop :=
  credentials (this s') = credentials (this s).

Definition same_objects (s s' : state) : Prop :=
  objects (env s') = objects (env s) /\ config (env s') = config (env s).

(** The operations that write to the file system. *)
Definition writes_files (op : operation) : bool :=
  match op with
  | Op_exportTokenToFile _ | Op_downloadOriginalActivityData _ _ _ => true
  | _ => false
  end.

(** The most calls an operation passes to the collaborator. *)
Definition max_calls (op : operation) : nat :=
  match op with
  | Op_exportTokenToFile _ | Op_loadTokenByFile _ | Op_exportToken | Op_loadToken _ _ => 0
  | Op_updateHydrationLogOunces _ _ => 2
  | _ => 1
  end.

(** A computation only appends to the log of calls, at most [n] entries. *)
Definition grows_by (n : nat) {A} (c : ST state A) : Prop :=
  forall s, exists new,
    sent (env (snd (c s))) = (sent (env s) ++ new)%list /\ (length new <= n)%nat.

(** The operations that are one call on the client and nothing else; those
    that take an identifier are so when it is truthy. *)
Definition passes_through (op : operation) : bool :=
  match op with
  | Op_getUserSettings | Op_getUserProfile | Op_getActivities _ _ _ _ | Op_countActivities
  | Op_getGears _ | Op_getActivityGear _ | Op_linkActivityGear _ _
  | Op_unlinkActivityGear _ _ | Op_getUploadActivityDetails _ _ | Op_getWorkouts _ _
  | Op_addActivity _ | Op_get _ _ | Op_post _ _ | Op_put _ _ => true
  | Op_getActivity id | Op_deleteActivity id | Op_getWorkoutDetail id | Op_deleteWorkout id =>
      truthy_opt id
  | _ => false
  end.

End Model.

(** What is known of [JSON.stringify] and [JSON.parse]: the text written
    for a value is read back as that value (ECMAScript's [JSON] object on
    data; a number is written in the shortest form that reads back). *)
Class JsonLaws `{NUM : Numbers} `{JSON : !Json} : Prop := {
  JSON_reads_back : forall v : json, json_safe v = true -> JSON_parse (JSON_stringify v) = Some v
}.

(* ===================================================================== *)
(** ** A platform for the examples: integer numbers *)
(* ===================================================================== *)

(** The examples run on a platform whose numbers are the integers, with a
    JSON writer and a JSON reader for the texts they use.  No property
    below rests on it: the properties are proved for every platform. *)

(** JSON white space: space, tab, line feed, carriage return. *)
Definition is_ws (c : ascii) : bool :=
  let n := char_code c in ((n =? 32) || (n =? 9) || (n =? 10) || (n =? 13))%N.

Definition hex_digit (n : N) : ascii :=
  if (n <? 10)%N then ascii_of_N (48 + n) else ascii_of_N (87 + n).

Definition hex_value (c : ascii) : option N :=
  let n := char_code c in
  if ((48 <=? n) && (n <=? 57))%N then Some (n - 48)%N
  else if ((97 <=? n) && (n <=? 102))%N then Some (n - 87)%N
  else if ((65 <=? n) && (n <=? 70))%N then Some (n - 55)%N
  else None.

(* --------------------------------------------------------------------- *)
(** *** The writer *)

(** The double quote, as a one-character string. *)
Definition DQ : string := String (ascii_of_N 34) EmptyString.

(** The quoted form of one character of a string. *)
Definition escape_char (c : ascii) : string :=
  let n := char_code c in
  if (n =? 34)%N then String "\" DQ
  else if (n =? 92)%N then "\\"
  else if (n =? 8)%N then "\b"
  else if (n =? 9)%N then "\t"
  else if (n =? 10)%N then "\n"
  else if (n =? 12)%N then "\f"
  else if (n =? 13)%N then "\r"
  else if (n <? 32)%N then
    "\u00" +:+ String (hex_digit (n / 16)) (String (hex_digit (n mod 16)) "")
  else String c "".

Fixpoint escape (s : string) : string :=
  match s with
  | EmptyString => EmptyString
  | String c r => escape_char c +:+ escape r
  end.

Definition quote (s : string) : string := DQ +:+ escape s +:+ DQ.

Definition string_of_Z (n : Z) : string := NilZero.string_of_int (Z.to_int n).

Definition integer_numbers : Numbers :=
  {| number := Z;
     Number_falsy := fun n => n =? 0;
     Number_json_safe := fun _ => true;
     Number_toString := string_of_Z |}.

(** A number of this platform, as data. *)
Abbreviation JInt := (@JNum integer_numbers) (only parsing).

Section IntegerPlatform.

#[local] Existing Instance integer_numbers.

Fixpoint write_json (v : json) : string :=
  match v with
  | JNull => "null"
  | JBool true => "true"
  | JBool false => "false"
  | JNum n => string_of_Z n
  | JStr s => quote s
  | JArr items =>
      let fix elems (l : list json) : string :=
        match l with
        | [] => ""
        | [x] => write_json x
        | x :: r => write_json x +:+ "," +:+ elems r
        end in
      "[" +:+ elems items +:+ "]"
  | JObj props =>
      let fix members (l : list (string * json)) : string :=
        match l with
        | [] => ""
        | [(k, x)] => quote k +:+ ":" +:+ write_json x
        | (k, x) :: r => quote k +:+ ":" +:+ write_json x +:+ "," +:+ members r
        end in
      "{" +:+ members props +:+ "}"
  end.

(* --------------------------------------------------------------------- *)
(** *** The reader *)

Fixpoint skip_ws (s : string) : string :=
  match s with
  | String c r => if is_ws c then skip_ws r else s
  | EmptyString => s
  end.

Fixpoint strip_prefix (p s : string) : option string :=
  match p, s with
  | EmptyString, _ => Some s
  | String a p', String b s' => if Ascii.eqb a b then strip_prefix p' s' else None
  | String _ _, EmptyString => None
  end.

(** The character a one-letter escape stands for. *)
Definition unescape (m : N) : option ascii :=
  if (m =? 34)%N then Some (ascii_of_N 34)
  else if (m =? 92)%N then Some (ascii_of_N 92)
  else if (m =? 47)%N then Some (ascii_of_N 47)
  else if (m =? 98)%N then Some (ascii_of_N 8)
  else if (m =? 102)%N then Some (ascii_of_N 12)
  else if (m =? 110)%N then Some (ascii_of_N 10)
  else if (m =? 114)%N then Some (ascii_of_N 13)
  else if (m =? 116)%N then Some (ascii_of_N 9)
  else None.

Definition hex4 (a b c d : ascii) : option N :=
  match hex_value a, hex_value b, hex_value c, hex_value d with
  | Some x, Some y, Some z, Some t => Some (((x * 16 + y) * 16 + z) * 16 + t)%N
  | _, _, _, _ => None
  end.

Definition prepend (c : ascii) (r : option (string * string)) : option (string * string) :=
  match r with
  | Some (str, rest) => Some (String c str, rest)
  | None => None
  end.

(** The characters of a string literal after its opening quote, up to the
    closing quote: the decoded string and the text that follows.  A raw
    control character is refused, as is an escape above [\u007f] (strings
    are byte strings). *)
Fixpoint parse_chars (s : string) : option (string * string) :=
  match s with
  | EmptyString => None
  | String c r =>
      let n := char_code c in
      if (n =? 34)%N then Some (EmptyString, r)
      else if (n =? 92)%N then
        match r with
        | String e r1 =>
            if (char_code e =? 117)%N then
              match r1 with
              | String h1 (String h2 (String h3 (String h4 r2))) =>
                  match hex4 h1 h2 h3 h4 with
                  | Some code =>
                      if (code <? 128)%N then prepend (ascii_of_N code) (parse_chars r2)
                      else None
                  | None => None
                  end
              | _ => None
              end
            else
              match unescape (char_code e) with
              | Some ch => prepend ch (parse_chars r1)
              | None => None
              end
        | EmptyString => None
        end
      else if (n <? 32)%N then None
      else prepend c (parse_chars r)
  end.

Fixpoint span_digits (s : string) : string * string :=
  match s with
  | String c r =>
      if is_digit c then let '(d, t) := span_digits r in (String c d, t)
      else (EmptyString, s)
  | EmptyString => (EmptyString, EmptyString)
  end.

(** Whether the text goes on with a fraction or an exponent. *)
Definition continues_number (s : string) : bool :=
  match s with
  | String c _ =>
      let n := char_code c in ((n =? 46) || (n =? 101) || (n =? 69))%N
  | EmptyString => false
  end.

(** An integer literal in canonical form (no leading zero, no [-0]); a
    fraction or an exponent puts the number outside this platform. *)
Definition parse_number (s : string) : option (Z * string) :=
  let '(sign, s1) :=
    match s with
    | String c r => if (char_code c =? 45)%N then ("-", r) else ("", s)
    | EmptyString => ("", s)
    end in
  let '(ds, rest) := span_digits s1 in
  match NilZero.int_of_string (sign +:+ ds) with
  | Some d =>
      let z := Z.of_int d in
      if String.eqb (string_of_Z z) (sign +:+ ds) && negb (continues_number rest)
      then Some (z, rest) else None
  | None => None
  end.

Definition obj_of_members (l : list (string * json)) : list (string * json) :=
  fold_left (fun acc kv => set_prop (fst kv) (snd kv) acc) l [].

Fixpoint parse_value (fuel : nat) (s : string) {struct fuel} : option (json * string) :=
  match fuel with
  | O => None
  | S f =>
      match skip_ws s with
      | EmptyString => None
      | String c r =>
          let n := char_code c in
          if (n =? 110)%N then
            match strip_prefix "ull" r with Some r' => Some (JNull, r') | None => None end
          else if (n =? 116)%N then
            match strip_prefix "rue" r with Some r' => Some (JBool true, r') | None => None end
          else if (n =? 102)%N then
            match strip_prefix "alse" r with Some r' => Some (JBool false, r') | None => None end
          else if (n =? 34)%N then
            match parse_chars r with Some (str, r') => Some (JStr str, r') | None => None end
          else if (n =? 91)%N then
            match skip_ws r with
            | String c' r' =>
                if (char_code c' =? 93)%N then Some (JArr [], r')
                else match parse_elems f r with
                     | Some (l, r'') => Some (JArr l, r'')
                     | None => None
                     end
            | EmptyString => None
            end
          else if (n =? 123)%N then
            match skip_ws r with
            | String c' r' =>
                if (char_code c' =? 125)%N then Some (JObj [], r')
                else match parse_members f r with
                     | Some (l, r'') => Some (JObj (obj_of_members l), r'')
                     | None => None
                     end
            | EmptyString => None
            end
          else
            match parse_number (String c r) with
            | Some (z, r') => Some (JNum z, r')
            | None => None
            end
      end
  end
with parse_elems (fuel : nat) (s : string) {struct fuel} : option (list json * string) :=
  match fuel with
  | O => None
  | S f =>
      match parse_value f s with
      | Some (v, r) =>
          match skip_ws r with
          | String c r' =>
              if (char_code c =? 44)%N then
                match parse_elems f r' with
                | Some (l, r'') => Some (v :: l, r'')
                | None => None
                end
              else if (char_code c =? 93)%N then Some ([v], r')
              else None
          | EmptyString => None
          end
      | None => None
      end
  end
with parse_members (fuel : nat) (s : string) {struct fuel}
  : option (list (string * json) * string) :=
  match fuel with
  | O => None
  | S f =>
      match skip_ws s with
      | String q r =>
          if (char_code q =? 34)%N then
            match parse_chars r with
            | Some (k, r1) =>
                match skip_ws r1 with
                | String colon r2 =>
                    if (char_code colon =? 58)%N then
                      match parse_value f r2 with
                      | Some (v, r3) =>
                          match skip_ws r3 with
                          | String c r4 =>
                              if (char_code c =? 44)%N then
                                match parse_members f r4 with
                                | Some (l, r5) => Some ((k, v) :: l, r5)
                                | None => None
                                end
                              else if (char_code c =? 125)%N then Some ([(k, v)], r4)
                              else None
                          | EmptyString => None
                          end
                      | None => None
                      end
                    else None
                | EmptyString => None
                end
            | None => None
            end
          else None
      | EmptyString => None
      end
  end.

(** The reader of this platform: it reads what [write_json] writes and the
    other JSON texts over the integers; [None] is the SyntaxError.  A text
    it has no value for (a number with a fraction or an exponent, [-0], an
    escape above [\u007f]) is refused as well: the examples use none. *)
Definition read_json (text : string) : option json :=
  match parse_value (S (String.length text)) text with
  | Some (v, rest) =>
      match skip_ws rest with
      | EmptyString => Some v
      | String _ _ => None
      end
  | None => None
  end.

Definition integer_json : Json :=
  {| JSON_stringify := write_json;
     JSON_parse := read_json;
     JSON_parse_message := fun _ => "Unexpected token in JSON" |}.

#[local] Existing Instance integer_json.

(* --------------------------------------------------------------------- *)
(** *** Notions for the round trip on this platform *)

Definition starts_digit (s : string) : bool :=
  match s with
  | String c _ => is_digit c
  | EmptyString => false
  end.

Fixpoint stringify_elems (l : list json) : string :=
  match l with
  | [] => ""
  | [x] => write_json x
  | x :: r => write_json x +:+ "," +:+ stringify_elems r
  end.

Fixpoint stringify_members (l : list (string * json)) : string :=
  match l with
  | [] => ""
  | [(k, x)] => quote k +:+ ":" +:+ write_json x
  | (k, x) :: r => quote k +:+ ":" +:+ write_json x +:+ "," +:+ stringify_members r
  end.

Fixpoint size (v : json) : nat :=
  match v with
  | JArr l => S (list_sum (map (fun x => S (size x)) l))
  | JObj l => S (list_sum (map (fun kv => S (size (snd kv))) l))
  | _ => 1
  end.

Definition closes (rest : string) : bool :=
  match rest with
  | EmptyString => true
  | String c _ => let n := char_code c in ((n =? 44) || (n =? 93) || (n =? 125))%N
  end.

(** The first character of a serialisation: it starts a value. *)
Definition opens_value (c : ascii) : bool :=
  negb (is_ws c) && negb (char_code c =? 93)%N && negb (char_code c =? 125)%N
  && negb (char_code c =? 44)%N.

Definition reads_back (v : json) : Prop :=
  wf_json v = true ->
  forall fuel rest, (size v <= fuel)%nat -> closes rest = true ->
    parse_value fuel (write_json v +:+ rest) = Some (v, rest).

Definition list_size (l : list json) : nat := list_sum (map (fun x => S (size x)) l).
Definition members_size (l : list (string * json)) : nat :=
  list_sum (map (fun kv => S (size (snd kv))) l).

(* --------------------------------------------------------------------- *)
(** *** Sample data for the examples *)

(** Modelled from the spec: the fixed allow-set of upload format tags, which
    the code reads from the enum [UploadFileType] of [./types], a module that
    is not among the sources.  Its members are the three upload formats of
    the service; ['fit'] is the default format of [uploadActivity]. *)
Definition UploadFileType_values : list string := ["tcx"; "gpx"; "fit"].

(** Sample collaborators for the examples: endpoints under the API host of
    the domain, and stand-ins for the date and unit helpers. *)
Definition sample_urls (domain : string) : UrlClass :=
  let api := "https://connectapi." +:+ domain in
  {| USER_SETTINGS := api +:+ "/userprofile-service/userprofile/user-settings/";
     USER_PROFILE := api +:+ "/userprofile-service/socialProfile";
     ACTIVITIES := api +:+ "/activitylist-service/activities/search/activities";
     ACTIVITY := api +:+ "/activity-service/activity/";
     STAT_ACTIVITIES := api +:+ "/fitnessstats-service/activity";
     ACTIVITY_GEAR := api +:+ "/gear-service/gear/filterGear";
     ACTIVITY_GEAR_LINK := fun g a =>
       api +:+ "/gear-service/gear/link/" +:+ js_string g +:+ "/activity/" +:+ js_string a;
     ACTIVITY_GEAR_UNLINK := fun g a =>
       api +:+ "/gear-service/gear/unlink/" +:+ js_string g +:+ "/activity/" +:+ js_string a;
     DOWNLOAD_TCX := api +:+ "/download-service/export/tcx/activity/";
     DOWNLOAD_GPX := api +:+ "/download-service/export/gpx/activity/";
     DOWNLOAD_KML := api +:+ "/download-service/export/kml/activity/";
     DOWNLOAD_ZIP := api +:+ "/download-service/files/activity/";
     UPLOAD := fun format => api +:+ "/upload-service/upload/." +:+ format;
     UPLOAD_ACTIVITY_STATUS := fun time id =>
       api +:+ "/activity-service/activity/status/"
           +:+ match time with Some t => string_of_Z t | None => "NaN" end
           +:+ "/" +:+ js_string id;
     WORKOUTS := api +:+ "/workout-service/workouts";
     WORKOUT := fun id =>
       api +:+ "/workout-service/workout"
           +:+ match id with Some i => "/" +:+ js_string i | None => "" end;
     DAILY_STEPS := api +:+ "/usersummary-service/stats/steps/daily/";
     DAILY_SLEEP := api +:+ "/sleep-service/sleep/dailySleepData";
     DAILY_WEIGHT := api +:+ "/weight-service/weight/dayview";
     DAILY_HYDRATION := api +:+ "/usersummary-service/usersummary/hydration/allData";
     UPDATE_WEIGHT := api +:+ "/weight-service/user-weight";
     HYDRATION_LOG := api +:+ "/usersummary-service/usersummary/hydration/log";
     GOLF_SCORECARD_SUMMARY := api +:+ "/gcs-golfcommunity/api/v2/scorecard/summary";
     GOLF_SCORECARD_DETAIL := api +:+ "/gcs-golfcommunity/api/v2/scorecard/detail";
     DAILY_HEART_RATE := api +:+ "/wellness-service/wellness/dailyHeartRate" |}.

Definition sample_lib : Collaborators :=
  {| UrlClass_new := sample_urls;
     UploadFileType := UploadFileType_values;
     toDateString := fun t => "day-" +:+ string_of_Z (t / 86400000);
     calculateTimeDifference := fun a b =>
       match a, b with
       | JNum x, JNum y => (JNum ((y - x) / 3600000), JNum (((y - x) / 60000) mod 60))
       | _, _ => (JNull, JNull)
       end;
     getLocalTimestamp := fun t zone => string_of_Z t +:+ "@" +:+ zone;
     gramsToPounds := fun g => JNum (g * 22 / 10000);
     convertMLToOunces := fun v => match v with JNum ml => JNum (ml * 338 / 10000) | _ => JNull end;
     convertOuncesToML := fun v => match v with JNum oz => JNum (oz * 2957 / 100) | _ => JNull end;
     Running_isValid := fun r =>
       match running_name r, running_distance r with
       | Some _, Some d => 0 <? d
       | _, _ => false
       end;
     Running_toJson := fun r =>
       JObj [("workoutName", match running_name r with Some n => JStr n | None => JNull end);
             ("description",
              match running_description r with Some d => JStr d | None => JNull end)];
     Running_props := fun r =>
       JObj [("name", match running_name r with Some n => JStr n | None => JNull end)];
     format_yyyy_MM_dd := fun t => "day-" +:+ string_of_Z (t / 86400000);
     toISOString := fun t => "T" +:+ string_of_Z t;
     Date_getTime := fun text =>
       match JSON_parse text with Some (JNum t) => Some t | _ => None end;
     form_content_type := "multipart/form-data; boundary=sample" |}.

(** A service that cannot be reached: every call fails. *)
Definition unreachable : list call -> call -> HttpClient -> result payload * HttpClient :=
  fun _ _ c => (inl (Error "Network Error"), c).

(** A service that answers every call with the same body. *)
Definition answering (b : payload)
  : list call -> call -> HttpClient -> result payload * HttpClient :=
  fun _ _ c => (inr b, c).

Definition sample_oauth1 : json :=
  JObj [("oauth_token", JStr "5a1f"); ("oauth_token_secret", JStr "c0de")].

Definition sample_oauth2 : json :=
  JObj [("access_token", JStr "eyJhbGciOi"); ("refresh_token", JStr "b3f");
        ("expires_in", JNum 3599); ("scope", JStr "CONNECT_READ CONNECT_WRITE")].

Definition sample_credentials : GCCredentials := mkCredentials "ana@example.org" "hunter2".

(** The object the configuration file yielded. *)
Definition sample_config : ref := 1%positive.

(** A world with the root and a directory [/tokens]. *)
Definition sample_world
    (srv : list call -> call -> HttpClient -> result payload * HttpClient) : world :=
  mkWorld (<["/tokens" := Dir]> (<["/" := Dir]> ∅)) [] srv (fun _ => sample_credentials)
          (Some sample_config)
          1700000000000.

(** A world in which requiring the configuration file failed. *)
Definition unconfigured_world : world :=
  mkWorld ∅ [] unreachable (fun _ => sample_credentials)
          (load_config (inl (Error "Cannot find module"))) 0.

(** An instance as [new GarminConnect()] leaves it, and one holding a session. *)
Definition sample_fresh : GarminConnect :=
  mkGarminConnect (mkHttpClient None None) None sample_config ∅ (sample_urls "garmin.com").

Definition sample_session : GarminConnect :=
  set_client (mkHttpClient (Some sample_oauth1) (Some sample_oauth2)) sample_fresh.

(** [/tokens] holding only the first token file. *)
Definition half_saved_world : world :=
  set_fs (<["/tokens/oauth1_token.json" := File (JSON_stringify sample_oauth1)]>
            (fs (sample_world unreachable)))
         (sample_world unreachable).

(** A zip archive as the service returns it, and the reply to an upload. *)
Definition sample_zip : payload := PBuffer "PK-archive-bytes".

Definition sample_upload_reply : payload :=
  PData (JObj [("detailedImportResult", JObj [("uploadId", JNum 42)])]).

(** [/tokens] holding a first token file that is not JSON. *)
Definition garbled_world : world :=
  set_fs (<["/tokens/oauth1_token.json" := File "{oops"]> (fs (sample_world unreachable)))
         (sample_world unreachable).

(** A listener that, were it ever invoked, would empty the file system. *)
Definition wiping_listener : EventCallback := fun _ w => set_fs ∅ w.

(** A night of seven hours and a half, as the sleep endpoint reports it. *)
Definition sample_sleep : payload :=
  PData (JObj [("dailySleepDTO",
                JObj [("sleepStartTimestampGMT", JNum 0);
                      ("sleepEndTimestampGMT", JNum 27000000)])]).

(** A day view whose weight is the text [70000], not a number. *)
Definition sample_weight_text : payload :=
  PData (JObj [("totalAverage", JObj [("weight", JStr "70000")])]).

(** A day on which nothing was drunk. *)
Definition sample_dry_day : payload := PData (JObj [("valueInML", JNum 0)]).

(** A profile as the service returns it. *)
Definition sample_profile : payload :=
  PData (JObj [("displayName", JStr "ana"); ("profileId", JNum 1234)]).

End IntegerPlatform.

(* ===================================================================== *)
(** ** Properties *)
(* ===================================================================== *)

Section Properties.

Context `{NUM : Numbers} `{JSON : !Json}.

(* --------------------------------------------------------------------- *)
(** *** Strings and data *)

Lemma append_assoc (a b c : string) : (a +:+ b) +:+ c = a +:+ (b +:+ c).
Proof. induction a as [|x a IH]; simpl; [reflexivity | now rewrite IH]. Qed.

Lemma append_nil_r (a : string) : a +:+ "" = a.
Proof. induction a as [|x a IH]; simpl; [reflexivity | now rewrite IH]. Qed.

Lemma length_append (a b : string) :
  String.length (a +:+ b) = (String.length a + String.length b)%nat.
Proof. induction a as [|x a IH]; simpl; [reflexivity | now rewrite IH]. Qed.

Lemma json_safe_wf (v : json) : json_safe v = true -> wf_json v = true.
Proof.
  induction v as [| b | n | s | l IH | l IH] using json_nested_ind;
    cbn [json_safe wf_json]; try reflexivity.
  - intros H. apply forallb_forall. intros x Hx.
    rewrite forallb_forall in H. rewrite List.Forall_forall in IH. auto.
  - intros H. apply andb_prop in H as [H Hl]. apply andb_prop in H as [Hn _].
    rewrite Hn. cbn [andb]. apply forallb_forall. intros x Hx.
    rewrite forallb_forall in Hl. rewrite List.Forall_forall in IH. auto.
Qed.

(* --------------------------------------------------------------------- *)
(** *** The file system and the token files *)
Lemma checkIsDirectory_run (p : string) (w : world) :
  checkIsDirectory p w = (inr (is_dir w p), w).
Proof.
  unfold checkIsDirectory, bind, existsSync, gets, lstatSync_isDirectory, ret, is_dir.
  destruct (stat w p) as [[]|] eqn:E; cbv beta iota; rewrite ?E; reflexivity.
Qed.

Lemma stat_empty (w : world) : stat w "" = None.
Proof. reflexivity. Qed.

Lemma stat_insert_eq (w : world) (p : string) (n : node) :
  p <> "" -> stat (set_fs (<[p := n]> (fs w)) w) p = Some n.
Proof.
  intros Hp. unfold stat. apply String.eqb_neq in Hp. rewrite Hp. simpl.
  apply lookup_insert_eq.
Qed.

Lemma stat_insert_ne (w : world) (p q : string) (n : node) :
  p <> q -> stat (set_fs (<[p := n]> (fs w)) w) q = stat w q.
Proof.
  intros Hp. unfold stat. destruct (String.eqb q ""); [reflexivity|]. simpl.
  now apply lookup_insert_ne.
Qed.

Lemma stat_some_nonempty (w : world) (p : string) (n : node) :
  stat w p = Some n -> p <> "".
Proof. intros H ->. discriminate H. Qed.

Lemma mkdirSync_ok (p : string) (w w' : world) :
  mkdirSync p w = (inr tt, w') ->
  p <> "" /\ stat w p = None /\ w' = set_fs (<[p := Dir]> (fs w)) w.
Proof.
  unfold mkdirSync. destruct (stat w p) as [n|] eqn:Hp; [discriminate|].
  destruct (stat w (dirname p)) as [[]|]; try discriminate.
  destruct (String.eqb_spec p ""); [discriminate|]. intros [= <-]. auto.
Qed.


Lemma mkdirSync_fails (p : string) (w w' : world) (e : error) :
  mkdirSync p w = (inl e, w') -> w' = w /\ exists c, e = SystemError c "mkdir" p.
Proof.
  unfold mkdirSync. destruct (stat w p) as [n|].
  - intros [= <- <-]. eauto.
  - destruct (stat w (dirname p)) as [[]|]; try (intros [= <- <-]; eauto).
    destruct (String.eqb p ""); [intros [= <- <-]; eauto | discriminate].
Qed.

Lemma writeFileSync_ok (p : string) (d : payload) (w w' : world) :
  writeFileSync p d w = (inr tt, w') ->
  exists bytes, file_bytes d = Some bytes /\ p <> "" /\ stat w p <> Some Dir /\
                w' = set_fs (<[p := File bytes]> (fs w)) w.
Proof.
  unfold writeFileSync. destruct (file_bytes d) as [bytes|]; [|discriminate].
  destruct (stat w p) as [[]|] eqn:Hp.
  - intros [= <-]. exists bytes. repeat split; try congruence.
    eapply stat_some_nonempty; eauto.
  - discriminate.
  - destruct (stat w (dirname p)) as [[]|]; try discriminate.
    destruct (String.eqb_spec p ""); [discriminate|]. intros [= <-].
    exists bytes. repeat split; congruence.
Qed.

Lemma writeFileSync_fails (p : string) (d : payload) (w w' : world) (e : error) :
  writeFileSync p d w = (inl e, w') ->
  w' = w /\ ((exists c, e = SystemError c "open" p) \/ file_bytes d = None).
Proof.
  unfold writeFileSync. destruct (file_bytes d) as [bytes|]; [|intros [= <- <-]; auto].
  destruct (stat w p) as [[]|]; try discriminate; try (intros [= <- <-]; eauto).
  destruct (stat w (dirname p)) as [[]|]; try (intros [= <- <-]; eauto).
  destruct (String.eqb p ""); [intros [= <- <-]; eauto | discriminate].
Qed.


Lemma append_nonempty_neq (d t : string) : t <> "" -> d +:+ t <> d.
Proof.
  intros Ht H. apply (f_equal String.length) in H. rewrite length_append in H.
  destruct t; [congruence | simpl in H; lia].
Qed.

Lemma path_join_ne_dir (dir name : string) : dir <> "" -> path_join dir name <> dir.
Proof.
  intros Hd. destruct dir as [|c d]; [congruence|]. unfold path_join.
  apply append_nonempty_neq. discriminate.
Qed.

Lemma append_inj_l (d a b : string) : d +:+ a = d +:+ b -> a = b.
Proof. induction d as [|c d IH]; simpl; [auto | intros [= H]; auto]. Qed.

Lemma path_join_inj (dir a b : string) : path_join dir a = path_join dir b -> a = b.
Proof.
  destruct dir as [|c d]; [auto|]. unfold path_join. intros H.
  apply append_inj_l in H. now injection H.
Qed.







Lemma bind_ok {S A B} (c : ST S A) (k : A -> ST S B) (s s' : S) (b : B) :
  bind c k s = (inr b, s') -> exists a s1, c s = (inr a, s1) /\ k a s1 = (inr b, s').
Proof.
  unfold bind. destruct (c s) as [[e|a] s1]; [discriminate | eauto].
Qed.


Lemma lift_env_run {A} (c : ST world A) (s : state) :
  lift_env c s = (fst (c (env s)), mkState (this s) (snd (c (env s)))).
Proof. unfold lift_env. now destruct (c (env s)). Qed.

Lemma ensure_directory_ok (dir : string) (w w' : world) :
  ensure_directory dir w = (inr tt, w') ->
  dir <> "" /\ stat w' dir = Some Dir /\
  (w' = w \/ (stat w dir = None /\ w' = set_fs (<[dir := Dir]> (fs w)) w)).
Proof.
  unfold ensure_directory, bind. rewrite checkIsDirectory_run. unfold is_dir.
  destruct (stat w dir) as [[]|] eqn:Hd; simpl.
  - unfold createDirectory, mkdirSync. rewrite Hd. discriminate.
  - intros [= <-]. repeat split; auto. eapply stat_some_nonempty; eauto.
  - intros H. apply mkdirSync_ok in H as (Hne & _ & ->).
    repeat split; auto using stat_insert_eq.
Qed.




(** The cases of one token write in [exportTokenToFile]: no token, a falsy
    one, a write that fails, a write that goes through. *)
Ltac token_write_cases o :=
  destruct o as [?t|]; simpl;
  [ match goal with
    | |- context [truthy ?t] =>
        destruct (truthy t); simpl;
        [ match goal with
          | |- context [writeToFile ?p ?d ?w] =>
              destruct (writeToFile p d w) as [[?e|[]] ?w]; simpl
          end
        | ]
    end
  | ].

Lemma exportTokenToFile_run (dirPath : string) (s : state) :
  exportTokenToFile dirPath s =
    lift_env (save_tokens dirPath (oauth1Token (client (this s)))
                          (oauth2Token (client (this s)))) s.
Proof.
  destruct s as [g w].
  unfold exportTokenToFile, save_tokens, ensure_directory, write_token, lift_env, bind,
    gets, ret. simpl.
  destruct (checkIsDirectory dirPath w) as [[e|b] w0]; [reflexivity|]. simpl.
  destruct b; simpl; [|destruct (createDirectory dirPath w0) as [[e|[]] w1]; simpl];
    try reflexivity;
    token_write_cases (oauth1Token (client g)); try reflexivity;
    token_write_cases (oauth2Token (client g)); reflexivity.
Qed.

Lemma loadTokenByFile_run (dirPath : string) (s : state) :
  loadTokenByFile dirPath s =
    if is_dir (env s) dirPath then
      match file_json (env s) (path_join dirPath "oauth1_token.json") with
      | inl e => (inl e, s)
      | inr v1 =>
          match file_json (env s) (path_join dirPath "oauth2_token.json") with
          | inl e => (inl e, with_tokens (Some v1) (oauth2Token (client (this s))) s)
          | inr v2 => (inr tt, with_tokens (Some v1) (Some v2) s)
          end
      end
    else (inl (Error ("loadTokenByFile: Directory not found: " +:+ dirPath)), s).
Proof.
  destruct s as [g w].
  unfold loadTokenByFile, bind. rewrite lift_env_run, checkIsDirectory_run. simpl.
  destruct (is_dir w dirPath); simpl; [|reflexivity].
  unfold lift_env, readFileSync, file_json, JSON_parse_or_throw, set_oauth1Token,
    set_oauth2Token, modify, throw, ret, with_tokens. simpl.
  destruct (stat w (path_join dirPath "oauth1_token.json")) as [[text1|]|]; try reflexivity.
  destruct (JSON_parse text1) as [v1|]; simpl; [|reflexivity].
  destruct (stat w (path_join dirPath "oauth2_token.json")) as [[text2|]|]; try reflexivity.
  destruct (JSON_parse text2) as [v2|]; reflexivity.
Qed.


Lemma write_token_ok (p : string) (t : json) (w w' : world) :
  truthy t = true -> write_token p (Some t) w = (inr tt, w') ->
  p <> "" /\ w' = set_fs (<[p := File (JSON_stringify t)]> (fs w)) w.
Proof.
  intros Ht. unfold write_token, writeToFile. rewrite Ht. intros H.
  apply writeFileSync_ok in H as (bytes & [= <-] & Hp & _ & ->). auto.
Qed.

(** C2, as amended.  [loadTokenByFile dirPath] fails with the error
    [loadTokenByFile: Directory not found: <dirPath>] when [dirPath] is not a
    directory, and the instance and the world are then unchanged; it is also
    unchanged when the failure comes from the OAuth1 file (missing, a
    directory, or not parsable).  Whatever the failure, the world and the
    OAuth2 token are unchanged.  When the call returns, both tokens are the
    parsed contents of the two files. *)
Theorem loadTokenByFile_failure (s : state) (dirPath : string) :
  let r := loadTokenByFile dirPath s in
  let p1 := path_join dirPath "oauth1_token.json" in
  let p2 := path_join dirPath "oauth2_token.json" in
  (is_dir (env s) dirPath = false ->
     r = (inl (Error ("loadTokenByFile: Directory not found: " +:+ dirPath)), s)) /\
  (forall e, is_dir (env s) dirPath = true -> file_json (env s) p1 = inl e -> r = (inl e, s)) /\
  (is_error (fst r) = true ->
     env (snd r) = env s /\
     oauth2Token (client (this (snd r))) = oauth2Token (client (this s))) /\
  (fst r = inr tt ->
     exists v1 v2, file_json (env s) p1 = inr v1 /\ file_json (env s) p2 = inr v2 /\
                   snd r = with_tokens (Some v1) (Some v2) s).
Proof.
  cbv zeta. rewrite loadTokenByFile_run.
  destruct (is_dir (env s) dirPath); repeat split; try congruence.
  - intros e _ ->. reflexivity.
  - destruct (file_json _ _) as [e1|v1]; [reflexivity|].
    destruct (file_json _ _) as [e2|v2]; [reflexivity|discriminate].
  - destruct (file_json _ _) as [e1|v1]; [reflexivity|].
    destruct (file_json _ _) as [e2|v2]; [reflexivity|discriminate].
  - destruct (file_json _ _) as [e1|v1]; [discriminate|].
    destruct (file_json _ _) as [e2|v2]; [discriminate|]. eauto.
  - discriminate.
Qed.

Lemma write_token_absent (p : string) (o : option json) (w : world) :
  truthy_opt o = false -> write_token p o w = (inr tt, w).
Proof. destruct o as [t|]; simpl; [intros ->|]; reflexivity. Qed.

Lemma write_token_fails (p : string) (o : option json) (w w' : world) (e : error) :
  write_token p o w = (inl e, w') -> w' = w /\ exists c, e = SystemError c "open" p.
Proof.
  destruct o as [t|]; simpl; [destruct (truthy t)|]; try discriminate.
  intros H. apply writeFileSync_fails in H as [-> [H|H]]; [auto | discriminate H].
Qed.

Lemma write_token_other (p q : string) (o : option json) (w w' : world) (r : result unit) :
  write_token p o w = (r, w') -> q <> p -> stat w' q = stat w q.
Proof.
  destruct r as [e|[]]; intros H Hq.
  - apply write_token_fails in H as [-> _]. reflexivity.
  - destruct o as [t|]; simpl in H; [destruct (truthy t) eqn:Ht|];
      try (injection H as <-; reflexivity).
    apply writeFileSync_ok in H as (b & _ & _ & _ & ->). now apply stat_insert_ne.
Qed.

Lemma ensure_directory_present (dir : string) (w : world) :
  is_dir w dir = true -> ensure_directory dir w = (inr tt, w).
Proof.
  intros H. unfold ensure_directory, bind. rewrite checkIsDirectory_run, H. reflexivity.
Qed.



Lemma save_tokens_none (dirPath : string) (o1 o2 : option json) (w : world) :
  truthy_opt o1 = false -> truthy_opt o2 = false ->
  save_tokens dirPath o1 o2 w = ensure_directory dirPath w.
Proof.
  intros H1 H2. unfold save_tokens, bind.
  destruct (ensure_directory dirPath w) as [[e|[]] w0]; [reflexivity|].
  rewrite write_token_absent by assumption. now apply write_token_absent.
Qed.


Lemma save_tokens_written (dirPath : string) (o1 o2 : option json) (w w' : world) :
  save_tokens dirPath o1 o2 w = (inr tt, w') ->
  (forall t, o1 = Some t -> truthy t = true ->
     stat w' (path_join dirPath "oauth1_token.json") = Some (File (JSON_stringify t))) /\
  (forall t, o2 = Some t -> truthy t = true ->
     stat w' (path_join dirPath "oauth2_token.json") = Some (File (JSON_stringify t))).
Proof.
  intros H. unfold save_tokens in H.
  apply bind_ok in H as ([] & w0 & _ & H).
  apply bind_ok in H as ([] & w1 & Hw1 & Hw2).
  split; intros t -> Ht.
  - apply write_token_ok in Hw1 as (Hp1 & ->); [|assumption].
    erewrite write_token_other; [now apply stat_insert_eq | exact Hw2 |].
    intros H. apply path_join_inj in H. discriminate H.
  - apply write_token_ok in Hw2 as (Hp2 & ->); [|assumption]. now apply stat_insert_eq.
Qed.





Section RoundTrip.

Context `{LAWS : !JsonLaws}.


End RoundTrip.

(* --------------------------------------------------------------------- *)
(** *** The token store *)
Ltac run_monad :=
  unfold returning_nothing, truthy_or_throw, date_or_now, url_of, rethrow, try_catch,
    set_oauth1Token, set_oauth2Token, lift_env, bind, ret, throw, gets, modify in *.

(** C3.  [exportToken] fails with the error [exportToken: Token not found]
    exactly when the OAuth1 or the OAuth2 token is absent (falsy); it fails
    with no other error; when it returns, the pair is made of the two stored
    tokens; and it changes nothing. *)
Theorem exportToken_spec (s : state) :
  let o1 := oauth1Token (client (this s)) in
  let o2 := oauth2Token (client (this s)) in
  (fst (exportToken s) = inl (Error "exportToken: Token not found")
     <-> truthy_opt o1 = false \/ truthy_opt o2 = false) /\
  (forall e, fst (exportToken s) = inl e -> e = Error "exportToken: Token not found") /\
  (forall t, fst (exportToken s) = inr t -> o1 = Some (oauth1 t) /\ o2 = Some (oauth2 t)) /\
  snd (exportToken s) = s.
Proof.
  unfold exportToken; run_monad; simpl.
  destruct (oauth1Token (client (this s))) as [t1|], (oauth2Token (client (this s))) as [t2|];
    simpl; try destruct (truthy t1); try destruct (truthy t2); simpl;
    repeat split; intros; try congruence; try tauto; try (destruct H; congruence).
  all: try (inversion H; subst; reflexivity).
Qed.

(* --------------------------------------------------------------------- *)
(** *** Upload and download *)
(** C5, as amended.  When the lower-cased format (the declared one, ['fit']
    by default, or the extension of the file when the declared one is empty)
    is not a value of [UploadFileType], [uploadActivity] fails with the error
    [uploadActivity - Invalid format: <format>] and leaves the instance and
    the world as they were: no call reaches the collaborator. *)
Theorem uploadActivity_invalid_format
    (lib : Collaborators) (file : string) (format : option string) (s : state) :
  includes (UploadFileType lib) (effective_format file format) = false ->
  uploadActivity lib file format s =
    (inl (Error ("uploadActivity - Invalid format: "
                 +:+ match format with Some f => f | None => "fit" end)), s).
Proof.
  unfold uploadActivity, effective_format. intros H.
  destruct (String.eqb (match format with Some f => f | None => "fit" end) ""); simpl in *;
    now rewrite H.
Qed.

Lemma uploadActivity_valid_format
    (lib : Collaborators) (file : string) (format : option string) (s : state) :
  includes (UploadFileType lib) (effective_format file format) = true ->
  uploadActivity lib file format s =
    client_call (upload_request lib (url (this s)) file
                   (match format with Some f => f | None => "fit" end)) s.
Proof.
  unfold uploadActivity, effective_format. intros H.
  destruct (String.eqb (match format with Some f => f | None => "fit" end) ""); simpl in *;
    now rewrite H.
Qed.


Lemma downloadOriginalActivityData_run
    (id : json) (dir : string) (type : option string) (s : state) :
  truthy id = true ->
  downloadOriginalActivityData (Some id) dir type s =
    (let type := match type with Some t => t | None => "zip" end in
     do _ <- lift_env (ensure_directory dir);
     do u <- url_of;
     do fileBuffer <-
       (if includes ExportFileType_values type
        then client_call (download_request u id type)
        else throw (Error ("downloadOriginalActivityData - Invalid type: " +:+ type)));
     lift_env (writeToFile (path_join dir (js_string id +:+ "." +:+ type)) fileBuffer)) s.
Proof.
  intros Hid. destruct s as [g w].
  unfold downloadOriginalActivityData, truthy_or_throw, ensure_directory, download_request,
    client_get, url_of, lift_env, bind, gets, ret, includes, ExportFileType_values.
  rewrite Hid. cbn [existsb env this].
  generalize (match type with Some t => t | None => "zip" end). intros ty.
  destruct (String.eqb_spec ty "tcx") as [->|N1];
    [|destruct (String.eqb_spec ty "gpx") as [->|N2];
      [|destruct (String.eqb_spec ty "kml") as [->|N3];
        [|destruct (String.eqb_spec ty "zip") as [->|N4]]]];
    cbn [orb];
    (destruct (checkIsDirectory dir w) as [[e|b] w0]; [reflexivity|];
     destruct b; [reflexivity|]; cbn [negb env this];
     destruct (createDirectory dir w0) as [[e|[]] w1]; reflexivity).
Qed.






(* --------------------------------------------------------------------- *)
(** *** Listeners and failures across the operations *)
Lemma ignores_ret {A} (a : A) : ignores_listeners (ret a).
Proof. intros s l. reflexivity. Qed.

Lemma ignores_throw {A} (e : error) : ignores_listeners (@throw state A e).
Proof. intros s l. reflexivity. Qed.

Lemma ignores_bind {A B} (c : ST state A) (k : A -> ST state B) :
  ignores_listeners c -> (forall a, ignores_listeners (k a)) -> ignores_listeners (bind c k).
Proof.
  intros Hc Hk s l. unfold bind. rewrite Hc.
  destruct (c s) as [[e|a] s1]; simpl; [reflexivity | apply Hk].
Qed.

Lemma ignores_try_catch {A} (c : ST state A) (h : error -> ST state A) :
  ignores_listeners c -> (forall e, ignores_listeners (h e)) ->
  ignores_listeners (try_catch c h).
Proof.
  intros Hc Hh s l. unfold try_catch. rewrite Hc.
  destruct (c s) as [[e|a] s1]; simpl; [apply Hh | reflexivity].
Qed.

Lemma ignores_lift_env {A} (c : ST world A) : ignores_listeners (lift_env c).
Proof. intros s l. unfold lift_env. simpl. now destruct (c (env s)). Qed.

Lemma ignores_client_call (c : call) : ignores_listeners (client_call c).
Proof.
  intros s l. unfold client_call. simpl.
  now destruct (service (env s) (map fst (sent (env s))) c (client (this s))).
Qed.

Lemma ignores_gets {A} (f : state -> A) :
  (forall s l, f (with_listeners l s) = f s) -> ignores_listeners (gets f).
Proof. intros Hf s l. unfold gets. now rewrite Hf. Qed.

Lemma ignores_modify (f : state -> state) :
  (forall s l, f (with_listeners l s) = with_listeners l (f s)) ->
  ignores_listeners (modify f).
Proof. intros Hf s l. unfold modify. now rewrite Hf. Qed.

Lemma ignores_client_get (u : string) (o : option options) :
  ignores_listeners (client_get u o).
Proof. apply ignores_client_call. Qed.

Lemma ignores_client_post (u : string) (b : body) (o : option options) :
  ignores_listeners (client_post u b o).
Proof. apply ignores_client_call. Qed.

Lemma ignores_client_put (u : string) (b : body) (o : option options) :
  ignores_listeners (client_put u b o).
Proof. apply ignores_client_call. Qed.

Lemma ignores_client_delete (u : string) : ignores_listeners (client_delete u).
Proof. apply ignores_client_call. Qed.

Lemma ignores_client_login (u p : string) : ignores_listeners (client_login u p).
Proof. apply ignores_client_call. Qed.

Create HintDb listeners.
#[local] Hint Resolve ignores_ret ignores_throw ignores_lift_env ignores_client_call
  ignores_client_get ignores_client_post ignores_client_put ignores_client_delete
  ignores_client_login : listeners.

Ltac ignores_step :=
  match goal with
  | |- ignores_listeners (bind _ _) => apply ignores_bind; [|intros ?]
  | |- ignores_listeners (try_catch _ _) => apply ignores_try_catch; [|intros ?]
  | |- ignores_listeners (gets _) => apply ignores_gets; reflexivity
  | |- ignores_listeners (modify _) => apply ignores_modify; reflexivity
  | |- ignores_listeners (match ?x with _ => _ end) => destruct x
  | |- ignores_listeners (let _ := _ in _) => cbv zeta
  | |- ignores_listeners _ => solve [auto with listeners]
  end.

Ltac ignores_basic := repeat ignores_step.

Lemma ignores_truthy_or_throw (msg : string) (v : option json) :
  ignores_listeners (truthy_or_throw msg v).
Proof. unfold truthy_or_throw. ignores_basic. Qed.

Lemma ignores_url_of : ignores_listeners url_of.
Proof. unfold url_of. ignores_basic. Qed.

Lemma ignores_date_or_now (d : option Z) : ignores_listeners (date_or_now d).
Proof. unfold date_or_now. ignores_basic. Qed.

Lemma ignores_rethrow {A} (name : string) (c : ST state A) :
  ignores_listeners c -> ignores_listeners (rethrow name c).
Proof. intros H. unfold rethrow. ignores_basic. Qed.

#[local] Hint Resolve ignores_truthy_or_throw ignores_url_of ignores_date_or_now : listeners.

Ltac ignores_listeners_tac :=
  repeat first [ ignores_step | apply ignores_rethrow ].

Lemma ignores_getUserProfile : ignores_listeners getUserProfile.
Proof. unfold getUserProfile. ignores_listeners_tac. Qed.

Lemma ignores_getSleepData (lib : Collaborators) (d : option Z) :
  ignores_listeners (getSleepData lib d).
Proof.
  unfold getSleepData, getSleepData_try. ignores_listeners_tac.
Qed.

Lemma ignores_getDailyWeightData (lib : Collaborators) (d : option Z) :
  ignores_listeners (getDailyWeightData lib d).
Proof.
  unfold getDailyWeightData, getDailyWeightData_try. ignores_listeners_tac.
Qed.

Lemma ignores_addWorkout (lib : Collaborators) (w : option workout) :
  ignores_listeners (addWorkout lib w).
Proof. unfold addWorkout. ignores_listeners_tac. Qed.

#[local] Hint Resolve ignores_getUserProfile ignores_getSleepData
  ignores_getDailyWeightData ignores_addWorkout : listeners.

(** C8.  The listeners of a new instance are empty, and no public operation
    reads or changes them: run on an instance with any other listeners, an
    operation gives the same result and the same world (so no listener was
    invoked and no event emitted), and leaves those listeners in place. *)
Theorem listeners_never_touched (lib : Collaborators) :
  (forall credentials domain w g,
     constructor lib credentials domain w = inr g -> listeners g = ∅) /\
  (forall op, ignores_listeners (run lib op)).
Proof.
  split.
  - intros credentials domain w g. unfold constructor.
    destruct credentials as [c|]; [|destruct (config w)]; intros [= <-]; reflexivity.
  - intros op. destruct op; cbn [run];
      unfold returning_nothing, login, exportTokenToFile, loadTokenByFile, exportToken,
        loadToken, getUserSettings, getActivities, getActivity, countActivities, getGears,
        getActivityGear, linkActivityGear, unlinkActivityGear, downloadOriginalActivityData,
        uploadActivity, getUploadActivityDetails, deleteActivity, getWorkouts,
        getWorkoutDetail, addRunningWorkout, deleteWorkout, addActivity, getSteps,
        find_in_days, getSleepDuration, getSleepDuration_try, getDailyWeightInPounds,
        getDailyHydration, getDailyHydration_try, updateWeight, updateWeight_try,
        updateHydrationLogOunces, updateHydrationLogOunces_try, profileId_of,
        getGolfSummary, getGolfSummary_try, getGolfScorecard, getGolfScorecard_try,
        getHeartRate, getHeartRate_try, get, post, put, JSON_parse_or_throw,
        set_oauth1Token, set_oauth2Token;
      ignores_listeners_tac.
Qed.

Lemma forwards_surfaces {A} (c : ST state A) : forwards_failures c -> surfaces_failures c.
Proof.
  intros H s. destruct (H s) as (new & Hnew & Hfail). exists new. split; [assumption|].
  intros Hex. apply existsb_exists in Hex as ([k [e|a]] & Hin & Hf); [|discriminate Hf].
  now rewrite (Hfail k e Hin).
Qed.

Lemma forwards_quiet_state {A} (c : ST state A) :
  (forall s, sent (env (snd (c s))) = sent (env s)) -> forwards_failures c.
Proof.
  intros H s. exists []. rewrite app_nil_r. split; [apply H | intros k e []].
Qed.

Lemma forwards_ret {A} (a : A) : forwards_failures (ret a).
Proof. now apply forwards_quiet_state. Qed.

Lemma forwards_throw {A} (e : error) : forwards_failures (@throw state A e).
Proof. now apply forwards_quiet_state. Qed.

Lemma forwards_gets {A} (f : state -> A) : forwards_failures (gets f).
Proof. now apply forwards_quiet_state. Qed.

Lemma forwards_modify (f : state -> state) :
  (forall s, sent (env (f s)) = sent (env s)) -> forwards_failures (modify f).
Proof. intros H. now apply forwards_quiet_state. Qed.

Lemma forwards_lift_env {A} (c : ST world A) : quiet c -> forwards_failures (lift_env c).
Proof.
  intros H. apply forwards_quiet_state. intros s. rewrite lift_env_run. apply H.
Qed.

Lemma forwards_client_call (c : call) : forwards_failures (client_call c).
Proof.
  intros s. unfold client_call.
  destruct (service (env s) (map fst (sent (env s))) c (client (this s))) as [r cl].
  exists [(c, r)]. split; [reflexivity|].
  intros k e [[= _ <-]|[]]. reflexivity.
Qed.

Lemma forwards_bind {A B} (c : ST state A) (k : A -> ST state B) :
  forwards_failures c -> (forall a, forwards_failures (k a)) -> forwards_failures (bind c k).
Proof.
  intros Hc Hk s. unfold bind. destruct (Hc s) as (new1 & Hnew1 & Hfail1).
  destruct (c s) as [[e|a] s1]; simpl in *.
  - exists new1. split; [assumption|]. intros k0 e0 Hin.
    now injection (Hfail1 k0 e0 Hin) as ->.
  - destruct (Hk a s1) as (new2 & Hnew2 & Hfail2).
    exists (new1 ++ new2)%list. split; [now rewrite Hnew2, Hnew1, app_assoc|].
    intros k0 e0 Hin. apply in_app_iff in Hin as [Hin|Hin].
    + discriminate (Hfail1 k0 e0 Hin).
    + apply (Hfail2 k0 e0 Hin).
Qed.

Lemma surfaces_bind {A B} (c : ST state A) (k : A -> ST state B) :
  surfaces_failures c -> (forall a, surfaces_failures (k a)) -> surfaces_failures (bind c k).
Proof.
  intros Hc Hk s. unfold bind. destruct (Hc s) as (new1 & Hnew1 & Hfail1).
  destruct (c s) as [[e|a] s1]; simpl in *.
  - exists new1. split; [assumption | reflexivity].
  - destruct (Hk a s1) as (new2 & Hnew2 & Hfail2).
    exists (new1 ++ new2)%list. split; [now rewrite Hnew2, Hnew1, app_assoc|].
    rewrite existsb_app. intros Hex. apply orb_true_iff in Hex as [Hex|Hex].
    + discriminate (Hfail1 Hex).
    + apply (Hfail2 Hex).
Qed.

Lemma surfaces_rethrow {A} (name : string) (c : ST state A) :
  surfaces_failures c -> surfaces_failures (rethrow name c).
Proof.
  intros Hc s. unfold rethrow, try_catch, throw. destruct (Hc s) as (new & Hnew & Hfail).
  exists new. destruct (c s) as [[e|a] s1]; simpl in *; auto.
Qed.

Lemma rethrow_fails {A} (name : string) (c : ST state A) (s : state) (e : error) :
  fst (rethrow name c s) = inl e ->
  exists cause, fst (c s) = inl cause /\
                e = Error ("Error in " +:+ name +:+ ": " +:+ message cause).
Proof.
  unfold rethrow, try_catch, throw. destruct (c s) as [[e0|a] s1]; simpl; [|discriminate].
  intros [= <-]. eauto.
Qed.

Lemma quiet_checkIsDirectory (p : string) : quiet (checkIsDirectory p).
Proof. intros w. now rewrite checkIsDirectory_run. Qed.

Lemma quiet_createDirectory (p : string) : quiet (createDirectory p).
Proof.
  intros w. unfold createDirectory. destruct (mkdirSync p w) as [[e|[]] w'] eqn:H.
  - now apply mkdirSync_fails in H as [-> _].
  - now apply mkdirSync_ok in H as (_ & _ & ->).
Qed.

Lemma quiet_writeToFile (p : string) (d : payload) : quiet (writeToFile p d).
Proof.
  intros w. unfold writeToFile. destruct (writeFileSync p d w) as [[e|[]] w'] eqn:H.
  - now apply writeFileSync_fails in H as [-> _].
  - now apply writeFileSync_ok in H as (b & _ & _ & _ & ->).
Qed.

Lemma quiet_readFileSync (p : string) : quiet (readFileSync p).
Proof. intros w. unfold readFileSync. now destruct (stat w p) as [[]|]. Qed.

Create HintDb failures.
#[local] Hint Resolve forwards_ret forwards_throw forwards_gets forwards_client_call
  quiet_checkIsDirectory quiet_createDirectory quiet_writeToFile quiet_readFileSync
  forwards_lift_env : failures.

Ltac forwards_step :=
  match goal with
  | |- forwards_failures (bind _ _) => apply forwards_bind; [|intros ?]
  | |- forwards_failures (modify _) => apply forwards_modify; reflexivity
  | |- forwards_failures (match ?x with _ => _ end) => destruct x
  | |- forwards_failures (let _ := _ in _) => cbv zeta
  | |- forwards_failures _ => solve [auto with failures]
  end.

Ltac forwards_tac := repeat forwards_step.

Lemma forwards_truthy_or_throw (msg : string) (v : option json) :
  forwards_failures (truthy_or_throw msg v).
Proof. unfold truthy_or_throw. forwards_tac. Qed.

Lemma forwards_url_of : forwards_failures url_of.
Proof. unfold url_of. forwards_tac. Qed.

Lemma forwards_date_or_now (d : option Z) : forwards_failures (date_or_now d).
Proof. unfold date_or_now. forwards_tac. Qed.

Lemma forwards_client_get (u : string) (o : option options) :
  forwards_failures (client_get u o).
Proof. apply forwards_client_call. Qed.

Lemma forwards_client_post (u : string) (b : body) (o : option options) :
  forwards_failures (client_post u b o).
Proof. apply forwards_client_call. Qed.

Lemma forwards_client_put (u : string) (b : body) (o : option options) :
  forwards_failures (client_put u b o).
Proof. apply forwards_client_call. Qed.

Lemma forwards_client_delete (u : string) : forwards_failures (client_delete u).
Proof. apply forwards_client_call. Qed.

Lemma forwards_client_login (u p : string) : forwards_failures (client_login u p).
Proof. apply forwards_client_call. Qed.

#[local] Hint Resolve forwards_truthy_or_throw forwards_url_of forwards_date_or_now
  forwards_client_get forwards_client_post forwards_client_put forwards_client_delete
  forwards_client_login : failures.

Lemma forwards_addWorkout (lib : Collaborators) (w : option workout) :
  forwards_failures (addWorkout lib w).
Proof. unfold addWorkout. forwards_tac. Qed.

Lemma forwards_getUserProfile : forwards_failures getUserProfile.
Proof. unfold getUserProfile. forwards_tac. Qed.

#[local] Hint Resolve forwards_addWorkout forwards_getUserProfile : failures.

Lemma forwards_plain (lib : Collaborators) (op : operation) :
  plain op = true -> forwards_failures (run lib op).
Proof.
  destruct op; intros Hp; try discriminate Hp; cbn [run];
    unfold returning_nothing, login, exportTokenToFile, loadTokenByFile, exportToken,
      loadToken, getUserSettings, getActivities, getActivity, countActivities,
      getGears, getActivityGear, linkActivityGear, unlinkActivityGear,
      downloadOriginalActivityData, uploadActivity, getUploadActivityDetails,
      deleteActivity, getWorkouts, getWorkoutDetail, addRunningWorkout, deleteWorkout,
      addActivity, getSteps, find_in_days, get, post, put,
      JSON_parse_or_throw, set_oauth1Token, set_oauth2Token;
    forwards_tac.
Qed.

Ltac surfaces_step :=
  match goal with
  | |- surfaces_failures (bind _ _) => apply surfaces_bind; [|intros ?]
  | |- surfaces_failures (rethrow _ _) => apply surfaces_rethrow
  | |- surfaces_failures (match ?x with _ => _ end) => destruct x
  | |- surfaces_failures (let _ := _ in _) => cbv zeta
  | |- surfaces_failures _ => solve [apply forwards_surfaces; auto with failures]
  end.

Ltac surfaces_tac := repeat surfaces_step.

Lemma surfaces_getSleepData (lib : Collaborators) (d : option Z) :
  surfaces_failures (getSleepData lib d).
Proof. unfold getSleepData, getSleepData_try. surfaces_tac. Qed.

Lemma surfaces_getDailyWeightData (lib : Collaborators) (d : option Z) :
  surfaces_failures (getDailyWeightData lib d).
Proof. unfold getDailyWeightData, getDailyWeightData_try. surfaces_tac. Qed.

Lemma surfaces_run (lib : Collaborators) (op : operation) : surfaces_failures (run lib op).
Proof.
  destruct (plain op) eqn:Hp; [now apply forwards_surfaces, forwards_plain|].
  destruct op; try discriminate Hp; cbn [run];
    unfold getSleepDuration, getSleepDuration_try, getDailyWeightInPounds,
      getDailyHydration, getDailyHydration_try, updateWeight, updateWeight_try,
      updateHydrationLogOunces, updateHydrationLogOunces_try, profileId_of, getGolfSummary,
      getGolfSummary_try, getGolfScorecard, getGolfScorecard_try, getHeartRate,
      getHeartRate_try;
    try apply surfaces_getSleepData; try apply surfaces_getDailyWeightData;
    repeat first [ apply surfaces_getSleepData | apply surfaces_getDailyWeightData
                 | surfaces_step ].
Qed.

(* --------------------------------------------------------------------- *)
(** *** Further properties of the methods *)
Lemma skipn_length_app {A} (l new : list A) : skipn (length l) (l ++ new) = new.
Proof. induction l as [|x l IH]; simpl; [reflexivity | exact IH]. Qed.

Lemma client_call_answer (c : call) (s : state) :
  fst (client_call c s) = answer s c /\
  sent_by (client_call c) s = [(c, answer s c)] /\
  fs (env (snd (client_call c s))) = fs (env s) /\
  credentials (this (snd (client_call c s))) = credentials (this s).
Proof.
  unfold sent_by, answer, client_call.
  destruct (service (env s) (map fst (sent (env s))) c (client (this s))) as [r cl].
  cbn [fst snd env this log_call sent fs set_client credentials].
  now rewrite skipn_length_app.
Qed.

Lemma client_call_run (c : call) (s : state) :
  client_call c s = (answer s c, after_call s c).
Proof.
  unfold client_call, after_call, answer. cbv zeta.
  destruct (service (env s) (map fst (sent (env s))) c (client (this s))). reflexivity.
Qed.

Lemma sent_after_call (s : state) (c : call) :
  skipn (length (sent (env s))) (sent (env (after_call s c))) = [(c, answer s c)].
Proof. unfold after_call. cbn [env log_call sent]. apply skipn_length_app. Qed.

Lemma answer_same_service (s s' : state) (c : call) :
  service (env s') = service (env s) -> sent (env s') = sent (env s) ->
  client (this s') = client (this s) -> answer s' c = answer s c.
Proof. unfold answer. now intros -> -> ->. Qed.

Lemma login_run (usr pwd : option string) (s : state) :
  let s0 := login_entry usr pwd s in
  let k := Login (username (the_credentials s0)) (password (the_credentials s0)) in
  login usr pwd s =
    (match answer s k with inl e => inl e | inr _ => inr PUndefined end, after_call s0 k).
Proof.
  cbv zeta.
  assert (Ha : forall k, answer (login_entry usr pwd s) k = answer s k).
  { intros k. apply answer_same_service; unfold login_entry;
      destruct usr as [u|], pwd as [p|]; try reflexivity;
      destruct (negb (String.eqb u "") && negb (String.eqb p "")); reflexivity. }
  rewrite <- Ha.
  unfold login, client_login, bind, modify, gets, ret, login_entry.
  destruct usr as [u|], pwd as [p|];
    try (destruct (negb (String.eqb u "") && negb (String.eqb p "")));
    cbv beta iota;
    match goal with
    | |- context [the_credentials ?x] => destruct (the_credentials x) as [cu cp]
    end;
    cbn [username password]; rewrite client_call_run;
    match goal with
    | |- context [answer ?s0 ?k] => destruct (answer s0 k) as [e|a]
    end; reflexivity.
Qed.

Lemma the_credentials_set_object (g : GarminConnect) (c : GCCredentials) (w : world) :
  the_credentials (mkState g (set_object (credentials g) c w)) = c.
Proof. unfold the_credentials, set_object. cbn [env this objects]. now rewrite Pos.eqb_refl. Qed.

(** X1.  [login]: when both a user name and a password are given (non-empty),
    they replace the stored credentials before the call, and stay stored even
    if the call fails; when either is left out or empty, both are ignored and
    the stored credentials are used. In every case exactly one call is made,
    a login with the credentials then stored; [login] fails exactly when that
    call does, with its error; the file system is not touched.  The
    credentials are stored in the object the instance refers to, which stays
    the same object; no other object changes. *)
Theorem login_credentials (usr pwd : option string) (s : state) :
  let r := login usr pwd s in
  let stored := the_credentials s in
  (forall u p, usr = Some u -> pwd = Some p -> u <> "" -> p <> "" ->
     the_credentials (snd r) = mkCredentials u p /\
     sent_by (login usr pwd) s = [(Login u p, answer s (Login u p))]) /\
  (usr = None \/ pwd = None \/ usr = Some "" \/ pwd = Some "" ->
     the_credentials (snd r) = stored /\
     sent_by (login usr pwd) s
       = [(Login (username stored) (password stored),
           answer s (Login (username stored) (password stored)))]) /\
  (forall e, fst r = inl e <-> exists k, In (k, inl e) (sent_by (login usr pwd) s)) /\
  fs (env (snd r)) = fs (env s) /\
  credentials (this (snd r)) = credentials (this s) /\
  (forall x, x <> credentials (this s) -> objects (env (snd r)) x = objects (env s) x).
Proof.
  cbv zeta. unfold sent_by. rewrite login_run. cbv zeta. cbn [fst snd].
  assert (Hsent : forall k, sent (env (after_call (login_entry usr pwd s) k))
                            = (sent (env s) ++ [(k, answer s k)])%list).
  { intros k. unfold after_call. cbn [env log_call sent].
    assert (Ha : answer (login_entry usr pwd s) k = answer s k).
    { apply answer_same_service; unfold login_entry;
        destruct usr as [u|], pwd as [p|]; try reflexivity;
        destruct (negb (String.eqb u "") && negb (String.eqb p "")); reflexivity. }
    rewrite Ha. f_equal. unfold login_entry.
    destruct usr as [u|], pwd as [p|]; try reflexivity;
      destruct (negb (String.eqb u "") && negb (String.eqb p "")); reflexivity. }
  rewrite Hsent, skipn_length_app.
  split; [|split; [|split; [|split; [|split]]]].
  - intros u p -> -> Hu Hp. apply String.eqb_neq in Hu, Hp.
    unfold login_entry. rewrite Hu, Hp. cbn [negb andb].
    rewrite the_credentials_set_object. cbn [username password].
    split; [|reflexivity].
    unfold the_credentials, after_call, set_object.
    cbn [env this log_call objects set_client credentials]. now rewrite Pos.eqb_refl.
  - intros H.
    assert (Hc : login_entry usr pwd s = s).
    { unfold login_entry. destruct usr as [u|], pwd as [p|]; try reflexivity.
      destruct H as [H|[H|[H|H]]]; try discriminate; injection H as ->;
        [|rewrite andb_comm]; reflexivity. }
    rewrite Hc. split; reflexivity.
  - intros e. match goal with |- context [answer s ?k0] => generalize k0; intros k end.
    destruct (answer s k) as [e0|a]; split.
    + intros [= ->]. exists k. now left.
    + intros (k0 & [[= _ ->]|[]]). reflexivity.
    + discriminate.
    + intros (k0 & [[= _ H]|[]]).
  - unfold after_call, login_entry. cbn [env log_call fs].
    destruct usr as [u|], pwd as [p|]; try reflexivity;
      destruct (negb (String.eqb u "") && negb (String.eqb p "")); reflexivity.
  - unfold after_call, login_entry. cbn [this set_client credentials].
    destruct usr as [u|], pwd as [p|]; try reflexivity;
      destruct (negb (String.eqb u "") && negb (String.eqb p "")); reflexivity.
  - intros x Hx. unfold after_call, login_entry. cbn [env log_call objects].
    destruct usr as [u|], pwd as [p|]; try reflexivity;
      destruct (negb (String.eqb u "") && negb (String.eqb p "")); try reflexivity.
    cbn [env this set_object objects].
    apply Pos.eqb_neq in Hx. now rewrite Hx.
Qed.

(** X2.  [loadToken] then [exportToken]: tokens handed over from a store come
    back as they were given, whatever the instance held before, provided both
    are truthy; if one is falsy (such as [null]) [loadToken] still accepts it
    and [exportToken] then fails. [loadToken] itself never fails, issues no
    call and leaves the world and the credentials alone. Conversely, loading
    the pair [exportToken] returned leaves the instance as it is. *)
Theorem loadToken_exportToken (o1 o2 : json) (s : state) :
  let s' := snd (loadToken o1 o2 s) in
  fst (loadToken o1 o2 s) = inr tt /\
  env s' = env s /\ credentials (this s') = credentials (this s) /\
  (truthy o1 = true -> truthy o2 = true ->
     exportToken s' = (inr (mkTokens o1 o2), s')) /\
  (truthy o1 = false \/ truthy o2 = false ->
     exportToken s' = (inl (Error "exportToken: Token not found"), s')) /\
  (forall t, fst (exportToken s) = inr t ->
     loadToken (oauth1 t) (oauth2 t) s = (inr tt, s)).
Proof.
  destruct s as [[[c1 c2] uh cr ls ur] w].
  unfold loadToken, exportToken; run_monad. cbn.
  repeat split.
  - intros -> ->. reflexivity.
  - intros [->| ->]; [reflexivity|]. now destruct (truthy o1).
  - intros t. destruct c1 as [t1|], c2 as [t2|]; try discriminate.
    destruct (truthy t1), (truthy t2); try discriminate.
    intros [= <-]. reflexivity.
Qed.

(** X3.  The guards on identifiers. Called without the identifier, or with a
    falsy one ([null], [0], the empty string), these methods fail before
    doing anything: no request is sent, and [downloadOriginalActivityData]
    does not even create the directory. The message names the activity id for
    [getActivity], [deleteActivity] and [downloadOriginalActivityData], the
    workout id for [getWorkoutDetail], and is [Missing workout] for
    [deleteWorkout] and for [addWorkout]. *)
Theorem missing_id_rejected
    (lib : Collaborators) (id : option json) (dir : string) (type : option string)
    (s : state) :
  truthy_opt id = false ->
  getActivity id s = (inl (Error "Missing activityId"), s) /\
  deleteActivity id s = (inl (Error "Missing activityId"), s) /\
  downloadOriginalActivityData id dir type s = (inl (Error "Missing activityId"), s) /\
  getWorkoutDetail id s = (inl (Error "Missing workoutId"), s) /\
  deleteWorkout id s = (inl (Error "Missing workout"), s) /\
  addWorkout lib (WorkoutData <$> id) s = (inl (Error "Missing workout"), s).
Proof.
  intros H.
  unfold getActivity, deleteActivity, downloadOriginalActivityData, getWorkoutDetail,
    deleteWorkout, addWorkout; run_monad.
  destruct id as [v|]; cbn in *; rewrite ?H; cbn; repeat split.
Qed.

(** X4.  A new instance: the domain defaults to [garmin.com]; it holds no
    token, so [exportToken] fails on it, and [exportTokenToFile] at an
    existing directory writes nothing. *)
Theorem constructor_fresh
    (lib : Collaborators) (c : option ref) (domain : option string)
    (w : world) (g : GarminConnect) :
  constructor lib c domain w = inr g ->
  url g = UrlClass_new lib (match domain with Some d => d | None => "garmin.com" end) /\
  client g = mkHttpClient None None /\
  fst (exportToken (mkState g w)) = inl (Error "exportToken: Token not found") /\
  (forall dirPath, is_dir w dirPath = true ->
     exportTokenToFile dirPath (mkState g w) = (inr tt, mkState g w)).
Proof.
  unfold constructor. intros H.
  assert (Hg : exists cr, g = mkGarminConnect (mkHttpClient None None) None cr ∅
                 (UrlClass_new lib (match domain with Some d => d | None => "garmin.com" end))).
  { destruct c as [cr|]; [|destruct (config w) as [cr|]]; try discriminate;
      injection H as <-; eauto. }
  destruct Hg as (cr & ->). repeat split.
  intros dirPath Hd. rewrite exportTokenToFile_run, lift_env_run.
  cbn [this client env oauth1Token oauth2Token].
  rewrite save_tokens_none by reflexivity. now rewrite ensure_directory_present.
Qed.

Lemma assoc_omit (k : string) (keys : list string) (l : list (string * json)) :
  assoc k (omit (JObj l) keys) = if existsb (String.eqb k) keys then None else assoc k l.
Proof.
  unfold omit. cbn [props_of]. induction l as [|[k' v] l IH].
  - now destruct (existsb _ keys).
  - rewrite filter_cons. cbn [fst assoc].
    destruct (existsb (String.eqb k') keys) eqn:E'; cbn [negb];
      (destruct (decide _) as [D|D]; cbn in D; try contradiction; try (exfalso; now apply D)).
    + rewrite IH. destruct (String.eqb_spec k k') as [->|N]; [now rewrite E'|reflexivity].
    + cbn [assoc]. rewrite IH.
      destruct (String.eqb_spec k k') as [->|N]; [now rewrite E'|reflexivity].
Qed.

Lemma assoc_set_prop (k d : string) (v : json) (l : list (string * json)) :
  assoc k (set_prop d v l) = if String.eqb k d then Some v else assoc k l.
Proof.
  induction l as [|[k' v'] l IH]; cbn [set_prop assoc].
  - reflexivity.
  - destruct (String.eqb_spec d k') as [<-|N]; cbn [assoc].
    + now destruct (String.eqb k d).
    + destruct (String.eqb_spec k k') as [->|N']; [|exact IH].
      apply not_eq_sym, String.eqb_neq in N. now rewrite N.
Qed.

Lemma assoc_with_description (k : string) (l : list (string * json)) :
  assoc k (with_description l) =
    if String.eqb k "description" && negb (truthy_opt (assoc "description" l))
    then Some (JStr "Added by garmin-connect for Node.js") else assoc k l.
Proof.
  unfold with_description. destruct (truthy_opt (assoc "description" l)).
  - now rewrite andb_false_r.
  - rewrite assoc_set_prop, andb_true_r. reflexivity.
Qed.

Lemma with_description_truthy (l : list (string * json)) :
  truthy_opt (assoc "description" (with_description l)) = true.
Proof.
  rewrite assoc_with_description. cbn [String.eqb Ascii.eqb andb].
  change (String.eqb "description" "description") with true. 
  destruct (truthy_opt (assoc "description" l)) eqn:E; [exact E | reflexivity].
Qed.

Lemma client_post_run (u : string) (b : body) (o : option options) (s : state) :
  fst (client_post u b o s) = answer s (Dispatch (mkRequest POST u b o)) /\
  sent_by (client_post u b o) s
    = [(Dispatch (mkRequest POST u b o), answer s (Dispatch (mkRequest POST u b o)))].
Proof.
  unfold client_post. pose proof (client_call_answer (Dispatch (mkRequest POST u b o)) s).
  tauto.
Qed.

(** X5.  [addWorkout] on workout data (an object): exactly one request is
    made, a POST to the workout endpoint, and the call returns or fails as
    that request does. The body posted has none of the properties workoutId,
    ownerId, updatedDate, createdDate and author; it keeps every other
    property of the data with its value; and its description is truthy: the
    one of the data, or [Added by garmin-connect for Node.js] when the data
    has none (or an empty one). *)
Theorem addWorkout_strips_server_fields
    (lib : Collaborators) (data : list (string * json)) (s : state) :
  exists body,
    let req := workout_request (url (this s)) body in
    sent_by (addWorkout lib (Some (WorkoutData (JObj data)))) s = [(req, answer s req)] /\
    fst (addWorkout lib (Some (WorkoutData (JObj data))) s) = answer s req /\
    (forall k, In k server_fields -> assoc k body = None) /\
    (forall k, ~ In k server_fields -> k <> "description" -> assoc k body = assoc k data) /\
    truthy_opt (assoc "description" body) = true /\
    (truthy_opt (assoc "description" data) = true ->
       assoc "description" body = assoc "description" data) /\
    (truthy_opt (assoc "description" data) = false ->
       assoc "description" body = Some (JStr "Added by garmin-connect for Node.js")).
Proof.
  exists (with_description (omit (JObj data) server_fields)). cbv zeta.
  unfold addWorkout, workout_request, url_of, bind, gets. cbn [truthy negb this env].
  unfold sent_by. fold server_fields.
  match goal with |- context [client_post ?u ?b ?o s] =>
    pose proof (client_post_run u b o s) as [Hr Hs] end.
  unfold sent_by in Hs.
  split; [exact Hs|]. split; [exact Hr|].
  assert (Hin : forall k, In k server_fields <-> existsb (String.eqb k) server_fields = true).
  { intros k. rewrite existsb_exists. split.
    - intros H. exists k. split; [assumption | apply String.eqb_refl].
    - intros (x & Hx & E). apply String.eqb_eq in E. now subst. }
  assert (Hd : assoc "description" (omit (JObj data) server_fields) = assoc "description" data)
    by (rewrite assoc_omit; reflexivity).
  split; [|split; [|split; [|split]]].
  - intros k Hk. rewrite assoc_with_description, !assoc_omit.
    destruct (String.eqb_spec k "description") as [->|_].
    + exfalso. cbv in Hk. intuition discriminate.
    + apply Hin in Hk. cbn [andb]. now rewrite Hk.
  - intros k Hk Hkd. rewrite assoc_with_description, !assoc_omit.
    apply String.eqb_neq in Hkd. rewrite Hkd. cbn [andb].
    destruct (existsb (String.eqb k) server_fields) eqn:E; [|reflexivity].
    apply Hin in E. contradiction.
  - apply with_description_truthy.
  - intros H. rewrite assoc_with_description, Hd, H. now rewrite andb_false_r.
  - intros H. rewrite assoc_with_description, Hd, H. reflexivity.
Qed.

(** X6.  [addRunningWorkout] builds a [Running] workout from the name, the
    distance and the description and hands it to [addWorkout], which never
    turns a [Running] down: a valid one is posted as its [toJson] gives it,
    an invalid one falls through to the generic path and is posted as its own
    properties, less those the service manages. Either way exactly one
    request is made, a POST to the workout endpoint whose body has a truthy
    description, and the call returns or fails as that request does. *)
Theorem addRunningWorkout_always_posts
    (lib : Collaborators) (name : string) (meters : number) (description : string) (s : state) :
  let running := mkRunning (Some name) (Some meters) (Some description) in
  let body :=
    with_description
      (if Running_isValid lib running then props_of (Running_toJson lib running)
       else omit (Running_props lib running) server_fields) in
  let req := workout_request (url (this s)) body in
  addRunningWorkout lib name meters description s
    = addWorkout lib (Some (WorkoutRunning running)) s /\
  sent_by (addRunningWorkout lib name meters description) s = [(req, answer s req)] /\
  fst (addRunningWorkout lib name meters description s) = answer s req /\
  truthy_opt (assoc "description" body) = true.
Proof.
  cbv zeta. split; [reflexivity|].
  unfold addRunningWorkout, addWorkout, workout_request, url_of, bind, gets.
  cbn [this env]. fold server_fields.
  destruct (Running_isValid lib _);
    (match goal with |- context [client_post ?u ?b ?o s] =>
       pose proof (client_post_run u b o s) as [Hr Hs] end;
     split; [exact Hs|]; split; [exact Hr|]; apply with_description_truthy).
Qed.

Lemma find_day_first (day : string) (pre post : list json) (d : json) :
  Forall (other_day day) pre -> prop "calendarDate" d = Some (JStr day) ->
  find_day day (pre ++ d :: post) = inr (Some d).
Proof.
  intros Hpre Hd. induction Hpre as [|x pre [Hx Hc] _ IH]; cbn [app find_day].
  - destruct d; try discriminate Hd. rewrite Hd. now rewrite String.eqb_refl.
  - destruct x; try congruence; try exact IH.
    destruct (prop "calendarDate" (JObj props)) as [[]|] eqn:E; try exact IH.
    destruct (String.eqb_spec s day) as [->|N]; [congruence | exact IH].
Qed.

Lemma find_day_none (day : string) (days : list json) :
  Forall (other_day day) days -> find_day day days = inr None.
Proof.
  intros H. induction H as [|x days [Hx Hc] _ IH]; cbn [find_day]; [reflexivity|].
  destruct x; try congruence; try exact IH.
  destruct (prop "calendarDate" (JObj props)) as [[]|] eqn:E; try exact IH.
  destruct (String.eqb_spec s day) as [->|N]; [congruence | exact IH].
Qed.

Lemma find_day_null (day : string) (pre post : list json) :
  Forall (other_day day) pre ->
  find_day day (pre ++ JNull :: post)
    = inl (TypeError "Cannot destructure property calendarDate of null").
Proof.
  intros Hpre. induction Hpre as [|x pre [Hx Hc] _ IH]; cbn [app find_day]; [reflexivity|].
  destruct x; try congruence; try exact IH.
  destruct (prop "calendarDate" (JObj props)) as [[]|] eqn:E; try exact IH.
  destruct (String.eqb_spec s day) as [->|N]; [congruence | exact IH].
Qed.

Lemma client_get_run (u : string) (o : option options) (s : state) :
  fst (client_get u o s) = answer s (Dispatch (mkRequest GET u NoBody o)) /\
  sent_by (client_get u o) s
    = [(Dispatch (mkRequest GET u NoBody o), answer s (Dispatch (mkRequest GET u NoBody o)))].
Proof.
  unfold client_get. pose proof (client_call_answer (Dispatch (mkRequest GET u NoBody o)) s).
  tauto.
Qed.

(** X7.  [getSteps] asks for the days from the date to the date itself (today
    when no date is given) and, of the array it gets, takes the first entry
    whose [calendarDate] is the date string: it returns the [totalSteps] of
    that entry ([undefined] if the entry has none), whatever the later
    entries hold. When no entry is of that date it fails with the error
    [Can't find daily steps for this date.]; a [null] entry met before a
    match makes it fail with a TypeError. *)
Theorem getSteps_first_match (lib : Collaborators) (date : option Z) (s : state) :
  let day := toDateString lib (match date with Some d => d | None => clock (env s) end) in
  let req := Dispatch (mkRequest GET (DAILY_STEPS (url (this s)) +:+ day +:+ "/" +:+ day)
                                 NoBody None) in
  sent_by (getSteps lib date) s = [(req, answer s req)] /\
  (forall pre d post,
     answer s req = inr (PData (JArr (pre ++ d :: post))) ->
     Forall (other_day day) pre -> prop "calendarDate" d = Some (JStr day) ->
     fst (getSteps lib date s) = inr (of_option (prop "totalSteps" d))) /\
  (forall days,
     answer s req = inr (PData (JArr days)) -> Forall (other_day day) days ->
     fst (getSteps lib date s) = inl (Error "Can't find daily steps for this date.")) /\
  (forall pre post,
     answer s req = inr (PData (JArr (pre ++ JNull :: post))) ->
     Forall (other_day day) pre ->
     fst (getSteps lib date s)
       = inl (TypeError "Cannot destructure property calendarDate of null")).
Proof.
  cbv zeta.
  set (day := toDateString lib (match date with Some d => d | None => clock (env s) end)).
  set (req := Dispatch (mkRequest GET _ NoBody None)).
  assert (Hpure : forall days s1, find_in_days day days s1 = (fst (find_in_days day days s1), s1)).
  { intros days s1. unfold find_in_days, ret, throw.
    destruct days as [|[| | | |l|]|]; try reflexivity. now destruct (find_day day l). }
  assert (Hrun : getSteps lib date s =
            match answer s req with
            | inl e => (inl e, after_call s req)
            | inr days =>
                (match fst (find_in_days day days (after_call s req)) with
                 | inl e => inl e
                 | inr None => inl (Error "Can't find daily steps for this date.")
                 | inr (Some st) => inr (of_option (prop "totalSteps" st))
                 end, after_call s req)
            end).
  { unfold getSteps, date_or_now, url_of, bind, gets, ret, client_get, throw.
    destruct date; cbn [this env]; fold day; fold req; rewrite client_call_run;
      (destruct (answer s req) as [e|days]; [reflexivity|]);
      rewrite Hpure; cbn [fst];
      (destruct (fst (find_in_days day days (after_call s req))) as [e|[st|]]; reflexivity). }
  unfold sent_by. rewrite Hrun.
  split; [|split; [|split]].
  - pose proof (sent_after_call s req) as Hs.
    destruct (answer s req); exact Hs.
  - intros pre d post -> Hpre Hd. unfold find_in_days.
    now rewrite find_day_first.
  - intros days -> Hdays. unfold find_in_days. now rewrite find_day_none.
  - intros pre post -> Hpre. unfold find_in_days. now rewrite find_day_null.
Qed.

Ltac run_calls :=
  unfold client_get, client_post, client_put, client_delete;
  repeat (rewrite client_call_run; cbn [fst snd]).

Lemma getSleepData_run (lib : Collaborators) (date : option Z) (s : state) :
  let req := get_by_date (DAILY_SLEEP (url (this s))) (day_of lib date s) in
  getSleepData lib date s =
    (match answer s req with
     | inl e => inl (Error ("Error in getSleepData: " +:+ message e))
     | inr p =>
         if truthy_payload p then inr p
         else inl (Error "Error in getSleepData: Invalid or empty sleep data response.")
     end, after_call s req).
Proof.
  cbv zeta. unfold getSleepData, getSleepData_try, day_of, get_by_date; run_monad.
  destruct date; cbn [this env]; run_calls;
    (destruct (answer s _) as [e|p]; [reflexivity|]; now destruct (truthy_payload p)).
Qed.

Lemma getDailyWeightData_run (lib : Collaborators) (date : option Z) (s : state) :
  let req := get_plain (DAILY_WEIGHT (url (this s)) +:+ "/" +:+ day_of lib date s) in
  getDailyWeightData lib date s =
    (match answer s req with
     | inl e => inl (Error ("Error in getDailyWeightData: " +:+ message e))
     | inr p =>
         if truthy_payload p then inr p
         else inl (Error "Error in getDailyWeightData: Invalid or empty weight data response.")
     end, after_call s req).
Proof.
  cbv zeta. unfold getDailyWeightData, getDailyWeightData_try, day_of, get_plain; run_monad.
  destruct date; cbn [this env]; run_calls;
    (destruct (answer s _) as [e|p]; [reflexivity|]; now destruct (truthy_payload p)).
Qed.

(** X8.  The guards on empty responses. [getSleepData], [getDailyWeightData],
    [getGolfSummary] and [getGolfScorecard] each make one GET and return what
    it resolves to when that is truthy; a falsy response ([undefined],
    [null], [0], [false], the empty string) makes them fail with the error
    [Error in <method>: Invalid or empty <kind> response.]. [getHeartRate]
    has no such guard: it returns whatever its GET resolves to. *)
Theorem empty_response_guards
    (lib : Collaborators) (date : option Z) (scorecardId : json) (s : state) (p : payload) :
  let u := url (this s) in
  let day := day_of lib date s in
  let scorecard :=
    Dispatch (mkRequest GET (GOLF_SCORECARD_DETAIL u) NoBody
                (Some (mkOptions [("scorecard-ids", Some scorecardId)] None []))) in
  (answer s (get_by_date (DAILY_SLEEP u) day) = inr p ->
     fst (getSleepData lib date s) =
       if truthy_payload p then inr p
       else inl (Error "Error in getSleepData: Invalid or empty sleep data response.")) /\
  (answer s (get_plain (DAILY_WEIGHT u +:+ "/" +:+ day)) = inr p ->
     fst (getDailyWeightData lib date s) =
       if truthy_payload p then inr p
       else inl (Error "Error in getDailyWeightData: Invalid or empty weight data response.")) /\
  (answer s (get_plain (GOLF_SCORECARD_SUMMARY u)) = inr p ->
     fst (getGolfSummary s) =
       if truthy_payload p then inr p
       else inl (Error "Error in getGolfSummary: Invalid or empty golf summary data response.")) /\
  (answer s scorecard = inr p ->
     fst (getGolfScorecard scorecardId s) =
       if truthy_payload p then inr p
       else inl (Error
                   "Error in getGolfScorecard: Invalid or empty golf scorecard data response.")) /\
  (answer s (get_by_date (DAILY_HEART_RATE u) day) = inr p ->
     fst (getHeartRate lib date s) = inr p).
Proof.
  cbv zeta. split; [|split; [|split; [|split]]].
  - intros H. rewrite getSleepData_run. cbv zeta. now rewrite H.
  - intros H. rewrite getDailyWeightData_run. cbv zeta. now rewrite H.
  - intros H. unfold getGolfSummary, getGolfSummary_try, get_plain in *; run_monad.
    cbn [this env]. run_calls.
    rewrite H. now destruct (truthy_payload p).
  - intros H. unfold getGolfScorecard, getGolfScorecard_try; run_monad. cbn [this env]. run_calls.
    rewrite H. now destruct (truthy_payload p).
  - intros H. unfold getHeartRate, getHeartRate_try, day_of, get_by_date in *; run_monad.
    destruct date; cbn [this env] in *; run_calls; now rewrite H.
Qed.

(** X9.  [getSleepDuration] makes the one GET of [getSleepData]. From a
    response whose [dailySleepDTO] is truthy and has both timestamps (any
    value but [undefined], so [null] too) it returns the hours and minutes
    that [calculateTimeDifference] gives for them. A truthy response without
    such a [dailySleepDTO] makes it fail with [Error in getSleepDuration:
    Invalid or missing sleep data for the specified date.]; the failure of
    the request reaches the caller wrapped twice, as [Error in
    getSleepDuration: Error in getSleepData: <cause>]. *)
Theorem getSleepDuration_spec (lib : Collaborators) (date : option Z) (s : state) :
  let req := get_by_date (DAILY_SLEEP (url (this s))) (day_of lib date s) in
  let r := getSleepDuration lib date s in
  sent_by (getSleepDuration lib date) s = [(req, answer s req)] /\
  (forall e, answer s req = inl e ->
     fst r = inl (Error ("Error in getSleepDuration: Error in getSleepData: " +:+ message e))) /\
  (forall p dto a b,
     answer s req = inr p -> pprop "dailySleepDTO" p = Some dto -> truthy dto = true ->
     prop "sleepStartTimestampGMT" dto = Some a -> prop "sleepEndTimestampGMT" dto = Some b ->
     fst r = inr (PData (JObj [("hours", fst (calculateTimeDifference lib a b));
                               ("minutes", snd (calculateTimeDifference lib a b))]))) /\
  (forall p,
     answer s req = inr p -> truthy_payload p = true ->
     match pprop "dailySleepDTO" p with
     | None => True
     | Some dto =>
         truthy dto = false \/ prop "sleepStartTimestampGMT" dto = None
         \/ prop "sleepEndTimestampGMT" dto = None
     end ->
     fst r = inl (Error ("Error in getSleepDuration: "
                         +:+ "Invalid or missing sleep data for the specified date."))).
Proof.
  cbv zeta.
  assert (Hrun : getSleepDuration lib date s =
            rethrow "getSleepDuration"
              (do sleepData <- getSleepData lib date;
               match pprop "dailySleepDTO" sleepData with
               | Some dto =>
                   if negb (truthy_payload sleepData) || negb (truthy dto) then
                     throw (Error "Invalid or missing sleep data for the specified date.")
                   else
                     match prop "sleepStartTimestampGMT" dto, prop "sleepEndTimestampGMT" dto with
                     | Some a, Some b =>
                         let '(hours, minutes) := calculateTimeDifference lib a b in
                         ret (PData (JObj [("hours", hours); ("minutes", minutes)]))
                     | _, _ =>
                         throw (Error "Invalid or missing sleep data for the specified date.")
                     end
               | None => throw (Error "Invalid or missing sleep data for the specified date.")
               end) s).
  { unfold getSleepDuration, getSleepDuration_try, getSleepData, getSleepData_try,
      date_or_now, bind, gets, ret.
    now destruct date. }
  set (req := get_by_date _ _).
  set (bad := Error ("Error in getSleepDuration: "
                     +:+ "Invalid or missing sleep data for the specified date.")).
  assert (Hres : getSleepDuration lib date s =
    (match answer s req with
     | inl e =>
         inl (Error ("Error in getSleepDuration: Error in getSleepData: " +:+ message e))
     | inr p =>
         if truthy_payload p then
           match pprop "dailySleepDTO" p with
           | Some dto =>
               if truthy dto then
                 match prop "sleepStartTimestampGMT" dto, prop "sleepEndTimestampGMT" dto with
                 | Some a, Some b =>
                     inr (PData (JObj [("hours", fst (calculateTimeDifference lib a b));
                                       ("minutes", snd (calculateTimeDifference lib a b))]))
                 | _, _ => inl bad
                 end
               else inl bad
           | None => inl bad
           end
         else inl (Error ("Error in getSleepDuration: Error in getSleepData: "
                          +:+ "Invalid or empty sleep data response."))
     end, after_call s req)).
  { rewrite Hrun. unfold rethrow, try_catch, bind. rewrite getSleepData_run.
    cbv zeta. fold req. destruct (answer s req) as [e|p]; [reflexivity|].
    destruct (truthy_payload p) eqn:Hp; [|reflexivity]. cbv beta iota. rewrite Hp.
    destruct (pprop "dailySleepDTO" p) as [dto|]; [|reflexivity].
    destruct (truthy dto); [|reflexivity]. cbn [negb orb].
    destruct (prop "sleepStartTimestampGMT" dto) as [a|]; [|reflexivity].
    destruct (prop "sleepEndTimestampGMT" dto) as [b|]; [|reflexivity].
    now destruct (calculateTimeDifference lib a b). }
  clear Hrun. unfold sent_by. rewrite Hres. cbn [fst snd].
  split; [apply sent_after_call|]. split; [|split].
  - intros e ->. reflexivity.
  - intros p dto a b -> Hdto Htd Ha Hb.
    assert (Hp : truthy_payload p = true).
    { destruct p as [|v|]; try discriminate Hdto.
      destruct v; try discriminate Hdto. reflexivity. }
    now rewrite Hp, Hdto, Htd, Ha, Hb.
  - intros p -> ->. destruct (pprop "dailySleepDTO" p) as [dto|]; [|reflexivity].
    intros [->|[H|H]]; [reflexivity | |]; destruct (truthy dto); try reflexivity; rewrite H;
      [reflexivity|]. now destruct (prop "sleepStartTimestampGMT" dto).
Qed.

(** X10.  [getDailyWeightInPounds] makes the one GET of [getDailyWeightData]
    and converts the weight of the [totalAverage] of the response with
    [gramsToPounds]. It does so only for a number: when [totalAverage] is
    missing or falsy, or its [weight] is missing or anything but a number (a
    numeric string too), it fails with [Can't find valid daily weight for
    this date.], an error that carries no method name. An empty response and
    a failed request reach the caller as [getDailyWeightData] reports them. *)
Theorem getDailyWeightInPounds_spec (lib : Collaborators) (date : option Z) (s : state) :
  let req := get_plain (DAILY_WEIGHT (url (this s)) +:+ "/" +:+ day_of lib date s) in
  let r := getDailyWeightInPounds lib date s in
  sent_by (getDailyWeightInPounds lib date) s = [(req, answer s req)] /\
  (forall p avg grams,
     answer s req = inr p -> pprop "totalAverage" p = Some avg -> truthy avg = true ->
     prop "weight" avg = Some (JNum grams) ->
     fst r = inr (PData (gramsToPounds lib grams))) /\
  (forall p,
     answer s req = inr p -> truthy_payload p = true ->
     match pprop "totalAverage" p with
     | None => True
     | Some avg =>
         truthy avg = false \/
         match prop "weight" avg with Some (JNum _) => False | _ => True end
     end ->
     fst r = inl (Error "Can't find valid daily weight for this date.")) /\
  (forall p, answer s req = inr p -> truthy_payload p = false ->
     fst r = inl (Error "Error in getDailyWeightData: Invalid or empty weight data response.")) /\
  (forall e, answer s req = inl e ->
     fst r = inl (Error ("Error in getDailyWeightData: " +:+ message e))).
Proof.
  cbv zeta. set (req := get_plain _).
  set (bad := Error "Can't find valid daily weight for this date.").
  assert (Hres : getDailyWeightInPounds lib date s =
    (match answer s req with
     | inl e => inl (Error ("Error in getDailyWeightData: " +:+ message e))
     | inr p =>
         if truthy_payload p then
           match pprop "totalAverage" p with
           | Some avg =>
               match truthy avg, prop "weight" avg with
               | true, Some (JNum grams) => inr (PData (gramsToPounds lib grams))
               | _, _ => inl bad
               end
           | None => inl bad
           end
         else inl (Error "Error in getDailyWeightData: Invalid or empty weight data response.")
     end, after_call s req)).
  { assert (Hrun : getDailyWeightInPounds lib date s =
              (do weightData <- getDailyWeightData lib date;
               match pprop "totalAverage" weightData with
               | Some totalAverage =>
                   match truthy totalAverage, prop "weight" totalAverage with
                   | true, Some (JNum weight) => ret (PData (gramsToPounds lib weight))
                   | _, _ => throw (Error "Can't find valid daily weight for this date.")
                   end
               | None => throw (Error "Can't find valid daily weight for this date.")
               end) s).
    { unfold getDailyWeightInPounds, getDailyWeightData, getDailyWeightData_try,
        date_or_now, bind, gets, ret.
      now destruct date. }
    rewrite Hrun. unfold bind. rewrite getDailyWeightData_run. cbv zeta. fold req.
    destruct (answer s req) as [e|p]; [reflexivity|].
    destruct (truthy_payload p); [|reflexivity].
    destruct (pprop "totalAverage" p) as [avg|]; [|reflexivity].
    destruct (truthy avg); [|reflexivity].
    destruct (prop "weight" avg) as [[]|]; reflexivity. }
  unfold sent_by. rewrite Hres. cbn [fst snd].
  split; [apply sent_after_call|]. split; [|split; [|split]].
  - intros p avg grams -> Havg Ht Hw.
    assert (Hp : truthy_payload p = true).
    { destruct p as [|v|]; try discriminate Havg. destruct v; try discriminate Havg.
      reflexivity. }
    now rewrite Hp, Havg, Ht, Hw.
  - intros p -> ->. destruct (pprop "totalAverage" p) as [avg|]; [|reflexivity].
    intros [->|H]; [reflexivity|]. destruct (truthy avg); [|reflexivity].
    destruct (prop "weight" avg) as [[]|]; try reflexivity. contradiction.
  - intros p -> ->. reflexivity.
  - intros e ->. reflexivity.
Qed.

(** X11.  [getDailyHydration] makes one GET and converts the [valueInML] of
    the response with [convertMLToOunces]. A response whose [valueInML] is
    missing or falsy is taken for an empty one: a day with a falsy number
    of millilitres logged, that is [0], makes the call fail with
    [Error in getDailyHydration: Invalid or empty hydration data response.],
    like a response with no data. *)
Theorem getDailyHydration_spec (lib : Collaborators) (date : option Z) (s : state) :
  let req := get_plain (DAILY_HYDRATION (url (this s)) +:+ "/" +:+ day_of lib date s) in
  let r := getDailyHydration lib date s in
  let empty := Error "Error in getDailyHydration: Invalid or empty hydration data response." in
  sent_by (getDailyHydration lib date) s = [(req, answer s req)] /\
  (forall p ml, answer s req = inr p -> pprop "valueInML" p = Some ml -> truthy ml = true ->
     fst r = inr (PData (convertMLToOunces lib ml))) /\
  (forall p, answer s req = inr p -> truthy_opt (pprop "valueInML" p) = false ->
     fst r = inl empty) /\
  (forall data n, answer s req = inr (PData (JObj data)) ->
     assoc "valueInML" data = Some (JNum n) -> Number_falsy n = true ->
     fst r = inl empty) /\
  (forall e, answer s req = inl e ->
     fst r = inl (Error ("Error in getDailyHydration: " +:+ message e))).
Proof.
  cbv zeta. set (req := get_plain _).
  set (empty := Error "Error in getDailyHydration: Invalid or empty hydration data response.").
  assert (Hres : getDailyHydration lib date s =
    (match answer s req with
     | inl e => inl (Error ("Error in getDailyHydration: " +:+ message e))
     | inr p =>
         match pprop "valueInML" p with
         | Some ml =>
             if truthy_payload p && truthy ml then inr (PData (convertMLToOunces lib ml))
             else inl empty
         | None => inl empty
         end
     end, after_call s req)).
  { unfold getDailyHydration, getDailyHydration_try, day_of, get_plain in *; run_monad.
    destruct date; cbn [this env] in *; run_calls; fold req;
      (destruct (answer s req) as [e|p]; [reflexivity|]);
      (destruct (pprop "valueInML" p) as [ml|]; [|reflexivity]);
      destruct (truthy_payload p), (truthy ml); reflexivity. }
  unfold sent_by. rewrite Hres. cbn [fst snd].
  assert (Hobj : forall p ml, pprop "valueInML" p = Some ml -> truthy_payload p = true).
  { intros p ml H. destruct p as [|v|]; try discriminate H. destruct v; try discriminate H.
    reflexivity. }
  split; [apply sent_after_call|]. split; [|split; [|split]].
  - intros p ml -> Hml Ht. now rewrite Hml, (Hobj _ _ Hml), Ht.
  - intros p ->. destruct (pprop "valueInML" p) as [ml|]; [|reflexivity].
    cbn [truthy_opt]. intros ->. now rewrite andb_false_r.
  - intros data n -> Hml Hn. cbn [pprop prop]. rewrite Hml. cbn [truthy]. rewrite Hn.
    reflexivity.
  - intros e ->. reflexivity.
Qed.


Lemma extname_dot (p : string) : extname p = "" \/ exists e, extname p = "." +:+ e.
Proof.
  unfold extname. destruct (basename p) as [|c r]; [now left|].
  destruct (String.eqb (String c r) ".."); [now left|].
  destruct (after_last_dot r) as [e|]; [right; eauto | now left].
Qed.

Lemma includes_In (values : list string) (x : string) :
  includes values x = true -> In x values.
Proof.
  unfold includes. rewrite existsb_exists. intros (y & Hy & E).
  apply String.eqb_eq in E. now subst.
Qed.

(** X13.  Detection by extension cannot succeed. With an empty format
    [uploadActivity] falls back on the extension of the file name, which
    [path.extname] gives with its leading dot ([.fit]) or as the empty
    string; so, the values of [UploadFileType] being non-empty tags without a
    leading dot, such a call always fails with [uploadActivity - Invalid
    format: ], whatever the extension of the file, and sends nothing. *)
Theorem uploadActivity_extension_never_detected
    (lib : Collaborators) (file : string) (s : state) :
  (forall x, In x (UploadFileType lib) -> x <> "" /\ starts_with "." x = false) ->
  uploadActivity lib file (Some "") s = (inl (Error "uploadActivity - Invalid format: "), s).
Proof.
  intros Hvalues. unfold uploadActivity. cbn [String.eqb negb].
  destruct (includes (UploadFileType lib) (toLowerCase (extname file))) eqn:E; [|reflexivity].
  exfalso. apply includes_In, Hvalues in E as [Hne Hdot].
  destruct (extname_dot file) as [H|[e H]]; rewrite H in *.
  - now apply Hne.
  - discriminate Hdot.
Qed.



Lemma set_fs_same (w : world) (p : string) (n : node) :
  stat w p = Some n -> set_fs (<[p := n]> (fs w)) w = w.
Proof.
  unfold stat. destruct (String.eqb p ""); [discriminate|]. intros H.
  rewrite insert_id by assumption. now destruct w.
Qed.

Lemma write_token_again (p : string) (o : option json) (w : world) :
  (forall t, o = Some t -> truthy t = true -> stat w p = Some (File (JSON_stringify t))) ->
  write_token p o w = (inr tt, w).
Proof.
  intros H. destruct o as [t|]; cbn [write_token]; [|reflexivity].
  destruct (truthy t) eqn:Ht; [|reflexivity].
  specialize (H t eq_refl Ht). unfold writeToFile, writeFileSync. cbn [file_bytes].
  rewrite H. now rewrite set_fs_same.
Qed.

(** X15.  Saving twice is saving once: when [exportTokenToFile] has returned,
    the same call on the state it left returns again and changes nothing. *)
Theorem exportTokenToFile_idempotent (s s1 : state) (dirPath : string) :
  exportTokenToFile dirPath s = (inr tt, s1) ->
  exportTokenToFile dirPath s1 = (inr tt, s1).
Proof.
  rewrite !exportTokenToFile_run, !lift_env_run.
  destruct (save_tokens dirPath _ _ (env s)) as [r w'] eqn:Hrun. cbn [fst snd].
  intros [= -> <-]. cbn [this env].
  pose proof (save_tokens_written _ _ _ _ _ Hrun) as [Hw1 Hw2].
  unfold save_tokens in Hrun.
  apply bind_ok in Hrun as ([] & w0 & Hdir & Hrun).
  apply bind_ok in Hrun as ([] & w1 & H1 & H2).
  apply ensure_directory_ok in Hdir as (Hne & Hd & _).
  assert (Hd' : is_dir w' dirPath = true).
  { assert (Hq : forall name, dirPath <> path_join dirPath name)
      by (intros name; apply not_eq_sym, path_join_ne_dir; assumption).
    unfold is_dir. rewrite (write_token_other _ dirPath _ _ _ _ H2 (Hq _)).
    now rewrite (write_token_other _ dirPath _ _ _ _ H1 (Hq _)), Hd. }
  unfold save_tokens, bind. rewrite (ensure_directory_present _ _ Hd').
  rewrite (write_token_again _ _ w' Hw1). now rewrite (write_token_again _ _ w' Hw2).
Qed.



#[local] Instance same_files_preorder : PreOrder same_files.
Proof.
  split; [intros s; reflexivity|].
  intros a b c H1 H2; unfold same_files in *; congruence.
Qed.

#[local] Instance same_endpoints_preorder : PreOrder same_endpoints.
Proof.
  split; [intros s; split; reflexivity|].
  intros a b c [H1 H2] [H3 H4]. unfold same_endpoints. split; congruence.
Qed.

#[local] Instance same_credentials_preorder : PreOrder same_credentials.
Proof.
  split; [intros s; reflexivity|].
  intros a b c H1 H2; unfold same_credentials in *; congruence.
Qed.

#[local] Instance nothing_removed_preorder : PreOrder nothing_removed.
Proof.
  split.
  - intros s p. destruct (stat (env s) p) as [[b|]|]; eauto.
  - intros a b c H1 H2 p. specialize (H1 p).
    destruct (stat (env a) p) as [[x|]|]; [| |exact I].
    + destruct H1 as [y Hy]. specialize (H2 p). now rewrite Hy in H2.
    + specialize (H2 p). now rewrite H1 in H2.
Qed.

#[local] Instance same_objects_preorder : PreOrder same_objects.
Proof.
  split; [intros a; split; reflexivity|].
  intros a b c [H1 H1'] [H2 H2']; unfold same_objects in *; split; congruence.
Qed.

Section Keeping.

Context (R : state -> state -> Prop) `{!PreOrder R}.

Lemma keeps_ret {A} (a : A) : keeps R (ret a).
Proof. intros s. reflexivity. Qed.

Lemma keeps_throw {A} (e : error) : keeps R (@throw state A e).
Proof. intros s. reflexivity. Qed.

Lemma keeps_gets {A} (f : state -> A) : keeps R (gets f).
Proof. intros s. reflexivity. Qed.

Lemma keeps_bind {A B} (c : ST state A) (k : A -> ST state B) :
  keeps R c -> (forall a, keeps R (k a)) -> keeps R (bind c k).
Proof.
  intros Hc Hk s. unfold bind. specialize (Hc s).
  destruct (c s) as [[e|a] s1]; [exact Hc|]. cbn [snd] in Hc.
  etransitivity; [exact Hc | apply Hk].
Qed.

Lemma keeps_try_catch {A} (c : ST state A) (h : error -> ST state A) :
  keeps R c -> (forall e, keeps R (h e)) -> keeps R (try_catch c h).
Proof.
  intros Hc Hh s. unfold try_catch. specialize (Hc s).
  destruct (c s) as [[e|a] s1]; [|exact Hc]. cbn [snd] in Hc.
  etransitivity; [exact Hc | apply Hh].
Qed.

Lemma keeps_rethrow {A} (name : string) (c : ST state A) : keeps R c -> keeps R (rethrow name c).
Proof. intros Hc. apply keeps_try_catch; [assumption | intros e; apply keeps_throw]. Qed.

Lemma keeps_client_call (c : call) : (forall s, R s (after_call s c)) -> keeps R (client_call c).
Proof. intros H s. rewrite client_call_run. apply H. Qed.

Lemma keeps_lift_env {A} (c : ST world A) :
  (forall s, R s (mkState (this s) (snd (c (env s))))) -> keeps R (lift_env c).
Proof. intros H s. rewrite lift_env_run. apply H. Qed.

Lemma keeps_modify (f : state -> state) : (forall s, R s (f s)) -> keeps R (modify f).
Proof. intros H s. apply H. Qed.

End Keeping.

Ltac keeps_step leaf :=
  match goal with
  | |- keeps _ (bind _ _) => apply keeps_bind; [exact _ | | intros ?]
  | |- keeps _ (try_catch _ _) => apply keeps_try_catch; [exact _ | | intros ?]
  | |- keeps _ (rethrow _ _) => apply keeps_rethrow; [exact _ |]
  | |- keeps _ (ret _) => apply keeps_ret; exact _
  | |- keeps _ (throw _) => apply keeps_throw; exact _
  | |- keeps _ (gets _) => apply keeps_gets; exact _
  | |- keeps _ (client_call _) => apply keeps_client_call; intros ?; solve [leaf]
  | |- keeps _ (lift_env _) => apply keeps_lift_env; intros ?; solve [leaf]
  | |- keeps _ (modify _) => apply keeps_modify; intros ?; solve [leaf]
  | |- keeps _ (match ?x with _ => _ end) => destruct x
  | |- keeps _ (let _ := _ in _) => cbv zeta
  end.

Ltac unfold_methods :=
  unfold returning_nothing, login, exportTokenToFile, loadTokenByFile, exportToken,
    loadToken, getUserSettings, getActivities, getActivity, countActivities, getGears,
    getActivityGear, linkActivityGear, unlinkActivityGear, downloadOriginalActivityData,
    uploadActivity, getUploadActivityDetails, deleteActivity, getWorkouts, getWorkoutDetail,
    addRunningWorkout, addWorkout, deleteWorkout, addActivity, getSteps, find_in_days,
    getSleepDuration, getSleepDuration_try, getSleepData, getSleepData_try,
    getDailyWeightInPounds, getDailyWeightData, getDailyWeightData_try, getDailyHydration,
    getDailyHydration_try, updateWeight, updateWeight_try, updateHydrationLogOunces,
    updateHydrationLogOunces_try, getUserProfile, profileId_of, getGolfSummary,
    getGolfSummary_try, getGolfScorecard, getGolfScorecard_try, getHeartRate,
    getHeartRate_try, get, post, put, JSON_parse_or_throw, set_oauth1Token, set_oauth2Token,
    truthy_or_throw, date_or_now, url_of, client_get, client_post, client_put,
    client_delete, client_login.

Lemma checkIsDirectory_world (p : string) (w : world) : snd (checkIsDirectory p w) = w.
Proof. now rewrite checkIsDirectory_run. Qed.

Lemma readFileSync_world (p : string) (w : world) : snd (readFileSync p w) = w.
Proof. unfold readFileSync. now destruct (stat w p) as [[]|]. Qed.

Lemma createDirectory_grows (p : string) (w : world) (q : string) :
  match stat w q with
  | Some Dir => stat (snd (createDirectory p w)) q = Some Dir
  | Some (File _) => exists b, stat (snd (createDirectory p w)) q = Some (File b)
  | None => True
  end.
Proof.
  unfold createDirectory. destruct (mkdirSync p w) as [[e|[]] w'] eqn:H; cbn [snd].
  - apply mkdirSync_fails in H as [-> _]. destruct (stat w q) as [[b|]|]; eauto.
  - apply mkdirSync_ok in H as (Hne & Hfree & ->).
    destruct (String.eqb_spec p q) as [<-|N].
    + now rewrite Hfree.
    + rewrite stat_insert_ne by assumption. destruct (stat w q) as [[b|]|]; eauto.
Qed.

Lemma writeToFile_grows (p : string) (d : payload) (w : world) (q : string) :
  match stat w q with
  | Some Dir => stat (snd (writeToFile p d w)) q = Some Dir
  | Some (File _) => exists b, stat (snd (writeToFile p d w)) q = Some (File b)
  | None => True
  end.
Proof.
  unfold writeToFile. destruct (writeFileSync p d w) as [[e|[]] w'] eqn:H; cbn [snd].
  - apply writeFileSync_fails in H as [-> _]. destruct (stat w q) as [[b|]|]; eauto.
  - apply writeFileSync_ok in H as (bytes & _ & Hne & Hnd & ->).
    destruct (String.eqb_spec p q) as [<-|N].
    + rewrite stat_insert_eq by assumption. destruct (stat w p) as [[b|]|]; eauto.
      congruence.
    + rewrite stat_insert_ne by assumption. destruct (stat w q) as [[b|]|]; eauto.
Qed.

Lemma nothing_removed_same_fs (s s' : state) :
  fs (env s') = fs (env s) -> nothing_removed s s'.
Proof.
  intros H p. unfold stat. rewrite H.
  destruct (if String.eqb p "" then None else fs (env s) !! p) as [[b|]|]; eauto.
Qed.

Ltac same_world_leaf :=
  unfold same_files, same_endpoints, same_credentials, after_call;
  cbn [env this snd];
  rewrite ?checkIsDirectory_world, ?readFileSync_world;
  first [ reflexivity | split; reflexivity ].

Ltac nothing_removed_leaf :=
  first [ intros ?; cbn [env]; apply createDirectory_grows
        | intros ?; cbn [env]; apply writeToFile_grows
        | apply nothing_removed_same_fs; same_world_leaf ].

(** X17.  The file system under the operations. Only [exportTokenToFile] and
    [downloadOriginalActivityData] write to it: every other operation leaves
    it exactly as it was. And no operation removes anything or changes the
    kind of a path: after any operation a directory is still a directory and
    a file is still a file. *)
Theorem file_system_frame (lib : Collaborators) (op : operation) (s : state) :
  (writes_files op = false -> fs (env (snd (run lib op s))) = fs (env s)) /\
  nothing_removed s (snd (run lib op s)).
Proof.
  split.
  - intros Hop. revert s. change (keeps same_files (run lib op)).
    destruct op; try discriminate Hop; cbn [run]; unfold_methods;
      repeat keeps_step same_world_leaf.
  - revert s. change (keeps nothing_removed (run lib op)).
    destruct op; cbn [run]; unfold_methods; repeat keeps_step nothing_removed_leaf.
Qed.

Lemma createDirectory_objects (p : string) (w : world) :
  objects (snd (createDirectory p w)) = objects w /\
  config (snd (createDirectory p w)) = config w.
Proof.
  unfold createDirectory, mkdirSync.
  destruct (stat w p); [split; reflexivity|].
  destruct (stat w (dirname p)) as [[b|]|]; try (split; reflexivity).
  destruct (String.eqb p ""); split; reflexivity.
Qed.

Lemma writeToFile_objects (p : string) (data : payload) (w : world) :
  objects (snd (writeToFile p data w)) = objects w /\
  config (snd (writeToFile p data w)) = config w.
Proof.
  unfold writeToFile, writeFileSync.
  destruct (file_bytes data); [|split; reflexivity].
  destruct (stat w p) as [[b|]|]; try (split; reflexivity).
  destruct (stat w (dirname p)) as [[b|]|]; try (split; reflexivity).
  destruct (String.eqb p ""); split; reflexivity.
Qed.

Ltac same_objects_leaf :=
  unfold same_objects, after_call;
  cbn [env this snd];
  rewrite ?checkIsDirectory_world, ?readFileSync_world;
  first [ split; reflexivity | apply createDirectory_objects | apply writeToFile_objects ].

(** X18.  The instance under the operations. No operation changes the
    endpoints ([url]) or the user hash of the instance, and only [login]
    changes its credentials: the instance refers to the same credentials
    object after every operation, and after every operation other than
    [login] that object, like every other, holds what it held. *)
Theorem instance_frame (lib : Collaborators) (op : operation) (s : state) :
  url (this (snd (run lib op s))) = url (this s) /\
  _userHash (this (snd (run lib op s))) = _userHash (this s) /\
  credentials (this (snd (run lib op s))) = credentials (this s) /\
  (match op with
   | Op_login _ _ => True
   | _ => the_credentials (snd (run lib op s)) = the_credentials s /\
          objects (env (snd (run lib op s))) = objects (env s)
   end).
Proof.
  assert (H1 : keeps same_endpoints (run lib op)).
  { destruct op; cbn [run]; unfold_methods; repeat keeps_step same_world_leaf. }
  assert (H2 : keeps same_credentials (run lib op)).
  { destruct op; cbn [run]; unfold_methods; repeat keeps_step same_world_leaf. }
  destruct (H1 s) as [Hu Hh]. split; [exact Hu|]. split; [exact Hh|].
  split; [exact (H2 s)|].
  assert (H3 : keeps same_objects (run lib op) ->
               the_credentials (snd (run lib op s)) = the_credentials s /\
               objects (env (snd (run lib op s))) = objects (env s)).
  { intros H. destruct (H s) as [Ho _]. split; [|exact Ho].
    unfold the_credentials. now rewrite Ho, (H2 s). }
  destruct op; try exact I; apply H3;
    cbn [run]; unfold_methods; repeat keeps_step same_objects_leaf.
Qed.

(* --------------------------------------------------------------------- *)
(** *** Construction and the credentials object *)

Lemma login_stores (u p : string) (s : state) :
  u <> "" -> p <> "" ->
  the_credentials (snd (login (Some u) (Some p) s)) = mkCredentials u p /\
  credentials (this (snd (login (Some u) (Some p) s))) = credentials (this s).
Proof.
  intros Hu Hp. apply String.eqb_neq in Hu, Hp.
  rewrite login_run. cbv zeta. cbn [snd]. unfold login_entry. rewrite Hu, Hp.
  cbn [negb andb]. unfold the_credentials, after_call, set_object.
  cbn [env this log_call objects set_client credentials]. now rewrite Pos.eqb_refl.
Qed.

Lemma config_kept (lib : Collaborators) (op : operation) :
  keeps (fun s s' => config (env s') = config (env s)) (run lib op).
Proof.
  assert (P : PreOrder (fun s s' : state => config (env s') = config (env s))).
  { split; [intros a; reflexivity | intros a b c; congruence]. }
  destruct op; cbn [run]; unfold_methods;
    repeat keeps_step
      ltac:(cbn [env this snd after_call];
            rewrite ?checkIsDirectory_world, ?readFileSync_world;
            first [ reflexivity | apply createDirectory_objects | apply writeToFile_objects ]).
Qed.

(** C7, as amended.  Let the module be loaded: [config] holds the object
    that requiring the configuration file yielded, or nothing when that
    failed.  [new GarminConnect(credentials)] keeps the object passed,
    whatever [config] holds; with none passed it keeps the object of
    [config] itself, so that its credentials are the fields of that object
    as they are now; with none passed and nothing loaded it fails with the
    error [Missing credentials].  As [login] assigns to the fields of the
    object the instance keeps, a login with a user name and a password on an
    instance built from [config] changes what every later instance built
    from [config] holds: the credentials of that login, not those of the
    file.  No operation assigns [config]. *)
Theorem constructor_credentials
    (lib : Collaborators) (required : result ref) (w : world) (domain : option string) :
  config w = load_config required ->
  (forall c, exists g, constructor lib (Some c) domain w = inr g /\ credentials g = c) /\
  (forall r, required = inr r ->
     exists g, constructor lib None domain w = inr g /\ credentials g = r /\
               the_credentials (mkState g w) = objects w r) /\
  (forall e, required = inl e ->
     constructor lib None domain w = inl (Error "Missing credentials")) /\
  (forall g u p, constructor lib None domain w = inr g -> u <> "" -> p <> "" ->
     let w' := env (snd (login (Some u) (Some p) (mkState g w))) in
     forall domain', exists g',
       constructor lib None domain' w' = inr g' /\
       the_credentials (mkState g' w') = mkCredentials u p) /\
  (forall op s, config (env (snd (run lib op s))) = config (env s)).
Proof.
  intros Hc. unfold constructor. rewrite Hc.
  split; [|split; [|split; [|split]]].
  - intros c. eexists. split; reflexivity.
  - intros r ->. eexists. repeat split.
  - intros e ->. reflexivity.
  - intros g u p Hg Hu Hp domain'.
    destruct required as [e|r]; cbn [load_config] in *; [discriminate|].
    injection Hg as <-.
    match goal with |- context [login _ _ ?s0] => set (s := s0) end.
    destruct (login_stores u p s Hu Hp) as [Hcred Hr].
    pose proof (config_kept lib (Op_login (Some u) (Some p)) s) as Hk.
    cbn [run] in Hk. rewrite Hk. subst s. cbn [env]. rewrite Hc.
    eexists. split; [reflexivity|].
    unfold the_credentials in *. cbn [env this credentials] in *.
    rewrite Hr in Hcred. exact Hcred.
  - intros op s. apply (config_kept lib op s).
Qed.

Lemma grows_weaken {A} (n m : nat) (c : ST state A) :
  grows_by n c -> (n <= m)%nat -> grows_by m c.
Proof.
  intros H Hle s. destruct (H s) as (new & Hs & Hl). exists new. split; [assumption | lia].
Qed.

Lemma grows_quiet {A} (n : nat) (c : ST state A) :
  (forall s, sent (env (snd (c s))) = sent (env s)) -> grows_by n c.
Proof. intros H s. exists []. rewrite app_nil_r. split; [apply H | simpl; lia]. Qed.

Lemma grows_ret {A} (n : nat) (a : A) : grows_by n (ret a).
Proof. now apply grows_quiet. Qed.

Lemma grows_throw {A} (n : nat) (e : error) : grows_by n (@throw state A e).
Proof. now apply grows_quiet. Qed.

Lemma grows_gets {A} (n : nat) (f : state -> A) : grows_by n (gets f).
Proof. now apply grows_quiet. Qed.

Lemma grows_modify (n : nat) (f : state -> state) :
  (forall s, sent (env (f s)) = sent (env s)) -> grows_by n (modify f).
Proof. intros H. now apply grows_quiet. Qed.

Lemma grows_lift_env {A} (n : nat) (c : ST world A) : quiet c -> grows_by n (lift_env c).
Proof. intros H. apply grows_quiet. intros s. rewrite lift_env_run. apply H. Qed.

Lemma grows_client_call (n : nat) (c : call) : grows_by (S n) (client_call c).
Proof.
  intros s. rewrite client_call_run. exists [(c, answer s c)]. split; [reflexivity | simpl; lia].
Qed.

Lemma grows_bind {A B} (n m : nat) (c : ST state A) (k : A -> ST state B) :
  grows_by n c -> (forall a, grows_by m (k a)) -> grows_by (n + m) (bind c k).
Proof.
  intros Hc Hk s. unfold bind. destruct (Hc s) as (new1 & Hs1 & Hl1).
  destruct (c s) as [[e|a] s1]; cbn [snd] in *.
  - exists new1. split; [assumption | lia].
  - destruct (Hk a s1) as (new2 & Hs2 & Hl2). exists (new1 ++ new2)%list.
    split; [now rewrite Hs2, Hs1, app_assoc | rewrite length_app; lia].
Qed.

Lemma grows_bind_quiet {A B} (n : nat) (c : ST state A) (k : A -> ST state B) :
  grows_by 0 c -> (forall a, grows_by n (k a)) -> grows_by n (bind c k).
Proof. intros Hc Hk. now apply (grows_bind 0 n). Qed.

Lemma grows_bind_call {A B} (n : nat) (c : ST state A) (k : A -> ST state B) :
  grows_by 1 c -> (forall a, grows_by n (k a)) -> grows_by (S n) (bind c k).
Proof. intros Hc Hk. now apply (grows_bind 1 n). Qed.

Lemma grows_try_catch {A} (n : nat) (c : ST state A) (h : error -> ST state A) :
  grows_by n c -> (forall e, grows_by 0 (h e)) -> grows_by n (try_catch c h).
Proof.
  intros Hc Hh s. unfold try_catch. destruct (Hc s) as (new1 & Hs1 & Hl1).
  destruct (c s) as [[e|a] s1]; cbn [snd] in *.
  - destruct (Hh e s1) as (new2 & Hs2 & Hl2). exists (new1 ++ new2)%list.
    split; [now rewrite Hs2, Hs1, app_assoc | rewrite length_app; lia].
  - exists new1. split; assumption.
Qed.

Lemma grows_rethrow {A} (n : nat) (name : string) (c : ST state A) :
  grows_by n c -> grows_by n (rethrow name c).
Proof. intros Hc. apply grows_try_catch; [assumption | intros e; apply grows_throw]. Qed.

Create HintDb calls.
#[local] Hint Resolve grows_ret grows_throw grows_gets grows_client_call grows_lift_env
  quiet_checkIsDirectory quiet_createDirectory quiet_writeToFile quiet_readFileSync : calls.

Ltac grows_tac :=
  repeat match goal with
    | |- grows_by _ (bind _ _) =>
        first [ apply grows_bind_quiet; [solve [grows_tac] | intros ?]
              | apply grows_bind_call; [solve [grows_tac] | intros ?] ]
    | |- grows_by _ (rethrow _ _) => apply grows_rethrow
    | |- grows_by _ (modify _) => apply grows_modify; reflexivity
    | |- grows_by _ (match ?x with _ => _ end) => destruct x
    | |- grows_by _ (let _ := _ in _) => cbv zeta
    | |- grows_by _ _ => solve [auto with calls]
    end.

(** X19.  The calls an operation makes. Every operation only appends to the
    log of calls passed to the client, and appends little: nothing for the
    four token operations (exportTokenToFile, loadTokenByFile, exportToken,
    loadToken), which work offline; at most two entries for
    [updateHydrationLogOunces]; at most one for every other operation. *)
Theorem calls_bound (lib : Collaborators) (op : operation) (s : state) :
  exists new,
    sent (env (snd (run lib op s))) = (sent (env s) ++ new)%list /\
    (length new <= max_calls op)%nat.
Proof.
  revert s. change (grows_by (max_calls op) (run lib op)).
  destruct op; cbn [run max_calls]; unfold_methods; grows_tac.
Qed.

(** X20.  The file helpers of [utils.ts]. [checkIsDirectory] never throws and
    changes nothing: it answers [true] for a directory and [false] for a file
    and for a path that does not exist (where [lstatSync] alone would throw).
    When [createDirectory] returns, the path was free before and is a
    directory after, and no other path has changed. When [writeToFile]
    returns, reading the file gives back what was written, whatever the file
    held before, and no other path has changed. *)
Theorem file_helpers (p : string) (d : payload) (w : world) :
  (checkIsDirectory p w
     = (inr match stat w p with Some Dir => true | _ => false end, w)) /\
  (forall w', createDirectory p w = (inr tt, w') ->
     checkIsDirectory p w = (inr false, w) /\ checkIsDirectory p w' = (inr true, w') /\
     forall q, q <> p -> stat w' q = stat w q) /\
  (forall w', writeToFile p d w = (inr tt, w') ->
     (exists bytes, file_bytes d = Some bytes /\ readFileSync p w' = (inr bytes, w')) /\
     forall q, q <> p -> stat w' q = stat w q).
Proof.
  split; [apply checkIsDirectory_run|]. split.
  - intros w' H. apply mkdirSync_ok in H as (Hne & Hfree & ->).
    rewrite !checkIsDirectory_run. unfold is_dir. rewrite Hfree, stat_insert_eq by assumption.
    repeat split. intros q Hq. apply stat_insert_ne. congruence.
  - intros w' H. apply writeFileSync_ok in H as (bytes & Hb & Hne & _ & ->). split.
    + exists bytes. split; [assumption|]. unfold readFileSync.
      now rewrite stat_insert_eq.
    + intros q Hq. apply stat_insert_ne. congruence.
Qed.

(** X21.  An upload that passes the validation. When the lower-cased format
    (or extension) is a value of [UploadFileType], [uploadActivity] makes
    exactly one call: a POST of a form whose [userfile] part is the file,
    with the content type of the form as header, to the upload endpoint of
    the format as the caller wrote it (['fit'] when left out), not of its
    lower-cased form. The call returns or fails as that request does, and the
    file system is not touched. *)
Theorem uploadActivity_accepted
    (lib : Collaborators) (file : string) (format : option string) (s : state) :
  let declared := match format with Some f => f | None => "fit" end in
  let req :=
    Dispatch (mkRequest POST (UPLOAD (url (this s)) declared) (FormBody file)
                (Some (mkOptions [] None [("Content-Type", form_content_type lib)]))) in
  includes (UploadFileType lib) (effective_format file format) = true ->
  fst (uploadActivity lib file format s) = answer s req /\
  sent_by (uploadActivity lib file format) s = [(req, answer s req)] /\
  fs (env (snd (uploadActivity lib file format s))) = fs (env s).
Proof.
  intros declared req H. unfold sent_by.
  rewrite (uploadActivity_valid_format lib file format s H).
  fold declared. unfold upload_request. fold req. rewrite client_call_run. cbn [fst snd].
  split; [reflexivity|]. split; [apply sent_after_call | reflexivity].
Qed.

(** X22.  The thin operations. getUserSettings, getUserProfile,
    getActivities, countActivities, getGears, getActivityGear,
    linkActivityGear, unlinkActivityGear, getUploadActivityDetails,
    getWorkouts, addActivity, get, post and put, and (given a truthy
    identifier) getActivity, deleteActivity, getWorkoutDetail and
    deleteWorkout, make exactly one call on the client and hand its outcome
    on untouched: what the call resolves to is returned as it is, and its
    error is thrown as it is. Nothing else of the instance changes than the
    client the call was made on. *)
Theorem thin_operations (lib : Collaborators) (op : operation) (s : state) :
  passes_through op = true ->
  exists req,
    sent_by (run lib op) s = [(req, answer s req)] /\
    fst (run lib op s) = answer s req /\
    snd (run lib op s) = after_call s req.
Proof.
  intros Hop. unfold sent_by.
  destruct op; try discriminate Hop; cbn [run passes_through] in *;
    try match goal with
      | H : truthy_opt ?id = true |- _ =>
          destruct id as [v|]; [cbn [truthy_opt] in H | discriminate H]
      end;
    unfold_methods; unfold bind, gets, ret; rewrite ?Hop; cbn [this env];
    rewrite client_call_run; cbn [fst snd];
    eexists; (split; [apply sent_after_call | split; reflexivity]).
Qed.

(* --------------------------------------------------------------------- *)
(** *** Failures, operation by operation *)

Lemma run_rethrow (lib : Collaborators) (op : operation) (s : state) :
  rethrows op = true -> run lib op s = rethrow (op_name op) (try_block lib op) s.
Proof.
  destruct op; intros Hr; try discriminate Hr; cbn [run op_name try_block];
    try reflexivity;
    unfold getSleepData, getSleepDuration, getDailyWeightData, getDailyHydration,
      getHeartRate;
    destruct date; reflexivity.
Qed.

Lemma forwards_sent_by {A} (c : ST state A) (s : state) (k : call) (e : error) :
  forwards_failures c -> In (k, inl e) (sent_by c s) -> fst (c s) = inl e.
Proof.
  intros H Hin. destruct (H s) as (new & Hnew & Hfail). unfold sent_by in Hin.
  rewrite Hnew, skipn_length_app in Hin. eauto.
Qed.

Lemma try_block_cause (lib : Collaborators) (op : operation) (s : state) (k : call) (e : error) :
  rethrows op = true -> In (k, inl e) (sent_by (try_block lib op) s) ->
  fst (try_block lib op s) = inl (cause_of op e).
Proof.
  intros Hr.
  destruct op; try discriminate Hr; cbn [try_block cause_of];
    try (apply forwards_sent_by;
         unfold getSleepData_try, getDailyWeightData_try, getDailyHydration_try,
           updateWeight_try, updateHydrationLogOunces_try, profileId_of, getGolfSummary_try,
           getGolfScorecard_try, getHeartRate_try;
         forwards_tac).
  unfold sent_by, getSleepDuration_try, bind.
  assert (Hd : exists d, date_or_now date s = (inr d, s))
    by (destruct date; eexists; reflexivity).
  destruct Hd as (d & ->). rewrite getSleepData_run. cbv zeta.
  set (req := get_by_date _ _).
  destruct (answer s req) as [e0|p] eqn:Ha.
  - cbn [fst snd]. rewrite sent_after_call, Ha. intros [[= _ <-]|[]]. reflexivity.
  - intros Hin. exfalso. revert Hin.
    repeat (cbn [fst snd throw ret];
            match goal with
            | |- context [if ?b then _ else _] => destruct b
            | |- context [match pprop ?x ?y with _ => _ end] => destruct (pprop x y)
            | |- context [match prop ?x ?y with _ => _ end] => destruct (prop x y)
            | |- context [calculateTimeDifference ?l ?x ?y] =>
                destruct (calculateTimeDifference l x y)
            end);
      cbn [fst snd throw ret]; rewrite sent_after_call, Ha; intros [[= ]|[]].
Qed.

Lemma returning_nothing_fails {A} (c : ST state A) (s : state) (e : error) :
  fst (c s) = inl e -> fst (returning_nothing c s) = inl e.
Proof.
  unfold returning_nothing, bind. destruct (c s) as [[e0|a] s1]; simpl; congruence.
Qed.

(** C4, as amended.  Failures, operation by operation.
    - The nine operations with a rethrowing [catch] (getSleepData,
      getSleepDuration, getDailyWeightData, getDailyHydration, updateWeight,
      updateHydrationLogOunces, getGolfSummary, getGolfScorecard,
      getHeartRate) return what their [try] block returns, and fail exactly
      when the block fails, with [Error "Error in <operation>: <message>"]
      where the message is that of the error the block threw; when a call
      of the collaborator failed, that is the error of the call (under
      [getSleepDuration], the error [getSleepData] made of it).
    - A plain operation surfaces the failure of a call of the collaborator
      as the very error of the call, with no wrapping and no operation name;
      [getDailyWeightInPounds] surfaces it as [getDailyWeightData] wrapped it.
    - In every operation a failed call makes the operation fail.
    - The steps on the file system and [JSON.parse] are not caught either:
      in [exportTokenToFile], [loadTokenByFile] and
      [downloadOriginalActivityData] the error of a failed step is the error
      of the operation. *)
Theorem failures_by_operation (lib : Collaborators) (op : operation) :
  (rethrows op = true ->
     forall s,
       (forall a s', try_block lib op s = (inr a, s') -> run lib op s = (inr a, s')) /\
       (forall cause s', try_block lib op s = (inl cause, s') ->
          run lib op s = (inl (wrapped (op_name op) cause), s')) /\
       (forall k e, In (k, inl e) (sent_by (run lib op) s) ->
          fst (run lib op s) = inl (wrapped (op_name op) (cause_of op e)))) /\
  (plain op = true -> forwards_failures (run lib op)) /\
  (forall date s k e,
     op = Op_getDailyWeightInPounds date -> In (k, inl e) (sent_by (run lib op) s) ->
     fst (run lib op s) = inl (wrapped "getDailyWeightData" e)) /\
  surfaces_failures (run lib op) /\
  match op with
  | Op_exportTokenToFile dir =>
      forall s e,
        let o1 := oauth1Token (client (this s)) in
        let o2 := oauth2Token (client (this s)) in
        let p1 := path_join dir "oauth1_token.json" in
        let p2 := path_join dir "oauth2_token.json" in
        fst (ensure_directory dir (env s)) = inl e \/
        (exists w1, ensure_directory dir (env s) = (inr tt, w1) /\
           (fst (write_token p1 o1 w1) = inl e \/
            exists w2, write_token p1 o1 w1 = (inr tt, w2) /\
                       fst (write_token p2 o2 w2) = inl e)) ->
        fst (run lib op s) = inl e
  | Op_loadTokenByFile dir =>
      forall s e,
        let p1 := path_join dir "oauth1_token.json" in
        let p2 := path_join dir "oauth2_token.json" in
        is_dir (env s) dir = true ->
        file_json (env s) p1 = inl e \/
        (exists v, file_json (env s) p1 = inr v /\ file_json (env s) p2 = inl e) ->
        fst (run lib op s) = inl e
  | Op_downloadOriginalActivityData (Some id) dir type =>
      forall s e,
        let ty := match type with Some t => t | None => "zip" end in
        let req := download_request (url (this s)) id ty in
        truthy id = true ->
        fst (ensure_directory dir (env s)) = inl e \/
        (exists w1 p,
           ensure_directory dir (env s) = (inr tt, w1) /\
           includes ExportFileType_values ty = true /\
           answer (mkState (this s) w1) req = inr p /\
           fst (writeToFile (path_join dir (js_string id +:+ "." +:+ ty)) p
                  (env (after_call (mkState (this s) w1) req))) = inl e) ->
        fst (run lib op s) = inl e
  | _ => True
  end.
Proof.
  split; [|split; [|split; [|split]]].
  - intros Hr s. rewrite (run_rethrow lib op s Hr).
    assert (Hsent : sent_by (rethrow (op_name op) (try_block lib op)) s
                    = sent_by (try_block lib op) s).
    { unfold sent_by, rethrow, try_catch, throw.
      now destruct (try_block lib op s) as [[e|a] s1]. }
    split; [|split].
    + intros a s' H. unfold rethrow, try_catch. now rewrite H.
    + intros cause s' H. unfold rethrow, try_catch, throw, wrapped. now rewrite H.
    + intros k e Hin.
      replace (sent_by (run lib op) s) with (sent_by (try_block lib op) s) in Hin.
      * apply (try_block_cause lib op s k e Hr) in Hin.
        unfold rethrow, try_catch, throw, wrapped.
        destruct (try_block lib op s) as [[e0|a] s1]; cbn [fst] in *; [|discriminate].
        now injection Hin as ->.
      * rewrite <- Hsent. unfold sent_by. now rewrite (run_rethrow lib op s Hr).
  - apply forwards_plain.
  - intros date s k e -> Hin. cbn [run] in *. unfold sent_by in Hin.
    assert (Hd : exists d, date_or_now date s = (inr d, s))
      by (destruct date; eexists; reflexivity).
    destruct Hd as (d & Hd).
    unfold getDailyWeightInPounds, bind in *. rewrite Hd in *.
    rewrite getDailyWeightData_run in *. cbv zeta in *.
    set (req := get_plain _) in *.
    destruct (answer s req) as [e0|p] eqn:Ha.
    + cbn [snd] in Hin. rewrite sent_after_call, Ha in Hin.
      destruct Hin as [[= _ <-]|[]]. reflexivity.
    + assert (Hs : forall x : result payload * state,
                (exists s1 r, x = (r, s1) /\ s1 = after_call s req) ->
                snd x = after_call s req) by (intros x (s1 & r & -> & ->); reflexivity).
      exfalso. revert Hin.
      destruct (truthy_payload p);
        [destruct (pprop "totalAverage" p) as [ta|];
         [destruct (truthy ta);
          [destruct (prop "weight" ta) as [[]|]|]|]|];
        cbn [snd throw ret]; rewrite sent_after_call, Ha; intros [[= ]|[]].
  - apply surfaces_run.
  - destruct op as [| | | | | | | | | | | | | | [id|] dir type
                    | | | | | | | | | | | | | | | | | | | | | | |];
      try exact I.
    + (* exportTokenToFile *)
      intros s e o1 o2 p1 p2 H. cbn [run]. apply returning_nothing_fails.
      rewrite exportTokenToFile_run, lift_env_run. fold o1 o2.
      unfold save_tokens, bind. fold p1 p2.
      destruct H as [H|(w1 & Hd & [H|(w2 & Hw & H)])].
      * destruct (ensure_directory dirPath (env s)) as [[e0|[]] w]; cbn [fst] in *;
          [assumption | discriminate].
      * rewrite Hd. destruct (write_token p1 o1 w1) as [[e0|[]] w]; cbn [fst] in *;
          [assumption | discriminate].
      * rewrite Hd, Hw. destruct (write_token p2 o2 w2) as [[e0|[]] w]; cbn [fst] in *;
          [assumption | discriminate].
    + (* loadTokenByFile *)
      intros s e p1 p2 Hdir H. cbn [run]. apply returning_nothing_fails.
      rewrite loadTokenByFile_run, Hdir. fold p1 p2.
      destruct H as [H|(v & H1 & H2)]; [now rewrite H | now rewrite H1, H2].
    + (* downloadOriginalActivityData *)
      intros s e ty req Hid H. cbn [run]. apply returning_nothing_fails.
      rewrite downloadOriginalActivityData_run by assumption. cbv zeta. fold ty.
      unfold bind. rewrite lift_env_run.
      destruct H as [H|(w1 & p & Hd & Hty & Ha & H)].
      * destruct (ensure_directory dir (env s)) as [[e0|[]] w]; cbn [fst] in *;
          [assumption | discriminate].
      * rewrite Hd. cbn [fst snd]. unfold url_of, gets. cbn [this]. rewrite Hty.
        fold req. rewrite client_call_run, Ha, lift_env_run.
        destruct (writeToFile _ p _) as [[e0|[]] w]; cbn [fst] in *;
          [assumption | discriminate].
Qed.

End Properties.

(* ===================================================================== *)
(** ** The platform of the examples *)
(* ===================================================================== *)

#[export] Existing Instance integer_numbers.
#[export] Existing Instance integer_json.

(* --------------------------------------------------------------------- *)
(** *** Its reader reads back what its writer writes *)

(** One escaped character is read back as that character. *)
Lemma parse_chars_escape_char (c : ascii) (tail : string) :
  parse_chars (escape_char c +:+ tail) = prepend c (parse_chars tail).
Proof.
  destruct c as [[] [] [] [] [] [] [] []]; reflexivity.
Qed.

Lemma parse_chars_escape (s rest : string) :
  parse_chars (escape s +:+ DQ +:+ rest) = Some (s, rest).
Proof.
  induction s as [|c s IH].
  - reflexivity.
  - change (escape (String c s)) with (escape_char c +:+ escape s).
    rewrite append_assoc, parse_chars_escape_char, IH. reflexivity.
Qed.

Lemma span_digits_app (ds rest : string) :
  all_digits ds = true -> starts_digit rest = false ->
  span_digits (ds +:+ rest) = (ds, rest).
Proof.
  induction ds as [|c ds IH]; simpl; intros Hd Hr.
  - destruct rest as [|c r]; simpl in *; [reflexivity | now rewrite Hr].
  - apply andb_true_iff in Hd as [Hc Hd]. rewrite Hc, IH by assumption. reflexivity.
Qed.

Lemma all_digits_uint (d : Decimal.uint) : all_digits (NilEmpty.string_of_uint d) = true.
Proof. induction d; simpl; auto. Qed.

Lemma all_digits_uint0 (d : Decimal.uint) : all_digits (NilZero.string_of_uint d) = true.
Proof. destruct d; try apply (all_digits_uint (_ _)); reflexivity. Qed.

Lemma string_of_uint_nonempty (d : Decimal.uint) :
  exists c r, NilZero.string_of_uint d = String c r /\ is_digit c = true.
Proof. destruct d; simpl; eexists _, _; split; reflexivity. Qed.

Lemma to_int_nonnil (z : Z) :
  Z.to_int z <> Decimal.Pos Decimal.Nil /\ Z.to_int z <> Decimal.Neg Decimal.Nil.
Proof.
  destruct z; simpl; split; try discriminate;
    intros [= H]; now apply Unsigned.to_uint_nonnil in H.
Qed.

Lemma is_digit_not_minus (c : ascii) : is_digit c = true -> (char_code c =? 45)%N = false.
Proof.
  unfold is_digit. intros H. apply andb_true_iff in H as [H _].
  apply N.leb_le in H. apply N.eqb_neq. lia.
Qed.

Lemma parse_number_string_of_Z (z : Z) (rest : string) :
  starts_digit rest = false -> continues_number rest = false ->
  parse_number (string_of_Z z +:+ rest) = Some (z, rest).
Proof.
  intros Hd Hc.
  assert (Hparse : NilZero.int_of_string (string_of_Z z) = Some (Z.to_int z)).
  { apply NilZero.isi; apply to_int_nonnil. }
  unfold parse_number, string_of_Z in *.
  destruct (Z.to_int z) as [u|u] eqn:Hz.
  - cbn [NilZero.string_of_int] in *.
    destruct (string_of_uint_nonempty u) as (c & r & Hu & Hdig).
    rewrite Hu at 1. simpl. rewrite (is_digit_not_minus c Hdig).
    rewrite span_digits_app; [|apply all_digits_uint0|assumption].
    simpl. rewrite Hparse. rewrite <- Hz, DecimalZ.of_to, Hz. simpl.
    rewrite String.eqb_refl, Hc. reflexivity.
  - cbn [NilZero.string_of_int] in *. simpl.
    rewrite span_digits_app; [|apply all_digits_uint0|assumption].
    simpl in Hparse. rewrite Hparse. rewrite <- Hz, DecimalZ.of_to, Hz. simpl.
    rewrite String.eqb_refl, Hc. reflexivity.
Qed.

Lemma stringify_arr (l : list json) :
  write_json (JArr l) = "[" +:+ stringify_elems l +:+ "]".
Proof. reflexivity. Qed.

Lemma stringify_obj (l : list (string * json)) :
  write_json (JObj l) = "{" +:+ stringify_members l +:+ "}".
Proof. reflexivity. Qed.

Lemma closes_facts (rest : string) :
  closes rest = true ->
  starts_digit rest = false /\ continues_number rest = false /\ skip_ws rest = rest.
Proof.
  destruct rest as [|c r]; [intros _; repeat split|].
  destruct c as [[] [] [] [] [] [] [] []]; intros H; try discriminate H; repeat split.
Qed.

Lemma parse_value_S (f : nat) (s : string) :
  parse_value (S f) s =
      match skip_ws s with
      | EmptyString => None
      | String c r =>
          let n := char_code c in
          if (n =? 110)%N then
            match strip_prefix "ull" r with Some r' => Some (JNull, r') | None => None end
          else if (n =? 116)%N then
            match strip_prefix "rue" r with Some r' => Some (JBool true, r') | None => None end
          else if (n =? 102)%N then
            match strip_prefix "alse" r with Some r' => Some (JBool false, r') | None => None end
          else if (n =? 34)%N then
            match parse_chars r with Some (str, r') => Some (JStr str, r') | None => None end
          else if (n =? 91)%N then
            match skip_ws r with
            | String c' r' =>
                if (char_code c' =? 93)%N then Some (JArr [], r')
                else match parse_elems f r with
                     | Some (l, r'') => Some (JArr l, r'')
                     | None => None
                     end
            | EmptyString => None
            end
          else if (n =? 123)%N then
            match skip_ws r with
            | String c' r' =>
                if (char_code c' =? 125)%N then Some (JObj [], r')
                else match parse_members f r with
                     | Some (l, r'') => Some (JObj (obj_of_members l), r'')
                     | None => None
                     end
            | EmptyString => None
            end
          else
            match parse_number (String c r) with
            | Some (z, r') => Some (JNum z, r')
            | None => None
            end
      end.
Proof. reflexivity. Qed.

Lemma parse_elems_S (f : nat) (s : string) :
  parse_elems (S f) s =
      match parse_value f s with
      | Some (v, r) =>
          match skip_ws r with
          | String c r' =>
              if (char_code c =? 44)%N then
                match parse_elems f r' with
                | Some (l, r'') => Some (v :: l, r'')
                | None => None
                end
              else if (char_code c =? 93)%N then Some ([v], r')
              else None
          | EmptyString => None
          end
      | None => None
      end.
Proof. reflexivity. Qed.

Lemma parse_members_S (f : nat) (s : string) :
  parse_members (S f) s =
      match skip_ws s with
      | String q r =>
          if (char_code q =? 34)%N then
            match parse_chars r with
            | Some (k, r1) =>
                match skip_ws r1 with
                | String colon r2 =>
                    if (char_code colon =? 58)%N then
                      match parse_value f r2 with
                      | Some (v, r3) =>
                          match skip_ws r3 with
                          | String c r4 =>
                              if (char_code c =? 44)%N then
                                match parse_members f r4 with
                                | Some (l, r5) => Some ((k, v) :: l, r5)
                                | None => None
                                end
                              else if (char_code c =? 125)%N then Some ([(k, v)], r4)
                              else None
                          | EmptyString => None
                          end
                      | None => None
                      end
                    else None
                | EmptyString => None
                end
            | None => None
            end
          else None
      | EmptyString => None
      end.
Proof. reflexivity. Qed.

Lemma starts_number (c : ascii) (r : string) (f : nat) :
  is_digit c || (char_code c =? 45)%N = true ->
  opens_value c = true /\
  parse_value (S f) (String c r) =
    match parse_number (String c r) with
    | Some (z, r') => Some (JNum z, r')
    | None => None
    end.
Proof.
  rewrite parse_value_S.
  destruct c as [[] [] [] [] [] [] [] []]; intros H; try discriminate H; split; reflexivity.
Qed.

Lemma string_of_Z_head (z : Z) :
  exists c r, string_of_Z z = String c r /\ is_digit c || (char_code c =? 45)%N = true.
Proof.
  unfold string_of_Z. destruct (Z.to_int z) as [u|u]; simpl.
  - destruct (string_of_uint_nonempty u) as (c & r & -> & H). exists c, r. now rewrite H.
  - eexists _, _. split; reflexivity.
Qed.

Lemma stringify_head (v : json) :
  exists c r, write_json v = String c r /\ opens_value c = true.
Proof.
  destruct v as [|[]|n|s|l|l]; try (eexists _, _; split; reflexivity).
  destruct (string_of_Z_head n) as (c & r & H & Hc).
  exists c, r. split; [exact H|]. now apply (starts_number c r 0).
Qed.

Lemma set_prop_fresh (k : string) (v : json) (acc : list (string * json)) :
  existsb (String.eqb k) (map fst acc) = false ->
  set_prop k v acc = (acc ++ [(k, v)])%list.
Proof.
  induction acc as [|[k' v'] acc IH]; simpl; [reflexivity|].
  intros H. apply orb_false_iff in H as [Hk H].
  rewrite Hk, IH by assumption. reflexivity.
Qed.

Lemma existsb_eqb_false (k : string) (l : list string) :
  existsb (String.eqb k) l = false <-> ~ In k l.
Proof.
  induction l as [|x l IH]; simpl; [tauto|].
  rewrite orb_false_iff, IH, String.eqb_neq. intuition congruence.
Qed.

Lemma fold_set_prop (l acc : list (string * json)) :
  nodupb (map fst l) = true ->
  (forall k, In k (map fst l) -> ~ In k (map fst acc)) ->
  fold_left (fun a kv => set_prop (fst kv) (snd kv) a) l acc = (acc ++ l)%list.
Proof.
  revert acc. induction l as [|[k v] l IH]; simpl; intros acc Hnd Hfresh.
  - now rewrite app_nil_r.
  - apply andb_true_iff in Hnd as [Hk Hnd].
    apply negb_true_iff, existsb_eqb_false in Hk.
    rewrite set_prop_fresh by (apply existsb_eqb_false, Hfresh; now left).
    rewrite IH; [now rewrite <- app_assoc | assumption |].
    intros k' Hin. rewrite map_app, in_app_iff. simpl.
    intros [H|[H|[]]]; [now apply (Hfresh k'); [right|] | congruence].
Qed.

Lemma obj_of_members_nodup (l : list (string * json)) :
  nodupb (map fst l) = true -> obj_of_members l = l.
Proof.
  intros H. unfold obj_of_members. rewrite fold_set_prop; auto.
Qed.

Lemma parse_elems_stringify (l : list json) :
  Forall reads_back l -> forallb wf_json l = true -> l <> [] ->
  forall fuel rest, (list_size l <= fuel)%nat ->
    parse_elems fuel (stringify_elems l +:+ "]" +:+ rest) = Some (l, rest).
Proof.
  induction 1 as [|x l Hx Hl IH]; [congruence|].
  intros Hwf _ fuel rest Hfuel. simpl in Hwf. apply andb_true_iff in Hwf as [Hwx Hwl].
  unfold list_size in Hfuel. simpl in Hfuel.
  destruct fuel as [|f]; [lia|]. rewrite parse_elems_S.
  destruct l as [|y l].
  - simpl. rewrite (Hx Hwx) by first [reflexivity | simpl; lia]. reflexivity.
  - change (stringify_elems (x :: y :: l))
      with (write_json x +:+ "," +:+ stringify_elems (y :: l)).
    rewrite !append_assoc.
    rewrite (Hx Hwx) by first [reflexivity | simpl; lia].
    set (tail := stringify_elems (y :: l) +:+ "]" +:+ rest). simpl. subst tail.
    rewrite IH; [reflexivity | assumption | discriminate |].
    unfold list_size. simpl. simpl in Hfuel. lia.
Qed.

Lemma quote_unfold (k : string) (tail : string) :
  quote k +:+ tail = String (ascii_of_N 34) (escape k +:+ DQ +:+ tail).
Proof. unfold quote. rewrite !append_assoc. reflexivity. Qed.

Lemma parse_members_stringify (l : list (string * json)) :
  Forall (fun kv => reads_back (snd kv)) l ->
  forallb (fun kv => wf_json (snd kv)) l = true -> l <> [] ->
  forall fuel rest, (members_size l <= fuel)%nat ->
    parse_members fuel (stringify_members l +:+ "}" +:+ rest) = Some (l, rest).
Proof.
  induction 1 as [|[k x] l Hx Hl IH]; [congruence|].
  intros Hwf _ fuel rest Hfuel. simpl in Hwf, Hx. apply andb_true_iff in Hwf as [Hwx Hwl].
  unfold members_size in Hfuel. simpl in Hfuel.
  destruct fuel as [|f]; [lia|]. rewrite parse_members_S.
  destruct l as [|[k' y] l].
  - change (stringify_members [(k, x)]) with (quote k +:+ ":" +:+ write_json x).
    rewrite !append_assoc, quote_unfold.
    set (tail := write_json x +:+ "}" +:+ rest).
    set (inner := escape k +:+ DQ +:+ ":" +:+ tail).
    simpl. subst inner. rewrite parse_chars_escape. simpl. subst tail.
    rewrite (Hx Hwx) by first [reflexivity | simpl; lia]. reflexivity.
  - change (stringify_members ((k, x) :: (k', y) :: l))
      with (quote k +:+ ":" +:+ write_json x +:+ "," +:+ stringify_members ((k', y) :: l)).
    rewrite !append_assoc, quote_unfold.
    set (tail := write_json x +:+ "," +:+ stringify_members ((k', y) :: l) +:+ "}" +:+ rest).
    set (inner := escape k +:+ DQ +:+ ":" +:+ tail).
    simpl. subst inner. rewrite parse_chars_escape. simpl. subst tail.
    rewrite (Hx Hwx) by first [reflexivity | simpl; lia].
    set (tail := stringify_members ((k', y) :: l) +:+ "}" +:+ rest). simpl. subst tail.
    rewrite IH; [reflexivity | assumption | discriminate |].
    unfold members_size. simpl. simpl in Hfuel. lia.
Qed.

Lemma skip_ws_opens (c : ascii) (r : string) :
  opens_value c = true -> skip_ws (String c r) = String c r.
Proof.
  unfold opens_value. intros H. simpl.
  destruct (is_ws c); [discriminate H | reflexivity].
Qed.

Lemma opens_not_close (c : ascii) :
  opens_value c = true ->
  is_ws c = false /\ (char_code c =? 93)%N = false /\ (char_code c =? 125)%N = false.
Proof.
  unfold opens_value. intros H.
  destruct (char_code c =? 93)%N, (char_code c =? 125)%N, (is_ws c); try discriminate H; auto.
Qed.

Lemma stringify_elems_head (x : json) (l : list json) :
  exists c r, stringify_elems (x :: l) = String c r /\ opens_value c = true.
Proof.
  destruct (stringify_head x) as (c & r & H & Hc).
  destruct l as [|y l].
  - exists c, r. now split.
  - exists c, (r +:+ "," +:+ stringify_elems (y :: l)). split; [|assumption].
    change (stringify_elems (x :: y :: l))
      with (write_json x +:+ "," +:+ stringify_elems (y :: l)).
    now rewrite H.
Qed.

Lemma stringify_members_head (kv : string * json) (l : list (string * json)) :
  exists r, stringify_members (kv :: l) = String (ascii_of_N 34) r.
Proof.
  destruct kv as [k x]. destruct l as [|[k' y] l].
  - eexists. change (stringify_members [(k, x)]) with (quote k +:+ ":" +:+ write_json x).
    apply quote_unfold.
  - eexists.
    change (stringify_members ((k, x) :: (k', y) :: l))
      with (quote k +:+ ":" +:+ write_json x +:+ "," +:+ stringify_members ((k', y) :: l)).
    apply quote_unfold.
Qed.

Lemma parse_value_stringify (v : json) : reads_back v.
Proof.
  induction v as [|b|n|s|l IH|l IH] using json_nested_ind;
    intros Hwf fuel rest Hfuel Hrest; (destruct fuel as [|f]; [simpl in Hfuel; lia|]).
  - reflexivity.
  - destruct b; reflexivity.
  - destruct (closes_facts rest Hrest) as (Hd & Hc & _).
    destruct (string_of_Z_head n) as (c & r & Hn & Hhead).
    change (write_json (JNum n)) with (string_of_Z n).
    pose proof (parse_number_string_of_Z n rest Hd Hc) as Hp.
    rewrite Hn in *.
    change (String c r +:+ rest) with (String c (r +:+ rest)) in *.
    destruct (starts_number c (r +:+ rest) f Hhead) as [_ ->].
    now rewrite Hp.
  - change (write_json (JStr s)) with (quote s).
    rewrite quote_unfold, parse_value_S.
    set (inner := escape s +:+ DQ +:+ rest).
    simpl. subst inner. now rewrite parse_chars_escape.
  - rewrite stringify_arr, !append_assoc, parse_value_S.
    destruct l as [|x l]; [reflexivity|].
    destruct (stringify_elems_head x l) as (c & r & Hh & Hc).
    set (body := stringify_elems (x :: l) +:+ "]" +:+ rest).
    simpl. unfold body at 1. rewrite Hh. simpl.
    destruct (opens_not_close c Hc) as (-> & -> & _).
    subst body.
    rewrite parse_elems_stringify; [reflexivity | assumption | exact Hwf | discriminate |].
    simpl in Hfuel. unfold list_size. simpl. lia.
  - rewrite stringify_obj, !append_assoc, parse_value_S.
    destruct l as [|kv l]; [reflexivity|].
    destruct (stringify_members_head kv l) as (r & Hh).
    simpl in Hwf. apply andb_true_iff in Hwf as [Hnd Hwf].
    set (body := stringify_members (kv :: l) +:+ "}" +:+ rest).
    simpl. unfold body at 1. rewrite Hh. simpl.
    subst body. rewrite parse_members_stringify; [| assumption | exact Hwf | discriminate |].
    + rewrite obj_of_members_nodup by exact Hnd. reflexivity.
    + simpl in Hfuel. unfold members_size. simpl. lia.
Qed.

Lemma elems_size_length (l : list json) :
  Forall (fun v => (size v <= String.length (write_json v))%nat) l ->
  (list_size l <= String.length (stringify_elems l) + 1)%nat.
Proof.
  induction 1 as [|x l Hx Hl IH]; [unfold list_size; simpl; lia|].
  cbv beta in Hx. destruct l as [|y l].
  - unfold list_size. simpl. clear IH Hl. lia.
  - change (stringify_elems (x :: y :: l))
      with (write_json x +:+ "," +:+ stringify_elems (y :: l)).
    rewrite !length_append.
    change (list_size (x :: y :: l)) with (S (size x) + list_size (y :: l))%nat.
    change (String.length ",") with 1%nat. lia.
Qed.

Lemma members_size_length (l : list (string * json)) :
  Forall (fun kv => (size (snd kv) <= String.length (write_json (snd kv)))%nat) l ->
  (members_size l <= String.length (stringify_members l) + 1)%nat.
Proof.
  induction 1 as [|[k x] l Hx Hl IH]; [unfold members_size; simpl; lia|].
  simpl in Hx. destruct l as [|[k' y] l].
  - change (stringify_members [(k, x)]) with (quote k +:+ ":" +:+ write_json x).
    rewrite !length_append. unfold members_size. simpl. clear IH Hl. lia.
  - change (stringify_members ((k, x) :: (k', y) :: l))
      with (quote k +:+ ":" +:+ write_json x +:+ "," +:+ stringify_members ((k', y) :: l)).
    rewrite !length_append.
    change (members_size ((k, x) :: (k', y) :: l))
      with (S (size x) + members_size ((k', y) :: l))%nat.
    change (String.length ",") with 1%nat. lia.
Qed.

Lemma size_le_length (v : json) : (size v <= String.length (write_json v))%nat.
Proof.
  induction v as [|b|n|s|l IH|l IH] using json_nested_ind.
  - simpl. lia.
  - destruct b; simpl; lia.
  - destruct (string_of_Z_head n) as (c & r & H & _).
    change (write_json (JNum n)) with (string_of_Z n). rewrite H. simpl. lia.
  - change (write_json (JStr s)) with (quote s). unfold quote.
    rewrite !length_append. simpl. lia.
  - rewrite stringify_arr, !length_append.
    pose proof (elems_size_length l IH). change (size (JArr l)) with (S (list_size l)).
    simpl String.length. lia.
  - rewrite stringify_obj, !length_append.
    pose proof (members_size_length l IH). change (size (JObj l)) with (S (members_size l)).
    simpl String.length. lia.
Qed.

Theorem read_json_write_json (v : json) :
  wf_json v = true -> read_json (write_json v) = Some v.
Proof.
  intros Hwf. unfold read_json.
  rewrite <- (append_nil_r (write_json v)) at 2.
  rewrite (parse_value_stringify v Hwf); [reflexivity | | reflexivity].
  pose proof (size_le_length v). lia.
Qed.

(** The platform of the examples reads back what it writes. *)
#[export] Instance integer_laws : JsonLaws.
Proof.
  constructor. intros v H. apply read_json_write_json, json_safe_wf, H.
Qed.

(* --------------------------------------------------------------------- *)
(** *** Examples on the sample data *)
Example constructor_sample :
  constructor sample_lib None None (sample_world unreachable) = inr sample_fresh.
Proof. reflexivity. Qed.

(** With no configuration file the module's [config] stays undefined, and a
    construction without credentials fails. *)
Example constructor_without_config :
  constructor sample_lib None None unconfigured_world = inl (Error "Missing credentials").
Proof. reflexivity. Qed.


Lemma loadTokenByFile_partial :
  fst (loadTokenByFile "/tokens" (mkState sample_fresh half_saved_world))
    = inl (SystemError ENOENT "open" "/tokens/oauth2_token.json") /\
  oauth1Token (client (this (mkState sample_fresh half_saved_world))) = None /\
  oauth1Token (client (this (snd (loadTokenByFile "/tokens"
                                    (mkState sample_fresh half_saved_world)))))
    = Some sample_oauth1.
Proof. vm_compute. repeat split. Qed.

Lemma getActivities_not_wrapped :
  fst (run sample_lib (Op_getActivities (NUM := integer_numbers) (Some 0) (Some 10) None None)
         (mkState sample_session (sample_world unreachable)))
    = inl (Error "Network Error") /\
  contains "getActivities" (message (Error "Network Error")) = false.
Proof. split; reflexivity. Qed.

(** A numeric activity id prints without a slash. *)
(* --------------------------------------------------------------------- *)
(** *** Transfers on the sample data *)
Lemma no_slash_digits (s : string) : all_digits s = true -> no_slash s = true.
Proof.
  induction s as [|c s IH]; simpl; [reflexivity|].
  intros H. apply andb_true_iff in H as [Hc Hs]. rewrite (IH Hs), andb_true_r.
  unfold is_slash, is_digit in *. apply andb_true_iff in Hc as [Hc _].
  apply N.leb_le in Hc. apply negb_true_iff, N.eqb_neq. lia.
Qed.

Example extname_samples :
  extname "ride.fit" = ".fit" /\ extname "/a.b/ride" = "" /\ extname ".profile" = ""
  /\ extname "archive.tar.gz" = ".gz" /\ extname "trailing." = "." /\ extname ".." = "".
Proof. repeat split. Qed.

Lemma js_string_number_no_slash (n : Z) : no_slash (js_string (JNum n)) = true.
Proof.
  simpl. unfold string_of_Z. destruct (Z.to_int n) as [u|u]; simpl.
  - apply no_slash_digits, all_digits_uint0.
  - apply no_slash_digits, all_digits_uint0.
Qed.

Lemma uploadActivity_invalid_format_xyz :
  uploadActivity sample_lib "ride.fit" (Some "xyz")
    (mkState sample_session (sample_world (answering sample_upload_reply)))
  = (inl (Error "uploadActivity - Invalid format: xyz"),
     mkState sample_session (sample_world (answering sample_upload_reply))).
Proof.
  apply (uploadActivity_invalid_format sample_lib "ride.fit" (Some "xyz")). reflexivity.
Defined.

Lemma uploadActivity_upper_case_accepted :
  includes UploadFileType_values "FIT" = false /\
  uploadActivity sample_lib "ride.fit" (Some "FIT")
    (mkState sample_session (sample_world (answering sample_upload_reply)))
  = (inr sample_upload_reply,
     mkState sample_session
       (log_call (upload_request sample_lib (sample_urls "garmin.com") "ride.fit" "FIT")
                 (inr sample_upload_reply)
                 (sample_world (answering sample_upload_reply)))).
Proof. split; reflexivity. Qed.



Example download_invalid_type_creates_directory :
  downloadOriginalActivityData (Some (JNum 123)) "/out" (Some "pdf")
    (mkState sample_session (sample_world (answering sample_zip)))
  = (inl (Error "downloadOriginalActivityData - Invalid type: pdf"),
     mkState sample_session
       (set_fs (<["/out" := Dir]> (fs (sample_world (answering sample_zip))))
               (sample_world (answering sample_zip)))).
Proof. reflexivity. Qed.

Example download_tcx_is_text :
  asked_responseType (download_request (sample_urls "garmin.com") (JInt 123) "tcx") = None.
Proof. reflexivity. Qed.

Example upload_by_extension_rejected :
  fst (uploadActivity sample_lib "ride.fit" (Some "")
         (mkState sample_session (sample_world (answering sample_upload_reply))))
  = inl (Error "uploadActivity - Invalid format: ").
Proof. reflexivity. Qed.

(* --------------------------------------------------------------------- *)
(** *** The properties at work on the sample data *)
Lemma loadTokenByFile_failure_samples :
  loadTokenByFile "/nowhere" (mkState sample_session (sample_world unreachable))
    = (inl (Error "loadTokenByFile: Directory not found: /nowhere"),
       mkState sample_session (sample_world unreachable)) /\
  loadTokenByFile "/tokens" (mkState sample_session garbled_world)
    = (inl (SyntaxError "Unexpected token in JSON"), mkState sample_session garbled_world).
Proof.
  split.
  - apply (proj1 (loadTokenByFile_failure
                    (mkState sample_session (sample_world unreachable)) "/nowhere")).
    reflexivity.
  - apply (proj1 (proj2 (loadTokenByFile_failure
                           (mkState sample_session garbled_world) "/tokens")));
      reflexivity.
Defined.

Lemma exportToken_samples :
  fst (exportToken (mkState sample_fresh (sample_world unreachable)))
    = inl (Error "exportToken: Token not found") /\
  oauth1Token (client sample_session) = Some sample_oauth1 /\
  oauth2Token (client sample_session) = Some sample_oauth2.
Proof.
  split.
  - apply (proj1 (exportToken_spec (mkState sample_fresh (sample_world unreachable)))).
    left. reflexivity.
  - apply (proj1 (proj2 (proj2 (exportToken_spec
                                  (mkState sample_session (sample_world unreachable)))))
             (mkTokens sample_oauth1 sample_oauth2)).
    reflexivity.
Defined.

Lemma failures_by_operation_samples :
  let s := mkState sample_session (sample_world unreachable) in
  fst (run sample_lib (Op_getSleepData None) s)
    = inl (Error "Error in getSleepData: Network Error") /\
  fst (run sample_lib (Op_getSleepDuration None) s)
    = inl (Error "Error in getSleepDuration: Error in getSleepData: Network Error") /\
  forwards_failures
    (run sample_lib (Op_getActivities (NUM := integer_numbers) (Some 0) (Some 10) None None)) /\
  fst (run sample_lib (Op_exportTokenToFile "/a/b") s)
    = inl (SystemError ENOENT "mkdir" "/a/b").
Proof.
  cbv zeta. split; [|split; [|split]].
  - apply (proj2 (proj2 (proj1 (failures_by_operation sample_lib (Op_getSleepData None))
                           eq_refl (mkState sample_session (sample_world unreachable))))
             (get_by_date (DAILY_SLEEP (sample_urls "garmin.com")) "day-19675")
             (Error "Network Error")).
    left. reflexivity.
  - apply (proj2 (proj2 (proj1 (failures_by_operation sample_lib (Op_getSleepDuration None))
                           eq_refl (mkState sample_session (sample_world unreachable))))
             (get_by_date (DAILY_SLEEP (sample_urls "garmin.com")) "day-19675")
             (Error "Network Error")).
    left. reflexivity.
  - apply (proj1 (proj2 (failures_by_operation sample_lib
                           (Op_getActivities (NUM := integer_numbers)
                              (Some 0) (Some 10) None None)))).
    reflexivity.
  - apply (proj2 (proj2 (proj2 (proj2 (failures_by_operation sample_lib
                                         (Op_exportTokenToFile "/a/b")))))
             (mkState sample_session (sample_world unreachable))).
    left. reflexivity.
Defined.

Lemma constructor_credentials_samples :
  (exists g, constructor sample_lib None None (sample_world unreachable) = inr g /\
             credentials g = sample_config /\
             the_credentials (mkState g (sample_world unreachable)) = sample_credentials) /\
  constructor sample_lib None None unconfigured_world = inl (Error "Missing credentials").
Proof.
  split.
  - apply (proj1 (proj2 (constructor_credentials sample_lib (inr sample_config)
                           (sample_world unreachable) None eq_refl)) sample_config).
    reflexivity.
  - apply (proj1 (proj2 (proj2 (constructor_credentials sample_lib
                                  (inl (Error "Cannot find module"))
                                  unconfigured_world None eq_refl)))
             (Error "Cannot find module")).
    reflexivity.
Defined.

(** An instance built from the configuration logs in as another user: the
    next instance built from the configuration holds the credentials of
    that login, not those the configuration file gave. *)
Lemma constructor_after_login :
  let w := sample_world (answering PUndefined) in
  config w = load_config (inr sample_config) /\
  objects w sample_config = sample_credentials /\
  exists g,
    constructor sample_lib None None w = inr g /\
    let w' := env (snd (login (Some "bo@example.org") (Some "s3cret") (mkState g w))) in
    exists g',
      constructor sample_lib None None w' = inr g' /\
      the_credentials (mkState g w) = sample_credentials /\
      the_credentials (mkState g' w') = mkCredentials "bo@example.org" "s3cret" /\
      the_credentials (mkState g' w') <> sample_credentials.
Proof.
  cbv zeta. split; [reflexivity|]. split; [reflexivity|].
  exists sample_fresh. split; [reflexivity|].
  exists sample_fresh. split; [reflexivity|]. split; [reflexivity|]. split; [reflexivity|].
  vm_compute. discriminate.
Qed.

Lemma listeners_never_touched_samples :
  listeners sample_fresh = ∅ /\
  run sample_lib (Op_exportTokenToFile "/tokens")
    (with_listeners {["sessionChange" := [wiping_listener]]}
       (mkState sample_session (sample_world unreachable)))
  = (fst (run sample_lib (Op_exportTokenToFile "/tokens")
            (mkState sample_session (sample_world unreachable))),
     with_listeners {["sessionChange" := [wiping_listener]]}
       (snd (run sample_lib (Op_exportTokenToFile "/tokens")
               (mkState sample_session (sample_world unreachable))))).
Proof.
  split.
  - apply (proj1 (listeners_never_touched sample_lib) None None (sample_world unreachable)).
    reflexivity.
  - apply (proj2 (listeners_never_touched sample_lib)).
Defined.


Example getSleepData_wraps :
  fst (run sample_lib (Op_getSleepData None)
         (mkState sample_session (sample_world unreachable)))
  = inl (Error "Error in getSleepData: Network Error").
Proof. reflexivity. Qed.

Example getSleepDuration_wraps_twice :
  fst (run sample_lib (Op_getSleepDuration None)
         (mkState sample_session (sample_world unreachable)))
  = inl (Error "Error in getSleepDuration: Error in getSleepData: Network Error").
Proof. reflexivity. Qed.

Example getDailyWeightInPounds_hands_on :
  fst (run sample_lib (Op_getDailyWeightInPounds None)
         (mkState sample_session (sample_world unreachable)))
  = inl (Error "Error in getDailyWeightData: Network Error").
Proof. reflexivity. Qed.

Example exportTokenToFile_makes_directory :
  exportTokenToFile "/fresh" (mkState sample_fresh (sample_world unreachable))
  = (inr tt,
     mkState sample_fresh
       (set_fs (<["/fresh" := Dir]> (fs (sample_world unreachable)))
               (sample_world unreachable))).
Proof. reflexivity. Qed.

(** A trailing slash does not hide the parent: [/fresh/] is made in the root. *)
Example exportTokenToFile_trailing_slash :
  dirname "/fresh/" = "/" /\
  fst (exportTokenToFile "/fresh/" (mkState sample_fresh (sample_world unreachable)))
  = inr tt.
Proof. split; reflexivity. Qed.

Example exportTokenToFile_needs_parent :
  fst (exportTokenToFile "/a/b" (mkState sample_session (sample_world unreachable)))
  = inl (SystemError ENOENT "mkdir" "/a/b").
Proof. reflexivity. Qed.

Lemma login_credentials_sample :
  the_credentials (snd (login (Some "bo@example.org") (Some "s3cret")
                          (mkState sample_fresh (sample_world unreachable))))
    = mkCredentials "bo@example.org" "s3cret" /\
  sent_by (login (Some "bo@example.org") None)
          (mkState sample_fresh (sample_world unreachable))
    = [(Login "ana@example.org" "hunter2", inl (Error "Network Error"))].
Proof.
  split.
  - apply (proj1 (login_credentials (Some "bo@example.org") (Some "s3cret")
                    (mkState sample_fresh (sample_world unreachable)))
             "bo@example.org" "s3cret"); try reflexivity; discriminate.
  - apply (proj1 (proj2 (login_credentials (Some "bo@example.org") None
                           (mkState sample_fresh (sample_world unreachable))))).
    right. left. reflexivity.
Defined.

Lemma loadToken_exportToken_sample :
  exportToken (snd (loadToken sample_oauth1 sample_oauth2
                      (mkState sample_fresh (sample_world unreachable))))
    = (inr (mkTokens sample_oauth1 sample_oauth2),
       snd (loadToken sample_oauth1 sample_oauth2
              (mkState sample_fresh (sample_world unreachable)))) /\
  fst (exportToken (snd (loadToken sample_oauth1 JNull
                           (mkState sample_session (sample_world unreachable)))))
    = inl (Error "exportToken: Token not found").
Proof.
  split.
  - apply (proj1 (proj2 (proj2 (proj2
             (loadToken_exportToken sample_oauth1 sample_oauth2
                (mkState sample_fresh (sample_world unreachable))))))); reflexivity.
  - rewrite (proj1 (proj2 (proj2 (proj2 (proj2
               (loadToken_exportToken sample_oauth1 JNull
                  (mkState sample_session (sample_world unreachable)))))))
               (or_intror eq_refl)).
    reflexivity.
Defined.

Lemma missing_id_rejected_sample :
  downloadOriginalActivityData (Some (JNum 0)) "/out" None
    (mkState sample_session (sample_world (answering sample_zip)))
  = (inl (Error "Missing activityId"),
     mkState sample_session (sample_world (answering sample_zip))).
Proof.
  apply (missing_id_rejected sample_lib (Some (JInt 0)) "/out" None
           (mkState sample_session (sample_world (answering sample_zip))) eq_refl).
Defined.

Lemma constructor_fresh_sample :
  url sample_fresh = UrlClass_new sample_lib "garmin.com" /\
  client sample_fresh = mkHttpClient None None /\
  fst (exportToken (mkState sample_fresh (sample_world unreachable)))
    = inl (Error "exportToken: Token not found") /\
  (forall dirPath, is_dir (sample_world unreachable) dirPath = true ->
     exportTokenToFile dirPath (mkState sample_fresh (sample_world unreachable))
     = (inr tt, mkState sample_fresh (sample_world unreachable))).
Proof.
  apply (constructor_fresh sample_lib None None (sample_world unreachable) sample_fresh).
  reflexivity.
Defined.

Example addWorkout_strips_server_fields_sample :
  sent_by (addWorkout sample_lib
             (Some (WorkoutData (JObj [("workoutId", JNum 7); ("workoutName", JStr "Hills");
                                       ("author", JStr "ana")]))))
          (mkState sample_session (sample_world unreachable))
  = [(workout_request (sample_urls "garmin.com")
        [("workoutName", JStr "Hills");
         ("description", JStr "Added by garmin-connect for Node.js")],
      inl (Error "Network Error"))].
Proof. reflexivity. Qed.

Example addRunningWorkout_invalid_is_posted :
  Running_isValid sample_lib (mkRunning (Some "Easy") (Some 0) (Some "")) = false /\
  sent_by (addRunningWorkout sample_lib "Easy" 0 "")
          (mkState sample_session (sample_world unreachable))
  = [(workout_request (sample_urls "garmin.com")
        [("name", JStr "Easy"); ("description", JStr "Added by garmin-connect for Node.js")],
      inl (Error "Network Error"))].
Proof. split; reflexivity. Qed.

Lemma getSteps_first_match_sample :
  fst (getSteps sample_lib (Some 0)
         (mkState sample_session
            (sample_world (answering
               (PData (JArr [JObj [("calendarDate", JStr "day--1"); ("totalSteps", JInt 11)];
                             JObj [("calendarDate", JStr "day-0"); ("totalSteps", JInt 8042)];
                             JObj [("calendarDate", JStr "day-0"); ("totalSteps", JInt 1)]]))))))
  = inr (PData (JInt 8042)).
Proof.
  apply (proj1 (proj2 (getSteps_first_match sample_lib (Some 0) _))
           [JObj [("calendarDate", JStr "day--1"); ("totalSteps", JInt 11)]]
           (JObj [("calendarDate", JStr "day-0"); ("totalSteps", JInt 8042)])
           [JObj [("calendarDate", JStr "day-0"); ("totalSteps", JInt 1)]]).
  - reflexivity.
  - constructor; [|constructor]. split; discriminate.
  - reflexivity.
Defined.

Lemma empty_response_guards_sample :
  fst (getGolfSummary (mkState sample_session (sample_world (answering (PData (JNum 0))))))
    = inl (Error "Error in getGolfSummary: Invalid or empty golf summary data response.") /\
  fst (getHeartRate sample_lib None
         (mkState sample_session (sample_world (answering (PData (JNum 0))))))
    = inr (PData (JNum 0)).
Proof.
  split.
  - apply (proj1 (proj2 (proj2 (empty_response_guards sample_lib None JNull
             (mkState sample_session (sample_world (answering (PData (JInt 0)))))
             (PData (JInt 0)))))).
    reflexivity.
  - apply (proj2 (proj2 (proj2 (proj2 (empty_response_guards sample_lib None JNull
             (mkState sample_session (sample_world (answering (PData (JInt 0)))))
             (PData (JInt 0))))))).
    reflexivity.
Defined.

Lemma getSleepDuration_spec_sample :
  fst (getSleepDuration sample_lib None
         (mkState sample_session (sample_world (answering sample_sleep))))
  = inr (PData (JObj [("hours", JNum 7); ("minutes", JNum 30)])).
Proof.
  apply (proj1 (proj2 (proj2 (getSleepDuration_spec sample_lib None
                                (mkState sample_session (sample_world (answering sample_sleep))))))
           sample_sleep
           (JObj [("sleepStartTimestampGMT", JInt 0); ("sleepEndTimestampGMT", JInt 27000000)])
           (JInt 0) (JInt 27000000)); reflexivity.
Defined.

Lemma getDailyWeightInPounds_spec_sample :
  fst (getDailyWeightInPounds sample_lib None
         (mkState sample_session (sample_world (answering sample_weight_text))))
  = inl (Error "Can't find valid daily weight for this date.").
Proof.
  apply (proj1 (proj2 (proj2 (getDailyWeightInPounds_spec sample_lib None
           (mkState sample_session (sample_world (answering sample_weight_text))))))
           sample_weight_text); [reflexivity | reflexivity |].
  right. exact I.
Defined.

Lemma getDailyHydration_spec_sample :
  fst (getDailyHydration sample_lib None
         (mkState sample_session (sample_world (answering sample_dry_day))))
  = inl (Error "Error in getDailyHydration: Invalid or empty hydration data response.").
Proof.
  apply (proj1 (proj2 (proj2 (proj2 (getDailyHydration_spec sample_lib None
           (mkState sample_session (sample_world (answering sample_dry_day)))))))
           [("valueInML", JInt 0)] 0); reflexivity.
Defined.

Example updateHydrationLogOunces_sample :
  map fst (sent_by (updateHydrationLogOunces sample_lib 0 (JNum 8))
             (mkState sample_session (sample_world (answering sample_profile))))
  = [get_plain "https://connectapi.garmin.com/userprofile-service/socialProfile";
     Dispatch (mkRequest PUT
       "https://connectapi.garmin.com/usersummary-service/usersummary/hydration/log"
       (DataBody (JObj [("calendarDate", JStr "day-0"); ("valueInML", JNum 236);
                        ("userProfileId", JNum 1234); ("timestampLocal", JStr "T0")]))
       None)].
Proof. reflexivity. Qed.

Lemma uploadActivity_extension_never_detected_sample :
  uploadActivity sample_lib "ride.fit" (Some "")
    (mkState sample_session (sample_world (answering sample_upload_reply)))
  = (inl (Error "uploadActivity - Invalid format: "),
     mkState sample_session (sample_world (answering sample_upload_reply))).
Proof.
  apply (uploadActivity_extension_never_detected sample_lib "ride.fit").
  intros x [<-|[<-|[<-|[]]]]; split; (discriminate || reflexivity).
Defined.



Lemma exportTokenToFile_idempotent_sample :
  exportTokenToFile "/tokens"
    (snd (exportTokenToFile "/tokens" (mkState sample_session (sample_world unreachable))))
  = (inr tt,
     snd (exportTokenToFile "/tokens" (mkState sample_session (sample_world unreachable)))).
Proof.
  apply (exportTokenToFile_idempotent (mkState sample_session (sample_world unreachable))).
  reflexivity.
Defined.


Lemma file_helpers_sample :
  checkIsDirectory "/tokens/missing" (sample_world unreachable)
    = (inr false, sample_world unreachable) /\
  exists bytes,
    file_bytes sample_zip = Some bytes /\
    readFileSync "/tokens/a.zip" (snd (writeToFile "/tokens/a.zip" sample_zip
                                         (sample_world unreachable)))
      = (inr bytes, snd (writeToFile "/tokens/a.zip" sample_zip (sample_world unreachable))).
Proof.
  split.
  - apply (proj1 (file_helpers "/tokens/missing" sample_zip (sample_world unreachable))).
  - apply (proj1 (proj2 (proj2 (file_helpers "/tokens/a.zip" sample_zip
                                  (sample_world unreachable))) _ eq_refl)).
Defined.

Lemma uploadActivity_accepted_sample :
  fst (uploadActivity sample_lib "ride.fit" (Some "GPX")
         (mkState sample_session (sample_world (answering sample_upload_reply))))
    = inr sample_upload_reply /\
  map fst (sent_by (uploadActivity sample_lib "ride.fit" (Some "GPX"))
             (mkState sample_session (sample_world (answering sample_upload_reply))))
    = [Dispatch (mkRequest POST "https://connectapi.garmin.com/upload-service/upload/.GPX"
                   (FormBody "ride.fit")
                   (Some (mkOptions [] None
                            [("Content-Type", "multipart/form-data; boundary=sample")])))].
Proof.
  destruct (uploadActivity_accepted sample_lib "ride.fit" (Some "GPX")
              (mkState sample_session (sample_world (answering sample_upload_reply))) eq_refl)
    as (Hr & Hs & _).
  split; [exact Hr | now rewrite Hs].
Defined.

Lemma thin_operations_sample :
  exists req,
    sent_by (run sample_lib (Op_getActivity (Some (JNum 123))))
            (mkState sample_session (sample_world (answering sample_profile)))
      = [(req, answer (mkState sample_session (sample_world (answering sample_profile))) req)] /\
    fst (run sample_lib (Op_getActivity (Some (JNum 123)))
           (mkState sample_session (sample_world (answering sample_profile))))
      = answer (mkState sample_session (sample_world (answering sample_profile))) req /\
    snd (run sample_lib (Op_getActivity (Some (JNum 123)))
           (mkState sample_session (sample_world (answering sample_profile))))
      = after_call (mkState sample_session (sample_world (answering sample_profile))) req.
Proof.
  apply (thin_operations sample_lib (Op_getActivity (Some (JInt 123)))). reflexivity.
Defined.
